(** * Analyst reporting: the cleaning pipeline and the KPI aggregator

    A shallow embedding of [src/clean.py] and [src/kpis.py].

    - Numbers are IEEE-754 binary64 values (Rocq's primitive [float]), the
      representation of a pandas [float64] column: a missing number is NaN,
      division by zero gives an infinity or NaN and never raises.
    - Text is [string]; a character is a code point below 256, and the
      character classes of Python ([str.isspace], the regular expression
      class [\w], [str.lower]) are written out for that range.
    - A timestamp ([datetime64[ns]]) is the number of nanoseconds since
      1970-01-01T00:00, [None] being [NaT].
    - A [DataFrame] is a row count and an ordered list of labelled columns;
      labels may repeat, as pandas allows.
    - The cleaning stages run in a state-and-exception monad over a store of
      objects, so that [df.copy()] and the in-place updates of the copy are
      explicit; the aggregator works on values after its own copy. *)

From Stdlib Require Import ZArith List String Ascii Floats Lia Bool Sorted.
From stdpp Require Import base option list gmap strings pretty.

Local Open Scope string_scope.
Local Open Scope Z_scope.
Local Open Scope list_scope.

(** ** Floating-point numbers as Python and numpy read them *)
Module PyFloat.

Definition NaN : float := PrimFloat.nan.

(** [x != x]: what [isna] tests on a float. *)
Definition isna (x : float) : bool := PrimFloat.is_nan x.

(** Truth value of a Python float: every value but the two zeros. *)
Definition truthy (x : float) : bool := negb (PrimFloat.is_zero x).


(** The nearest binary64 value of an integer. *)
Definition of_Z (z : Z) : float := SF2Prim (binary_normalize prec emax z 0 false).

(** [Series.between(lo, hi)], both ends included; false on NaN. *)
Definition between (lo hi x : float) : bool :=
  PrimFloat.leb lo x && PrimFloat.leb x hi.

(** Integer part, rounding toward zero ([int(x)]); none for NaN and the
    infinities. *)
Definition trunc (x : float) : option Z :=
  match Prim2SF x with
  | S754_zero _ => Some 0
  | S754_finite s m e =>
      let a := if 0 <=? e then Z.pos m * 2 ^ e else Z.pos m / 2 ^ (- e) in
      Some (if s then - a else a)
  | _ => None
  end.

(** The value is an integer. *)
Definition is_whole (x : float) : bool :=
  match Prim2SF x with
  | S754_zero _ => true
  | S754_finite _ m e => (0 <=? e) || (Z.pos m mod 2 ^ (- e) =? 0)
  | _ => false
  end.

End PyFloat.

(** ** Python strings on code points below 256 *)
Module PyStr.

Definition code (c : ascii) : N := N_of_ascii c.

Definition in_range (lo hi : N) (c : ascii) : bool :=
  ((lo <=? code c) && (code c <=? hi))%N.

(** [str.isspace]: TAB..CR, FS..US, space, NEL and the no-break space. *)
Definition isspace (c : ascii) : bool :=
  in_range 9 13 c || in_range 28 32 c || (code c =? 133)%N || (code c =? 160)%N.

(** The class [\w] of [re] on [str] patterns: letters, digits and other
    numeric characters, and the underscore. *)
Definition isword (c : ascii) : bool :=
  in_range 48 57 c || in_range 65 90 c || (code c =? 95)%N || in_range 97 122 c
  || (code c =? 170)%N || in_range 178 179 c || (code c =? 181)%N
  || in_range 185 186 c || in_range 188 190 c
  || in_range 192 214 c || in_range 216 246 c || in_range 248 255 c.

(** [str.lower] on one character: A..Z and the capital letters of
    U+00C0..U+00DE (the multiplication sign excepted) move up by 32. *)
Definition lower_char (c : ascii) : ascii :=
  if in_range 65 90 c || in_range 192 214 c || in_range 216 222 c
  then ascii_of_N (code c + 32) else c.

Fixpoint lower (s : string) : string :=
  match s with
  | EmptyString => EmptyString
  | String c r => String (lower_char c) (lower r)
  end.

Fixpoint lstrip_by (p : ascii -> bool) (s : string) : string :=
  match s with
  | EmptyString => EmptyString
  | String c r => if p c then lstrip_by p r else s
  end.

Fixpoint rstrip_by (p : ascii -> bool) (s : string) : string :=
  match s with
  | EmptyString => EmptyString
  | String c r =>
      match rstrip_by p r with
      | EmptyString => if p c then EmptyString else String c EmptyString
      | r' => String c r'
      end
  end.

Definition strip_by (p : ascii -> bool) (s : string) : string :=
  lstrip_by p (rstrip_by p s).

(** [s.strip()] *)
Definition strip (s : string) : string := strip_by isspace s.

(** [s.strip(chars)] for a one-character [chars]. *)
Definition strip_char (k : ascii) (s : string) : string :=
  strip_by (fun c => bool_decide (c = k)) s.

(** [re.sub(cls+, "_", s)]: every maximal run of characters of the class
    [p] becomes one underscore. [run] tells that the previous character
    was of the class. *)
Fixpoint sub_runs (p : ascii -> bool) (run : bool) (s : string) : string :=
  match s with
  | EmptyString => EmptyString
  | String c r =>
      if p c
      then (if run then sub_runs p true r else String "_" (sub_runs p true r))
      else String c (sub_runs p false r)
  end.

Definition is_underscore (c : ascii) : bool := bool_decide (c = "_"%char).

End PyStr.

(** ** The proleptic Gregorian calendar behind [datetime64] *)
Module Calendar.

Definition NS_PER_DAY : Z := 86400 * 10 ^ 9.

(** Day number of a civil date, 1970-01-01 being day 0. *)
Definition days_from_civil (y m d : Z) : Z :=
  let y' := if m <=? 2 then y - 1 else y in
  let era := y' / 400 in
  let yoe := y' - era * 400 in
  let doy := (153 * (if 2 <? m then m - 3 else m + 9) + 2) / 5 + d - 1 in
  let doe := yoe * 365 + yoe / 4 - yoe / 100 + doy in
  era * 146097 + doe - 719468.

(** Civil date (year, month, day) of a day number. *)
Definition civil_from_days (z : Z) : Z * Z * Z :=
  let z := z + 719468 in
  let era := z / 146097 in
  let doe := z - era * 146097 in
  let yoe := (doe - doe / 1460 + doe / 36524 - doe / 146096) / 365 in
  let doy := doe - (365 * yoe + yoe / 4 - yoe / 100) in
  let mp := (5 * doy + 2) / 153 in
  let d := doy - (153 * mp + 2) / 5 + 1 in
  let m := if mp <? 10 then mp + 3 else mp - 9 in
  ((yoe + era * 400 + (if m <=? 2 then 1 else 0)), m, d).

(** Midnight of a civil date, in nanoseconds. *)
Definition timestamp (y m d : Z) : Z := days_from_civil y m d * NS_PER_DAY.

(** [.dt.to_period("M").dt.to_timestamp()]: midnight of the first day of
    the month the timestamp falls in. *)
Definition month_start (t : Z) : Z :=
  let '(y, m, _) := civil_from_days (t / NS_PER_DAY) in
  timestamp y m 1.

End Calendar.

(** ** The part of pandas the program uses *)
Module Pandas.
Import PyFloat.

(** Python exceptions, by class. *)
Inductive exn :=
| KeyError (key : string)
| ValueError (msg : string)
| AttributeError (msg : string)
| TypeError (msg : string)
| IndexError (msg : string).

(** A call either returns or raises. *)
Inductive Result (A : Type) :=
| Ok (a : A)
| Raise (e : exn).
Arguments Ok {A} a.
Arguments Raise {A} e.

#[global] Instance Result_ret : MRet Result := fun A a => Ok a.
#[global] Instance Result_bind : MBind Result := fun A B f m =>
  match m with
  | Ok a => f a
  | Raise e => Raise e
  end.

(** An element of an [object] column. *)
Inductive pyobj :=
| PNone                    (* None *)
| PNA                      (* pd.NA *)
| PInt (z : Z)
| PFloat (x : float)
| PStr (s : string)
| PTimestamp (t : Z).

(** A column, by dtype. Integer columns are carried as [float64], exact
    below 2^53. *)
Inductive Series :=
| SFloat (xs : list float)            (* float64, NaN is the missing value *)
| SDatetime (ts : list (option Z))    (* datetime64[ns], None is NaT *)
| SObject (os : list pyobj).          (* object *)

Definition slen (s : Series) : nat :=
  match s with
  | SFloat xs => length xs
  | SDatetime ts => length ts
  | SObject os => length os
  end.

(** A table: the length of its (range) index and its labelled columns in
    order. *)
Record DataFrame := mkDataFrame {
  index_len : nat;
  columns : list (string * Series)
}.

(** [pd.DataFrame()] *)
Definition empty_frame : DataFrame := mkDataFrame 0 [].

Definition labels (df : DataFrame) : list string := map fst (columns df).

(** [k in df.columns] *)
Definition has_column (df : DataFrame) (k : string) : bool :=
  bool_decide (k ∈ labels df).

(** What [df[k]] evaluates to: a Series when the label is borne by one
    column, a DataFrame of all the columns bearing it when it repeats. *)
Inductive selection :=
| OneColumn (s : Series)
| ManyColumns (cs : list Series).

Fixpoint select (k : string) (cs : list (string * Series)) : list Series :=
  match cs with
  | [] => []
  | (k', s) :: r => if bool_decide (k' = k) then s :: select k r else select k r
  end.

(** [df[k]] *)
Definition getitem (df : DataFrame) (k : string) : Result selection :=
  match select k (columns df) with
  | [] => Raise (KeyError k)
  | [s] => Ok (OneColumn s)
  | cs => Ok (ManyColumns cs)
  end.

(** [df[k] = s] for a Series [s]: every column labelled [k] is replaced,
    a new label is appended; a frame whose index is empty takes the index
    of the Series. *)
Definition setitem (df : DataFrame) (k : string) (s : Series) : DataFrame :=
  mkDataFrame
    (if Nat.eqb (index_len df) 0 then slen s else index_len df)
    (if has_column df k
     then map (fun c => if bool_decide (fst c = k) then (k, s) else c) (columns df)
     else columns df ++ [(k, s)]).

(** [df[k] = pd.NA] and [df[k] = pd.NaT]: the scalar fills the index. *)
Definition setitem_NA (df : DataFrame) (k : string) : DataFrame :=
  setitem df k (SObject (replicate (index_len df) PNA)).
Definition setitem_NaT (df : DataFrame) (k : string) : DataFrame :=
  setitem df k (SDatetime (replicate (index_len df) None)).

(** [df.columns = names] *)
Definition set_columns (df : DataFrame) (names : list string) : Result DataFrame :=
  if Nat.eqb (length names) (length (columns df))
  then Ok (mkDataFrame (index_len df) (zip names (map snd (columns df))))
  else Raise (ValueError "Length mismatch").

(** [df.rename(columns=ren)] for a dict [ren] *)
Definition rename (df : DataFrame) (ren : gmap string string) : DataFrame :=
  mkDataFrame (index_len df)
    (map (fun c => (default (fst c) (ren !! fst c), snd c)) (columns df)).

(** [index.duplicated().any()] *)
Definition has_duplicates (l : list string) : bool := negb (bool_decide (NoDup l)).

(** [pd.unique]: the distinct values in order of first appearance. *)
Fixpoint unique_from (seen l : list string) : list string :=
  match l with
  | [] => []
  | x :: r =>
      if bool_decide (x ∈ seen) then unique_from seen r
      else x :: unique_from (x :: seen) r
  end.
Definition unique (l : list string) : list string := unique_from [] l.

(** What the library reads from and writes as text, and the defaults that
    changed between its versions. None of it is code of this program. *)
Class Library := {
  (** [pd.to_datetime(s, errors="coerce")] at row [i] of a column of
      objects: the general calendar parse, NaT on failure. *)
  parse_datetime : Series -> nat -> option Z;
  (** [pd.to_numeric] on a [str], NaN when it is not a number. *)
  parse_number : string -> float;
  (** [str(x)] for a float that is not NaN, and for a Timestamp. *)
  repr_float : float -> string;
  repr_timestamp : Z -> string;
  (** Nanoseconds of a fraction of a day, as the unit conversion rounds. *)
  frac_day_ns : float -> Z;
  (** [Series.pct_change()] pads missing values forward by default before
      pandas 3, and does not from pandas 3 on. *)
  pct_fill_pad : bool
}.

Section WithLibrary.
Context `{Library}.

Definition obj_isna (o : pyobj) : bool :=
  match o with
  | PNone | PNA => true
  | PFloat x => isna x
  | _ => false
  end.

(** [s.isna()] *)
Definition series_isna (s : Series) : list bool :=
  match s with
  | SFloat xs => map isna xs
  | SDatetime ts => map (fun t => bool_decide (t = None)) ts
  | SObject os => map obj_isna os
  end.

(** The elements of a column as Python objects. *)
Definition objects (s : Series) : list pyobj :=
  match s with
  | SFloat xs => map PFloat xs
  | SDatetime ts => map (fun t => from_option PTimestamp PNone t) ts
  | SObject os => os
  end.

Definition obj_to_numeric (o : pyobj) : float :=
  match o with
  | PInt z => of_Z z
  | PFloat x => x
  | PStr s => parse_number s
  | PNone | PNA | PTimestamp _ => NaN
  end.

(** [pd.to_numeric(s, errors="coerce")]; a [datetime64] column is read
    as its nanosecond counts, NaT being the least 64-bit integer. *)
Definition to_numeric (s : Series) : list float :=
  match s with
  | SFloat xs => xs
  | SDatetime ts => map (fun t => of_Z (default (- 2 ^ 63) t)) ts
  | SObject os => map obj_to_numeric os
  end.

(** A number read as a date without a unit: the count of nanoseconds
    since 1970-01-01, its fraction dropped; NaT when the number is
    missing, infinite or outside the 64-bit range. *)
Definition number_to_datetime (x : float) : option Z :=
  match trunc x with
  | Some z => if (- 2 ^ 63 <? z) && (z <? 2 ^ 63) then Some z else None
  | None => None
  end.

(** [pd.to_datetime(s, errors="coerce")]: a [datetime64] column is kept,
    a column of numbers is read as nanosecond counts, a column of objects
    goes through the general calendar parse. *)
Definition to_datetime (s : Series) : list (option Z) :=
  match s with
  | SDatetime ts => ts
  | SFloat xs => map number_to_datetime xs
  | SObject _ => map (parse_datetime s) (seq 0 (slen s))
  end.

(** [pd.to_datetime(x, unit="D", origin=(y, m, d), errors="coerce")] on
    one number: the instant [x] days after the origin. The origin is
    added as a day offset from 1970-01-01, whole days are converted
    exactly, and what falls outside the 64-bit nanosecond range is
    NaT. *)
Definition to_datetime_days (origin : Z * Z * Z) (x : float) : option Z :=
  let '(y, m, d) := origin in
  let a := PrimFloat.add x (of_Z (Calendar.days_from_civil y m d)) in
  match trunc a with
  | None => None
  | Some base =>
      let ns := base * Calendar.NS_PER_DAY
                + (if is_whole a then 0
                   else frac_day_ns (PrimFloat.sub a (of_Z base))) in
      if (- 2 ^ 63 <? ns) && (ns <? 2 ^ 63) then Some ns else None
  end.

(** [str(o)] *)
Definition py_str (o : pyobj) : string :=
  match o with
  | PNone => "None"
  | PNA => "<NA>"
  | PInt z => pretty z
  | PFloat x => if isna x then "nan" else repr_float x
  | PStr s => s
  | PTimestamp t => repr_timestamp t
  end.

(** [a.combine_first(b)] on two Series over the same index: the value
    of [a] where it is not missing, that of [b] elsewhere. *)
Definition series_combine_first (a b : Series) : Series :=
  match a, b with
  | SFloat xs, SFloat ys =>
      SFloat (zip_with (fun x y => if isna x then y else x) xs ys)
  | SDatetime xs, SDatetime ys =>
      SDatetime (zip_with (fun x y => if bool_decide (x = None) then y else x) xs ys)
  | _, _ =>
      SObject (zip_with (fun x y => if obj_isna x then y else x)
                 (objects a) (objects b))
  end.

(** [s.combine_first(other)] where [s] and [other] come from [df[k]].
    On a DataFrame the method walks the column labels and reads
    [this[label].dtype]; with a repeated label [this[label]] is again a
    DataFrame, which has no [dtype]. *)
Definition combine_first (s other : selection) : Result selection :=
  match s, other with
  | OneColumn a, OneColumn b => Ok (OneColumn (series_combine_first a b))
  | _, _ => Raise (AttributeError "'DataFrame' object has no attribute 'dtype'")
  end.

(** [out[k] = v] where [v] comes from [df[k]]: a DataFrame of several
    columns cannot be set to one label. *)
Definition setitem_selection (df : DataFrame) (k : string) (v : selection)
  : Result DataFrame :=
  match v with
  | OneColumn s => Ok (setitem df k s)
  | ManyColumns _ =>
      Raise (ValueError "Cannot set a DataFrame with multiple columns to the single column")
  end.

(** [df[k]] used as a Series: with a repeated label it is a DataFrame,
    on which the call that follows raises [e]. *)
Definition as_series (e : exn) (v : selection) : Result Series :=
  match v with
  | OneColumn s => Ok s
  | ManyColumns _ => Raise e
  end.

(** [s[mask]]: the rows where the mask holds. *)
Fixpoint boolean_mask {A} (mask : list bool) (xs : list A) : list A :=
  match xs, mask with
  | x :: r, b :: m => if b then x :: boolean_mask m r else boolean_mask m r
  | _, _ => []
  end.

(** [s.loc[mask] = vals] where [vals] is indexed by the rows of the
    mask: those rows take the values in turn, the others are kept. *)
Fixpoint loc_assign {A} (xs : list A) (mask : list bool) (vals : list A) : list A :=
  match xs, mask with
  | x :: r, b :: m =>
      if b
      then match vals with
           | v :: vs => v :: loc_assign r m vs
           | [] => x :: loc_assign r m []
           end
      else x :: loc_assign r m vals
  | _, _ => xs
  end.

(** The rows of the mask become [na], the others are kept. *)
Fixpoint where_na {A} (na : A) (mask : list bool) (xs : list A) : list A :=
  match xs, mask with
  | x :: r, b :: m => (if b then na else x) :: where_na na m r
  | _, _ => xs
  end.

Definition series_set_na (mask : list bool) (s : Series) : Series :=
  match s with
  | SFloat xs => SFloat (where_na NaN mask xs)
  | SDatetime ts => SDatetime (where_na None mask ts)
  | SObject os => SObject (where_na PNA mask os)
  end.

(** [df.loc[mask, k] = pd.NA] *)
Definition loc_set_na (df : DataFrame) (mask : list bool) (k : string) : DataFrame :=
  mkDataFrame (index_len df)
    (map (fun c => if bool_decide (fst c = k) then (k, series_set_na mask (snd c)) else c)
         (columns df)).

(** [s.astype(str).str.strip()] *)
Definition astype_str_strip (s : Series) : Series :=
  SObject (map (fun o => PStr (PyStr.strip (py_str o))) (objects s)).

(** [s.isin(values)] for a list of strings *)
Definition isin (s : Series) (values : list string) : list bool :=
  map (fun o => match o with PStr t => bool_decide (t ∈ values) | _ => false end)
      (objects s).

(** [mask.sum()]: the number of rows where the mask holds. *)
Definition count_true (mask : list bool) : nat := length (List.filter id mask).

(** [mask.mean() > 0.5]. The mean is the count over the length in
    binary64, NaN for no rows; below 2^53 rows the test holds exactly
    when twice the count exceeds the length. *)
Definition mean_gt_half (mask : list bool) : bool :=
  Nat.ltb (length mask) (2 * count_true mask).

(** [df.select_dtypes(include="object").columns] *)
Definition object_columns (df : DataFrame) : list string :=
  omap (fun c => match snd c with SObject _ => Some (fst c) | _ => None end)
       (columns df).

End WithLibrary.

End Pandas.

(** ** The store of Python objects *)
Module Store.
Import Pandas.

(** The objects the cleaning stages are handed by reference. *)
Inductive object :=
| ODataFrame (df : DataFrame)
| ODict (d : gmap string string).

Definition loc := nat.

(** Objects are allocated in sequence and never freed. *)
Definition heap := list object.

(** A computation may read and update the store, and return or raise;
    the store is kept when it raises. *)
Definition M (A : Type) : Type := heap -> Result A * heap.

#[global] Instance M_ret : MRet M := fun A a h => (Ok a, h).
#[global] Instance M_bind : MBind M := fun A B f m h =>
  match m h with
  | (Ok a, h') => f a h'
  | (Raise e, h') => (Raise e, h')
  end.

Definition raise {A} (e : exn) : M A := fun h => (Raise e, h).

Definition lift {A} (r : Result A) : M A := fun h => (r, h).

Definition alloc (o : object) : M loc := fun h => (Ok (length h), h ++ [o]).

Definition read_frame (l : loc) : M DataFrame := fun h =>
  match h !! l with
  | Some (ODataFrame df) => (Ok df, h)
  | _ => (Raise (TypeError "not a DataFrame"), h)
  end.

Definition read_dict (l : loc) : M (gmap string string) := fun h =>
  match h !! l with
  | Some (ODict d) => (Ok d, h)
  | _ => (Raise (TypeError "not a dict"), h)
  end.

Definition write_frame (l : loc) (df : DataFrame) : M unit := fun h =>
  (Ok tt, <[l := ODataFrame df]> h).

(** [df.copy()]: a new object with the same contents. *)
Definition copy (l : loc) : M loc :=
  df ← read_frame l; alloc (ODataFrame df).

(** [for x in xs: body(x)] *)
Fixpoint for_each {A} (xs : list A) (body : A -> M unit) : M unit :=
  match xs with
  | [] => mret tt
  | x :: r => body x;; for_each r body
  end.

(** A loop that carries a value from one round to the next. *)
Fixpoint fold_each {A S} (xs : list A) (s : S) (body : S -> A -> M S) : M S :=
  match xs with
  | [] => mret s
  | x :: r => s' ← body s x; fold_each r s' body
  end.

End Store.

(** ** [src/clean.py] *)
Module Clean.
Import PyFloat PyStr Pandas Store.

Definition _snake (s : string) : string :=
  let s := strip s in
  let s := sub_runs (fun c => negb (isword c)) false s in
  let s := sub_runs is_underscore false s in
  strip_char "_" (lower s).

Definition DEFAULT_ALIASES : gmap string string :=
  list_to_map
    [ ("date", "date"); ("month", "date"); ("period", "date");
      ("transaction_date", "date"); ("order_date", "date");
      ("revenue", "revenue"); ("sales", "revenue"); ("total_sales", "revenue");
      ("amount", "revenue"); ("net_sales", "revenue");
      ("cost", "cost"); ("cogs", "cost"); ("total_cost", "cost");
      ("units", "units"); ("qty", "units"); ("quantity", "units");
      ("region", "region"); ("state", "region");
      ("product", "product"); ("sku", "product"); ("category", "product") ].

Definition REQUIRED : list string := ["date"; "revenue"].

Record CleanResult := mkCleanResult {
  df : loc;
  warnings : list string
}.

Section WithLibrary.
Context `{Library}.

Definition standardise_columns (df : loc) : M loc :=
  df ← copy df;
  d ← read_frame df;
  d ← lift (set_columns d (map _snake (labels d)));
  write_frame df d;;
  mret df.

(** [aliases or DEFAULT_ALIASES]: the default stands in for [None] and
    for an empty dict. *)
Definition aliases_or_default (aliases : option loc) : M (gmap string string) :=
  match aliases with
  | None => mret DEFAULT_ALIASES
  | Some a =>
      d ← read_dict a;
      mret (if bool_decide (d = ∅) then DEFAULT_ALIASES else d)
  end.

(** The body of [for col in pd.unique(df.columns)]: the columns of [d]
    labelled [col] are merged into the column [col] of [out]. *)
Definition merge_duplicates (d : DataFrame) (out : loc) (col : string) : M unit :=
  let cols := List.filter (fun c => bool_decide (c = col)) (labels d) in
  if Nat.eqb (length cols) 1 then
    v ← lift (getitem d col);
    o ← read_frame out;
    o ← lift (setitem_selection o col v);
    write_frame out o
  else
    (* combine_first left-to-right *)
    match cols with
    | [] => raise (IndexError "list index out of range")
    | c0 :: rest =>
        s ← lift (getitem d c0);
        s ← fold_each rest s (fun s k =>
              other ← lift (getitem d k);
              lift (combine_first s other));
        o ← read_frame out;
        o ← lift (setitem_selection o col s);
        write_frame out o
    end.

(** [ren]: the labels of the table that are keys of [aliases], with their
    canonical names. *)
Definition renaming (aliases : gmap string string) (ls : list string) : gmap string string :=
  foldl (fun ren c =>
           match aliases !! c with
           | Some v => <[c := v]> ren
           | None => ren
           end) ∅ ls.

Definition apply_aliases (df : loc) (aliases : option loc) : M loc :=
  df ← copy df;
  aliases ← aliases_or_default aliases;
  d ← read_frame df;
  df ← alloc (ODataFrame (rename d (renaming aliases (labels d))));
  d ← read_frame df;
  (* If duplicates appear after aliasing (e.g. sales + revenue),
     keep the first non-null across duplicates. *)
  if has_duplicates (labels d) then
    out ← alloc (ODataFrame empty_frame);
    for_each (unique (labels d)) (merge_duplicates d out);;
    mret out
  else mret df.

(** The date block: the general parse, overridden on the rows whose number
    lies in [20000, 60000] by the day count from 1899-12-30. *)
Definition coerce_dates (s : Series) : list (option Z) :=
  (* 1) Normal parsing *)
  let parsed := to_datetime s in
  (* 2) Excel serial day numbers *)
  let num := to_numeric s in
  let excel_like := map (between 20000 60000) num in
  if existsb id excel_like then
    let parsed_excel :=
      map (to_datetime_days (1899, 12, 30)) (boolean_mask excel_like num) in
    loc_assign parsed excel_like parsed_excel
  else parsed.

(** The body of [for c in obj_cols]. *)
Definition clean_strings (df : loc) (c : string) : M unit :=
  d ← read_frame df;
  v ← lift (getitem d c);
  s ← lift (as_series (AttributeError "'DataFrame' object has no attribute 'str'") v);
  write_frame df (setitem d c (astype_str_strip s));;
  d ← read_frame df;
  v ← lift (getitem d c);
  s ← lift (as_series (AttributeError "'DataFrame' object has no attribute 'isin'") v);
  write_frame df (loc_set_na d (isin s [""; "nan"; "None"; "NULL"; "null"]) c).

(** The body of [for c in ["revenue", "cost", "units"]]. *)
Definition coerce_number (df : loc) (c : string) : M unit :=
  d ← read_frame df;
  if has_column d c then
    v ← lift (getitem d c);
    s ← lift (as_series (TypeError "arg must be a list, tuple, 1-d array, or Series") v);
    write_frame df (setitem d c (SFloat (to_numeric s)))
  else mret tt.

Definition coerce_types (df : loc) : M loc :=
  df ← copy df;

  (* ---- Date FIRST (robust: normal strings + Excel serials) ---- *)
  d ← read_frame df;
  (if has_column d "date" then
     v ← lift (getitem d "date");
     s ← lift (as_series (ValueError "to assemble mappings requires at least that [year, month, day] be specified") v);
     write_frame df (setitem d "date" (SDatetime (coerce_dates s)))
   else mret tt);;

  (* ---- Then clean strings (EXCLUDE date so we don't break it) ---- *)
  d ← read_frame df;
  let obj_cols :=
    List.filter (fun c => negb (bool_decide (c = "date"))) (object_columns d) in
  for_each obj_cols (clean_strings df);;

  (* ---- Numerics ---- *)
  for_each ["revenue"; "cost"; "units"] (coerce_number df);;

  mret df.

(** The body of [for r in REQUIRED]. *)
Definition check_required (d : DataFrame) (warnings : list string) (r : string)
  : M (list string) :=
  if negb (has_column d r) then
    mret (warnings ++ ["Missing required column: '" +:+ r +:+ "'"])
  else
    v ← lift (getitem d r);
    s ← lift (as_series (ValueError "The truth value of a Series is ambiguous") v);
    if mean_gt_half (series_isna s) then
      mret (warnings ++ ["Column '" +:+ r +:+ "' has >50% missing values"])
    else mret warnings.

Definition validate (df : loc) : M (list string) :=
  d ← read_frame df;
  warnings ← fold_each REQUIRED [] (check_required d);
  if has_column d "date" then
    v ← lift (getitem d "date");
    s ← lift (as_series (ValueError "The truth value of a Series is ambiguous") v);
    let bad := count_true (series_isna s) in
    if Nat.ltb 0 bad then
      mret (warnings ++ ["Rows with unparseable dates: " +:+ pretty bad])
    else mret warnings
  else mret warnings.

Definition clean (df_raw : loc) (aliases : option loc) : M CleanResult :=
  df ← standardise_columns df_raw;
  df ← apply_aliases df aliases;
  df ← coerce_types df;
  warnings ← validate df;
  mret (mkCleanResult df warnings).

(** A stage run on a table of its own: the table is the only object of
    the store, and the table the stage returns is read back. *)
Definition run_on (stage : loc -> M loc) (t : DataFrame) : Result DataFrame :=
  fst ((l ← stage 0%nat; read_frame l) [ODataFrame t]).

End WithLibrary.

End Clean.

(** ** [src/kpis.py] *)
Module Kpis.
Import PyFloat Pandas.

(** *** Grouping and the column arithmetic of pandas *)

(** [s.sum(skipna=True)] and the [sum] of a group: missing values are
    left out and nothing sums to zero. The additions are made left to
    right; the library's order of summation may differ in the last bits
    of a long column. *)
Definition nansum (xs : list float) : float :=
  fold_left (fun acc x => if isna x then acc else PrimFloat.add acc x) xs 0%float.

(** [s.shift(1)] *)
Definition shift (xs : list float) : list float := take (length xs) (NaN :: xs).

(** [s.diff()]: the first row is set to NaN, every other row is the value
    less the value of the row before. *)
Definition diff (xs : list float) : list float :=
  match xs with
  | [] => []
  | _ :: r => NaN :: zip_with PrimFloat.sub r xs
  end.

(** [s.ffill()]: a missing value takes the last value before it that is
    not missing. *)
Fixpoint ffill_from (last : float) (xs : list float) : list float :=
  match xs with
  | [] => []
  | x :: r => let v := if isna x then last else x in v :: ffill_from v r
  end.
Definition ffill (xs : list float) : list float := ffill_from NaN xs.

(** Group keys are compared as objects: numbers by value, then
    timestamps, then strings by code point; all missing values are one
    key, which comes last. *)
Definition obj_rank (o : pyobj) : nat :=
  if obj_isna o then 3%nat
  else match o with
       | PInt _ | PFloat _ => 0%nat
       | PTimestamp _ => 1%nat
       | _ => 2%nat
       end.

Definition obj_number (o : pyobj) : float :=
  match o with
  | PInt z => of_Z z
  | PFloat x => x
  | _ => NaN
  end.

Definition obj_eqb (a b : pyobj) : bool :=
  Nat.eqb (obj_rank a) (obj_rank b) &&
  match a, b with
  | PStr s, PStr t => bool_decide (s = t)
  | PTimestamp s, PTimestamp t => (s =? t)
  | _, _ =>
      if Nat.eqb (obj_rank a) 0 then PrimFloat.eqb (obj_number a) (obj_number b)
      else true
  end.

Definition obj_leb (a b : pyobj) : bool :=
  Nat.ltb (obj_rank a) (obj_rank b) ||
  (Nat.eqb (obj_rank a) (obj_rank b) &&
   match a, b with
   | PStr s, PStr t => String.leb s t
   | PTimestamp s, PTimestamp t => (s <=? t)
   | _, _ =>
       if Nat.eqb (obj_rank a) 0 then PrimFloat.leb (obj_number a) (obj_number b)
       else true
   end).

(** A group key is the tuple of the key columns at a row. *)
Fixpoint row_eqb (a b : list pyobj) : bool :=
  match a, b with
  | [], [] => true
  | x :: a', y :: b' => obj_eqb x y && row_eqb a' b'
  | _, _ => false
  end.

Fixpoint row_leb (a b : list pyobj) : bool :=
  match a, b with
  | [], _ => true
  | _ :: _, [] => false
  | x :: a', y :: b' =>
      if obj_eqb x y then row_leb a' b' else obj_leb x y
  end.

Fixpoint insert_row (r : list pyobj) (l : list (list pyobj)) : list (list pyobj) :=
  match l with
  | [] => [r]
  | x :: l' => if row_leb r x then r :: l else x :: insert_row r l'
  end.

Definition sort_rows (l : list (list pyobj)) : list (list pyobj) :=
  foldr insert_row [] l.

Fixpoint distinct_rows (seen l : list (list pyobj)) : list (list pyobj) :=
  match l with
  | [] => []
  | r :: l' =>
      if existsb (row_eqb r) seen then distinct_rows seen l'
      else r :: distinct_rows (r :: seen) l'
  end.

(** The key tuples of the rows, from the key columns. *)
Fixpoint key_rows (n : nat) (cols : list (list pyobj)) : list (list pyobj) :=
  match n with
  | O => []
  | S n' =>
      omap head cols :: key_rows n' (map (drop 1) cols)
  end.

(** [groupby(keys, dropna=False)]: the distinct key tuples in ascending
    order, missing keys last; [sort_values] on the same keys afterwards
    keeps that order. *)
Definition group_keys (n : nat) (cols : list (list pyobj)) : list (list pyobj) :=
  sort_rows (distinct_rows [] (key_rows n cols)).

(** [agg(name=(col, "sum"))]: the sum of the column over each group. *)
Definition group_sum (n : nat) (cols : list (list pyobj))
    (groups : list (list pyobj)) (xs : list float) : list float :=
  map (fun g => nansum (boolean_mask (map (row_eqb g) (key_rows n cols)) xs)) groups.

(** A key column of the result holds the keys in the dtype of the column
    grouped on; the missing key reads NaN or NaT. *)
Definition key_column (like : Series) (i : nat) (groups : list (list pyobj)) : Series :=
  let ks := map (fun g => default PNone (g !! i)) groups in
  match like with
  | SFloat _ => SFloat (map obj_number ks)
  | SDatetime _ =>
      SDatetime (map (fun k => match k with PTimestamp t => Some t | _ => None end) ks)
  | SObject _ => SObject (map (fun k => if obj_isna k then PFloat NaN else k) ks)
  end.

(** The five tables [build_tables] returns, by their keys in the dict. *)
Record Tables := mkTables {
  Summary : DataFrame;
  Trends : DataFrame;
  Variance : DataFrame;
  Drilldown_Region : DataFrame;
  Drilldown_Product : DataFrame
}.

Section WithLibrary.
Context `{Library}.

(** [s.pct_change()]: the column, padded forward when the library does
    so by default, over itself shifted by one row, less one. *)
Definition pct_change (xs : list float) : list float :=
  let data := if pct_fill_pad then ffill xs else xs in
  zip_with (fun c p => PrimFloat.sub (PrimFloat.div c p) 1%float) data (shift data).

(** [df[k]] where the program goes on with a Series. *)
Definition get_series (e : exn) (df : DataFrame) (k : string) : Result Series :=
  v ← getitem df k; as_series e v.

(** [df[k]] of a column the program has made numeric. *)
Definition get_floats (df : DataFrame) (k : string) : Result (list float) :=
  s ← get_series (ValueError "Data must be 1-dimensional") df k;
  mret (to_numeric s).

Definition _add_month (df : DataFrame) : Result DataFrame :=
  (* df = df.copy(): the updates below are made on the copy *)
  if has_column df "date" then
    s ← get_series (AttributeError "'DataFrame' object has no attribute 'dt'") df "date";
    match s with
    | SDatetime ts =>
        mret (setitem df "month" (SDatetime (map (fmap Calendar.month_start) ts)))
    | _ => Raise (AttributeError "Can only use .dt accessor with datetimelike values")
    end
  else mret (setitem_NaT df "month").

(** [df[c] = pd.to_numeric(df[c], errors="coerce")] *)
Definition coerce_numeric (df : DataFrame) (c : string) : Result DataFrame :=
  s ← get_series (TypeError "arg must be a list, tuple, 1-d array, or Series") df c;
  mret (setitem df c (SFloat (to_numeric s))).

(** --- Drilldowns ---
    [df.groupby(["month", dim], dropna=False, as_index=False)
      .agg(revenue=("revenue", "sum"), gross_profit=("gross_profit", "sum"))
      .sort_values(["month", dim])] *)
Definition drilldown (df : DataFrame) (dim : string) : Result DataFrame :=
  month ← get_series (ValueError "Grouper for 'month' not 1-dimensional") df "month";
  d ← get_series (ValueError "Grouper not 1-dimensional") df dim;
  revenue ← get_floats df "revenue";
  gross_profit ← get_floats df "gross_profit";
  let keys := [objects month; objects d] in
  let groups := group_keys (index_len df) keys in
  mret (mkDataFrame (length groups)
          [ ("month", key_column month 0 groups);
            (dim, key_column d 1 groups);
            ("revenue", SFloat (group_sum (index_len df) keys groups revenue));
            ("gross_profit", SFloat (group_sum (index_len df) keys groups gross_profit)) ]).

(** [if c not in df.columns: df[c] = pd.NA] *)
Definition ensure_column (df : DataFrame) (c : string) : DataFrame :=
  if has_column df c then df else setitem_NA df c.

(** The preparation of the fact table: the month, the columns that may be
    missing, the numeric columns and the two derived columns. *)
Definition prepare (df : DataFrame) : Result DataFrame :=
  df ← _add_month df;

  (* Ensure columns exist even if missing in source *)
  let df := foldl ensure_column df ["cost"; "units"; "region"; "product"] in

  df ← coerce_numeric df "cost";
  df ← coerce_numeric df "units";
  df ← coerce_numeric df "revenue";

  revenue ← get_floats df "revenue";
  cost ← get_floats df "cost";
  let df := setitem df "gross_profit" (SFloat (zip_with PrimFloat.sub revenue cost)) in
  gross_profit ← get_floats df "gross_profit";
  revenue ← get_floats df "revenue";
  mret (setitem df "margin" (SFloat (zip_with PrimFloat.div gross_profit revenue))).

(** --- Summary (overall) --- *)
Definition summary_table (df : DataFrame) : Result DataFrame :=
  revenue ← get_floats df "revenue";
  cost ← get_floats df "cost";
  gross_profit ← get_floats df "gross_profit";
  units ← get_floats df "units";
  mret (mkDataFrame 6
    [ ("metric", SObject (map PStr
         ["revenue"; "cost"; "gross_profit"; "margin"; "units"; "rows_loaded"]));
      ("value", SObject
         [ PFloat (nansum revenue);
           PFloat (nansum cost);
           PFloat (nansum gross_profit);
           (if truthy (nansum revenue)
            then PFloat (PrimFloat.div (nansum gross_profit) (nansum revenue))
            else PNA);
           PFloat (nansum units);
           PInt (Z.of_nat (index_len df)) ]) ]).

(** --- Trends (monthly) --- *)
Definition trends_table (df : DataFrame) : Result DataFrame :=
  month ← get_series (ValueError "Grouper for 'month' not 1-dimensional") df "month";
  revenue ← get_floats df "revenue";
  cost ← get_floats df "cost";
  gross_profit ← get_floats df "gross_profit";
  units ← get_floats df "units";
  let keys := [objects month] in
  let groups := group_keys (index_len df) keys in
  let agg := group_sum (index_len df) keys groups in
  let trends :=
    mkDataFrame (length groups)
      [ ("month", key_column month 0 groups);
        ("revenue", SFloat (agg revenue));
        ("cost", SFloat (agg cost));
        ("gross_profit", SFloat (agg gross_profit));
        ("units", SFloat (agg units)) ] in
  gross_profit ← get_floats trends "gross_profit";
  revenue ← get_floats trends "revenue";
  mret (setitem trends "margin" (SFloat (zip_with PrimFloat.div gross_profit revenue))).

(** --- Variance (MoM) --- *)
Definition variance_table (trends : DataFrame) : Result DataFrame :=
  (* variance = trends.copy() *)
  foldl (fun variance col =>
           variance ← variance;
           xs ← get_floats variance col;
           let variance := setitem variance (col +:+ "_mom_abs") (SFloat (diff xs)) in
           xs ← get_floats variance col;
           mret (setitem variance (col +:+ "_mom_pct") (SFloat (pct_change xs))))
        (Ok trends) ["revenue"; "cost"; "gross_profit"; "units"; "margin"].

Definition build_tables (df : DataFrame) : Result Tables :=
  df ← prepare df;
  summary ← summary_table df;
  trends ← trends_table df;
  variance ← variance_table trends;
  by_region ← drilldown df "region";
  by_product ← drilldown df "product";
  mret (mkTables summary trends variance by_region by_product).

End WithLibrary.

End Kpis.

(** ** Reading the tables, and the tables the properties are stated on *)
Module Reading.
Import PyFloat Pandas.

(** The values of a column of numbers, when the label names one. *)
Definition floats_of (t : DataFrame) (name : string) : option (list float) :=
  match select name (columns t) with
  | [SFloat xs] => Some xs
  | _ => None
  end.

Definition float_at (t : DataFrame) (name : string) (i : nat) : option float :=
  xs ← floats_of t name; xs !! i.

Fixpoint value_of (metric : string) (ms vs : list pyobj) : option pyobj :=
  match ms, vs with
  | PStr m :: ms', v :: vs' =>
      if bool_decide (m = metric) then Some v else value_of metric ms' vs'
  | _ :: ms', _ :: vs' => value_of metric ms' vs'
  | _, _ => None
  end.

(** The value the Summary table gives for a metric. *)
Definition summary_value (summary : DataFrame) (metric : string) : option pyobj :=
  match select "metric" (columns summary), select "value" (columns summary) with
  | [SObject ms], [SObject vs] => value_of metric ms vs
  | _, _ => None
  end.

(** A table with the given headers and no row. *)
Definition empty_with_headers (t : DataFrame) (headers : list string) : Prop :=
  index_len t = 0%nat /\ labels t = headers /\
  Forall (fun c => slen (snd c) = 0%nat) (columns t).

(** The date column, when there is one, holds timestamps. *)
Definition date_is_datetime (t : DataFrame) : bool :=
  forallb (fun c => negb (bool_decide (fst c = "date")) ||
                    match snd c with SDatetime _ => true | _ => false end)
          (columns t).

(** What the aggregator needs of its input: distinct labels, a revenue
    column, and a date column of timestamps if there is a date column. *)
Definition fact_table (t : DataFrame) : bool :=
  bool_decide (NoDup (labels t)) && has_column t "revenue" && date_is_datetime t.

(** Every column is as long as the index. *)
Definition aligned (t : DataFrame) : bool :=
  forallb (fun c => Nat.eqb (slen (snd c)) (index_len t)) (columns t).

(** A table as [prepare] leaves it: distinct labels, the month as
    timestamps, the numeric and the derived columns as numbers, and the two
    dimensions. *)
Definition prepared (d : DataFrame) : Prop :=
  NoDup (labels d) /\
  (exists ms, select "month" (columns d) = [SDatetime ms]) /\
  (forall k, k ∈ ["revenue"; "cost"; "units"; "gross_profit"] ->
             exists xs, select k (columns d) = [SFloat xs]) /\
  (forall k, k ∈ ["region"; "product"] -> exists s, select k (columns d) = [s]).

(** The index of [d] is that of [df], as long as [df] has rows or its
    columns are as long as its index. *)
Definition same_index (df d : DataFrame) : Prop :=
  (index_len df <> 0%nat -> index_len d = index_len df) /\
  (aligned df = true -> index_len d = index_len df /\ aligned d = true).

(** The columns of a prepared table the five tables are computed from. *)
Definition core (n : nat) (month region product : Series)
    (revenue cost units gross_profit : list float) : DataFrame :=
  mkDataFrame n
    [ ("month", month); ("region", region); ("product", product);
      ("revenue", SFloat revenue); ("cost", SFloat cost); ("units", SFloat units);
      ("gross_profit", SFloat gross_profit) ].

(** The columns of Trends that Variance differences. *)
Definition mom_columns : list string :=
  ["revenue"; "cost"; "gross_profit"; "units"; "margin"].

(** A stand-in for the library on tables that hold no text: it reads no
    date and no number out of a string. *)
Definition text_free (pad : bool) : Library :=
  {| parse_datetime := fun _ _ => None;
     parse_number := fun _ => NaN;
     repr_float := fun _ => "";
     repr_timestamp := fun _ => "";
     frac_day_ns := fun _ => 0;
     pct_fill_pad := pad |}.

(** The table of one January sale at no revenue and a cost of five. *)
Definition zero_revenue_month : DataFrame :=
  mkDataFrame 1
    [ ("date", SDatetime [Some (Calendar.timestamp 2023 1 15)]);
      ("revenue", SFloat [0%float]);
      ("cost", SFloat [5%float]) ].

(** A January without revenue followed by a February with some. *)
Definition two_months : DataFrame :=
  mkDataFrame 2
    [ ("date", SDatetime [Some (Calendar.timestamp 2025 1 10);
                          Some (Calendar.timestamp 2025 2 10)]);
      ("revenue", SFloat [0%float; 10%float]) ].

(** A fact table without rows. *)
Definition no_rows : DataFrame :=
  mkDataFrame 0 [("date", SDatetime []); ("revenue", SFloat [])].

(** The number of columns that bear a label. *)
Definition count_label (u : string) (ls : list string) : nat :=
  length (List.filter (fun c => bool_decide (c = u)) ls).

(** What [DataFrame.combine_first] raises on a repeated label. *)
Definition no_dtype : exn := AttributeError "'DataFrame' object has no attribute 'dtype'".

(** The table after renaming by the alias table [A]. *)
Definition renamed (A : gmap string string) (t : DataFrame) : DataFrame :=
  mkDataFrame (index_len t)
    (map (fun c => (default (fst c) (A !! fst c), snd c)) (columns t)).

(** The canonical fields: the values of the default alias table. *)
Definition canonical_names : list string :=
  ["date"; "revenue"; "cost"; "units"; "region"; "product"].

(** The Schema Normalizer: the first two stages of [clean], with the
    default alias table. *)
Definition normalise `{Library} (l : Store.loc) : Store.M Store.loc :=
  l ← Clean.standardise_columns l; Clean.apply_aliases l None.

(** The strings that stand for a missing value. *)
Definition null_markers : list string := [""; "nan"; "None"; "NULL"; "null"].

(** An element of a text column after the string step: its text without
    the surrounding whitespace, or [pd.NA] when that text is a marker. *)
Definition clean_text `{Library} (o : pyobj) : pyobj :=
  let t := PyStr.strip (py_str o) in
  if bool_decide (t ∈ null_markers) then PNA else PStr t.

Definition clean_series `{Library} (s : Series) : Series :=
  SObject (map clean_text (objects s)).

(** The columns whose label satisfies [P], each replaced by its image
    under [f]. *)
Definition update_columns (P : string -> bool) (f : Series -> Series)
    (cs : list (string * Series)) : list (string * Series) :=
  map (fun c => if P (fst c) then (fst c, f (snd c)) else c) cs.

(** What [coerce_types] makes of one column. *)
Definition coerce_column `{Library} (c : string * Series) : string * Series :=
  let k := fst c in
  let s1 := if bool_decide (k = "date") then SDatetime (Clean.coerce_dates (snd c)) else snd c in
  let s2 := match s1 with SObject _ => clean_series s1 | _ => s1 end in
  let s3 := if bool_decide (k ∈ ["revenue"; "cost"; "units"])
            then SFloat (to_numeric s2) else s2 in
  (k, s3).

(** More than half of the values of the column [r] are missing. *)
Definition mostly_missing (t : DataFrame) (r : string) : bool :=
  match select r (columns t) with
  | [s] => mean_gt_half (series_isna s)
  | _ => false
  end.

(** The number of missing values of the column [r]. *)
Definition missing_count (t : DataFrame) (r : string) : nat :=
  match select r (columns t) with
  | [s] => count_true (series_isna s)
  | _ => 0%nat
  end.

(** The warning of the required field [r], if any. *)
Definition required_warning (t : DataFrame) (r : string) : list string :=
  if has_column t r then
    if mostly_missing t r then ["Column '" +:+ r +:+ "' has >50% missing values"] else []
  else ["Missing required column: '" +:+ r +:+ "'"].

(** The warning of the date-quality check, if any. *)
Definition date_warning (t : DataFrame) : list string :=
  if has_column t "date" && Nat.ltb 0 (missing_count t "date")
  then ["Rows with unparseable dates: " +:+ pretty (missing_count t "date")]
  else [].

Definition expected_warnings (t : DataFrame) : list string :=
  required_warning t "date" ++ required_warning t "revenue" ++ date_warning t.

(** The outcome [r] of a run from the store [h]: the objects of [h] are
    as they were, new ones may follow them, and a returned value
    satisfies [Q]. *)
Definition extends_from {A} (h : Store.heap) (Q : A -> Prop) (r : Result A * Store.heap) : Prop :=
  (exists new, snd r = h ++ new) /\
  match fst r with Ok a => Q a | Raise _ => True end.

(** [m] keeps the objects of [h0] whatever follows them. *)
Definition keeps {A} (h0 : Store.heap) (Q : A -> Prop) (m : Store.M A) : Prop :=
  forall x, extends_from h0 Q (m (h0 ++ x)).

(** A location that is not one of [h]. *)
Definition fresh (h : Store.heap) (l : Store.loc) : Prop := (length h <= l)%nat.

(** A table with a revenue column of one missing value, and no date. *)
Definition revenue_missing : DataFrame :=
  mkDataFrame 1 [("revenue", SFloat [NaN])].

(** Two source columns that the default alias table sends to [revenue]. *)
Definition sales_and_revenue : DataFrame :=
  mkDataFrame 3
    [ ("Sales", SFloat [10%float; NaN; 30%float]);
      ("Revenue", SFloat [NaN; 20%float; NaN]) ].

(** A date column of two numbers: a spreadsheet serial and a small one. *)
Definition serial_and_small : DataFrame :=
  mkDataFrame 2 [("date", SFloat [44927%float; 5%float])].

(** A text column of a marker in blanks and of markers in other case. *)
Definition region_markers : DataFrame :=
  mkDataFrame 3 [("region", SObject [PStr " null "; PStr "NONE"; PStr "Null"])].

(** A table of canonical labels. *)
Definition canonical_sample : DataFrame :=
  mkDataFrame 1 [("date", SFloat [44927%float]); ("revenue", SFloat [1%float])].

(** A table with revenue and without date. *)
Definition revenue_only : DataFrame :=
  mkDataFrame 2 [("revenue", SFloat [1%float; NaN])].

(** Every character of the string satisfies [p]. *)
Fixpoint all_chars (p : ascii -> bool) (s : string) : bool :=
  match s with
  | EmptyString => true
  | String c r => p c && all_chars p r
  end.

Definition starts_with (p : ascii -> bool) (s : string) : bool :=
  match s with
  | EmptyString => false
  | String c _ => p c
  end.

Fixpoint ends_with (p : ascii -> bool) (s : string) : bool :=
  match s with
  | EmptyString => false
  | String c EmptyString => p c
  | String _ r => ends_with p r
  end.

(** No underscore is followed by an underscore. *)
Fixpoint single_underscores (s : string) : bool :=
  match s with
  | EmptyString => true
  | String c r =>
      negb (PyStr.is_underscore c && starts_with PyStr.is_underscore r) && single_underscores r
  end.

(** A word character that [str.lower] leaves as it is. *)
Definition snake_char (c : ascii) : bool :=
  PyStr.isword c && Ascii.eqb (PyStr.lower_char c) c.

(** A name in snake case: word characters in lower case, underscores one
    at a time and neither first nor last. *)
Definition snake_case (s : string) : bool :=
  all_chars snake_char s && single_underscores s &&
  negb (starts_with PyStr.is_underscore s) && negb (ends_with PyStr.is_underscore s).

(** The table with every label in snake case. *)
Definition snake_labels (t : DataFrame) : DataFrame :=
  mkDataFrame (index_len t) (map (fun c => (Clean._snake (fst c), snd c)) (columns t)).

(** The alias table in use for the dict [d] the caller passes. *)
Definition aliases_in_use (d : gmap string string) : gmap string string :=
  if bool_decide (d = ∅) then Clean.DEFAULT_ALIASES else d.

(** The three kinds of column. *)
Definition is_datetime (s : Series) : bool :=
  match s with SDatetime _ => true | _ => false end.

Definition is_float (s : Series) : bool :=
  match s with SFloat _ => true | _ => false end.

Definition is_object (s : Series) : bool :=
  match s with SObject _ => true | _ => false end.

(** Two columns that the default alias table sends to [revenue]. *)
Definition sales_revenue : DataFrame :=
  mkDataFrame 3
    [ ("sales", SFloat [10%float; NaN; 30%float]);
      ("revenue", SFloat [NaN; 20%float; NaN]) ].

(** An alias dict of the caller's. *)
Definition turnover_alias : gmap string string := {[ "turnover" := "revenue" ]}.

(** A table for that dict. *)
Definition turnover_sales : DataFrame :=
  mkDataFrame 1 [("turnover", SFloat [1%float]); ("sales", SFloat [2%float])].

(** A raw table as a file gives it. *)
Definition raw_sample : DataFrame :=
  mkDataFrame 2
    [ ("Order Date", SFloat [44927%float; 44958%float]);
      (" Total-Sales ", SFloat [10%float; 20%float]);
      ("State", SObject [PStr " NSW "; PStr "null"]) ].


(** The column [k] of the source, or the column of [pd.NA] that stands in
    for it when the source has none. *)
Definition column_or_NA (df : DataFrame) (k : string) : Series :=
  match select k (columns df) with
  | [s] => s
  | _ => SObject (replicate (index_len df) PNA)
  end.

(** The numbers of the column [k] of the source. *)
Definition numbers_of `{Library} (df : DataFrame) (k : string) : list float :=
  to_numeric (column_or_NA df k).

(** The month of each row of the source: the first day of the month of
    its date, NaT without a date. *)
Definition month_of_dates (df : DataFrame) : list (option Z) :=
  match select "date" (columns df) with
  | [SDatetime ts] => map (fmap Calendar.month_start) ts
  | _ => replicate (index_len df) None
  end.

(** A fact table as pandas holds it: distinct labels, a revenue column, a
    date column of timestamps if any, every column as long as the index. *)
Definition well_formed (df : DataFrame) : bool := fact_table df && aligned df.

(** The five tables, computed from the columns of the source. *)
Definition expected_tables `{Library} (df : DataFrame) : Kpis.Tables :=
  let n := index_len df in
  let ms := SDatetime (month_of_dates df) in
  let r := numbers_of df "revenue" in
  let c := numbers_of df "cost" in
  let u := numbers_of df "units" in
  let g := zip_with PrimFloat.sub r c in
  let keys := [objects ms] in
  let groups := Kpis.group_keys n keys in
  let agg := Kpis.group_sum n keys groups in
  let M := zip_with PrimFloat.div (agg g) (agg r) in
  let trends :=
    [ ("month", Kpis.key_column ms 0 groups);
      ("revenue", SFloat (agg r)); ("cost", SFloat (agg c));
      ("gross_profit", SFloat (agg g)); ("units", SFloat (agg u));
      ("margin", SFloat M) ] in
  let drill (dim : string) :=
    let s := column_or_NA df dim in
    let keys := [objects ms; objects s] in
    let groups := Kpis.group_keys n keys in
    mkDataFrame (length groups)
      [ ("month", Kpis.key_column ms 0 groups); (dim, Kpis.key_column s 1 groups);
        ("revenue", SFloat (Kpis.group_sum n keys groups r));
        ("gross_profit", SFloat (Kpis.group_sum n keys groups g)) ] in
  Kpis.mkTables
    (mkDataFrame 6
       [ ("metric", SObject (map PStr
            ["revenue"; "cost"; "gross_profit"; "margin"; "units"; "rows_loaded"]));
         ("value", SObject
            [ PFloat (Kpis.nansum r); PFloat (Kpis.nansum c); PFloat (Kpis.nansum g);
              (if truthy (Kpis.nansum r)
               then PFloat (PrimFloat.div (Kpis.nansum g) (Kpis.nansum r)) else PNA);
              PFloat (Kpis.nansum u); PInt (Z.of_nat n) ]) ])
    (mkDataFrame (length groups) trends)
    (mkDataFrame (length groups)
       (trends ++
        [ ("revenue_mom_abs", SFloat (Kpis.diff (agg r)));
          ("revenue_mom_pct", SFloat (Kpis.pct_change (agg r)));
          ("cost_mom_abs", SFloat (Kpis.diff (agg c)));
          ("cost_mom_pct", SFloat (Kpis.pct_change (agg c)));
          ("gross_profit_mom_abs", SFloat (Kpis.diff (agg g)));
          ("gross_profit_mom_pct", SFloat (Kpis.pct_change (agg g)));
          ("units_mom_abs", SFloat (Kpis.diff (agg u)));
          ("units_mom_pct", SFloat (Kpis.pct_change (agg u)));
          ("margin_mom_abs", SFloat (Kpis.diff M));
          ("margin_mom_pct", SFloat (Kpis.pct_change M)) ]))
    (drill "region") (drill "product").






(** A table with a date column of text. *)
Definition text_dates : DataFrame :=
  mkDataFrame 1 [("date", SObject [PStr "2023-01-15"]); ("revenue", SFloat [1%float])].

(** A table with a date and no revenue. *)
Definition dates_only : DataFrame :=
  mkDataFrame 1 [("date", SDatetime [Some (Calendar.timestamp 2023 1 15)])].

(** Two months of revenue without a cost column. *)
Definition revenue_without_cost : DataFrame :=
  mkDataFrame 2
    [ ("date", SDatetime [Some (Calendar.timestamp 2025 1 10);
                          Some (Calendar.timestamp 2025 2 10)]);
      ("revenue", SFloat [4%float; 10%float]) ].

(** The part of [prepare] up to the columns that may be missing. *)
Definition with_columns (df : DataFrame) : DataFrame :=
  foldl Kpis.ensure_column (setitem df "month" (SDatetime (month_of_dates df)))
        ["cost"; "units"; "region"; "product"].

End Reading.

(** * Properties *)

(** ** Binary64 arithmetic at the missing value, at zero and at infinity *)
Module FloatFacts.
Import PyFloat.

Lemma Prim2SF_NaN : Prim2SF NaN = S754_nan.
Proof. reflexivity. Qed.







Lemma div_NaN_r (x : float) : PrimFloat.div x NaN = NaN.
Proof.
  apply Prim2SF_inj. rewrite div_spec, Prim2SF_NaN.
  unfold SF64div, SFdiv. now destruct (Prim2SF x).
Qed.


Lemma sub_NaN_l (y : float) : PrimFloat.sub NaN y = NaN.
Proof.
  apply Prim2SF_inj. rewrite sub_spec, Prim2SF_NaN. reflexivity.
Qed.

(** The percentage change on the first row: anything over the missing
    value, less one. *)
Lemma pct_of_missing_base (c : float) :
  PrimFloat.sub (PrimFloat.div c NaN) 1 = NaN.
Proof. now rewrite div_NaN_r, sub_NaN_l. Qed.




End FloatFacts.

(** ** Reading and writing the columns of a table *)
Module FrameFacts.
Import Pandas.

Lemma has_column_true (t : DataFrame) (k : string) :
  has_column t k = true <-> k ∈ labels t.
Proof. unfold has_column. apply bool_decide_eq_true. Qed.

Lemma has_column_false (t : DataFrame) (k : string) :
  has_column t k = false <-> k ∉ labels t.
Proof. unfold has_column. apply bool_decide_eq_false. Qed.

Lemma select_absent (k : string) (cs : list (string * Series)) :
  k ∉ map fst cs -> select k cs = [].
Proof.
  induction cs as [|[k' s] cs IH]; simpl; intros Hk; [done|].
  apply not_elem_of_cons in Hk as [Hne Hk].
  rewrite bool_decide_eq_false_2 by congruence. auto.
Qed.

Lemma select_present (k : string) (cs : list (string * Series)) :
  NoDup (map fst cs) -> k ∈ map fst cs ->
  exists s, select k cs = [s] /\ (k, s) ∈ cs.
Proof.
  induction cs as [|[k' s] cs IH]; simpl; intros Hnd Hk.
  - by apply elem_of_nil in Hk.
  - apply NoDup_cons in Hnd as [Hk' Hnd].
    destruct (decide (k' = k)) as [->|Hne].
    + rewrite bool_decide_eq_true_2 by done.
      rewrite select_absent by done. exists s. split; [done|]. apply elem_of_cons; auto.
    + rewrite bool_decide_eq_false_2 by done.
      apply elem_of_cons in Hk as [Hk|Hk]; [congruence|].
      destruct (IH Hnd Hk) as (s' & E & Hin). exists s'. split; [done|].
      apply elem_of_cons; auto.
Qed.

Lemma select_member (k : string) (s : Series) (cs : list (string * Series)) :
  NoDup (map fst cs) -> (k, s) ∈ cs -> select k cs = [s].
Proof.
  induction cs as [|[k' s'] cs IH]; simpl; intros Hnd Hk.
  - by apply elem_of_nil in Hk.
  - apply NoDup_cons in Hnd as [Hk' Hnd].
    apply elem_of_cons in Hk as [Hk|Hk].
    + injection Hk as -> ->. rewrite bool_decide_eq_true_2 by done.
      by rewrite select_absent.
    + rewrite bool_decide_eq_false_2; [auto|].
      intros ->. apply Hk'. apply list_elem_of_fmap. by exists (k, s).
Qed.

Lemma select_elem (k : string) (s : Series) (cs : list (string * Series)) :
  s ∈ select k cs -> (k, s) ∈ cs.
Proof.
  induction cs as [|[k' s'] cs IH]; simpl; intros Hs.
  - by apply elem_of_nil in Hs.
  - case_bool_decide as E.
    + subst k'. apply elem_of_cons in Hs as [->|Hs]; apply elem_of_cons; auto.
    + apply elem_of_cons; auto.
Qed.

Lemma labels_setitem (t : DataFrame) (k : string) (s : Series) :
  labels (setitem t k s) = if has_column t k then labels t else labels t ++ [k].
Proof.
  unfold labels, setitem. simpl. destruct (has_column t k).
  - rewrite map_map. apply map_ext. intros [k' s']. simpl. by case_bool_decide.
  - by rewrite map_app.
Qed.

Lemma NoDup_setitem (t : DataFrame) (k : string) (s : Series) :
  NoDup (labels t) -> NoDup (labels (setitem t k s)).
Proof.
  intros Hnd. rewrite labels_setitem. destruct (has_column t k) eqn:E; [done|].
  apply has_column_false in E. apply NoDup_app. repeat split; [done| |apply NoDup_singleton].
  intros x Hx Hx'. apply list_elem_of_singleton in Hx'. by subst.
Qed.

Lemma has_column_setitem (t : DataFrame) (k k' : string) (s : Series) :
  has_column (setitem t k s) k' = bool_decide (k' = k) || has_column t k'.
Proof.
  unfold has_column at 1. rewrite labels_setitem.
  destruct (has_column t k) eqn:E; destruct (decide (k' = k)) as [->|Hne].
  - rewrite (bool_decide_eq_true_2 (k = k)) by done. simpl.
    apply bool_decide_eq_true_2. by apply has_column_true.
  - by rewrite (bool_decide_eq_false_2 (k' = k)).
  - rewrite (bool_decide_eq_true_2 (k = k)) by done. simpl.
    apply bool_decide_eq_true_2. apply elem_of_app. right. by apply list_elem_of_singleton.
  - rewrite (bool_decide_eq_false_2 (k' = k)) by done. simpl.
    unfold has_column. apply bool_decide_ext. rewrite elem_of_app, list_elem_of_singleton. tauto.
Qed.

Lemma select_replace_other (k k' : string) (s : Series) (cs : list (string * Series)) :
  k <> k' ->
  select k' (map (fun c => if bool_decide (fst c = k) then (k, s) else c) cs) = select k' cs.
Proof.
  intros Hne. induction cs as [|[k0 s0] cs IH]; simpl; [done|].
  case_bool_decide as E; simpl.
  - subst k0. rewrite !bool_decide_eq_false_2 by done. done.
  - rewrite IH. done.
Qed.

Lemma select_app (k : string) (cs cs' : list (string * Series)) :
  select k (cs ++ cs') = select k cs ++ select k cs'.
Proof.
  induction cs as [|[k0 s0] cs IH]; simpl; [done|].
  case_bool_decide; simpl; by rewrite IH.
Qed.

Lemma select_setitem_ne (t : DataFrame) (k k' : string) (s : Series) :
  k <> k' -> select k' (columns (setitem t k s)) = select k' (columns t).
Proof.
  intros Hne. unfold setitem. simpl. destruct (has_column t k).
  - by apply select_replace_other.
  - rewrite select_app. simpl. rewrite bool_decide_eq_false_2 by done. apply app_nil_r.
Qed.

Lemma select_replace_same (k : string) (s : Series) (cs : list (string * Series)) :
  NoDup (map fst cs) -> k ∈ map fst cs ->
  select k (map (fun c => if bool_decide (fst c = k) then (k, s) else c) cs) = [s].
Proof.
  induction cs as [|[k0 s0] cs IH]; simpl; intros Hnd Hk.
  - by apply elem_of_nil in Hk.
  - apply NoDup_cons in Hnd as [Hk0 Hnd].
    case_bool_decide as E; simpl.
    + subst k0. rewrite bool_decide_eq_true_2 by done. f_equal.
      apply select_absent. rewrite map_map. simpl.
      erewrite map_ext; [exact Hk0|]. intros [k1 s1]. simpl. by case_bool_decide.
    + rewrite bool_decide_eq_false_2 by done.
      apply elem_of_cons in Hk as [Hk|Hk]; [congruence|]. auto.
Qed.

Lemma select_setitem_eq (t : DataFrame) (k : string) (s : Series) :
  NoDup (labels t) -> select k (columns (setitem t k s)) = [s].
Proof.
  intros Hnd. unfold setitem. simpl. destruct (has_column t k) eqn:E.
  - apply has_column_true in E. by apply select_replace_same.
  - apply has_column_false in E. rewrite select_app, select_absent by done.
    simpl. by rewrite bool_decide_eq_true_2.
Qed.

Lemma getitem_select (t : DataFrame) (k : string) (s : Series) :
  select k (columns t) = [s] -> getitem t k = Ok (OneColumn s).
Proof. unfold getitem. by intros ->. Qed.

Lemma getitem_present (t : DataFrame) (k : string) :
  NoDup (labels t) -> has_column t k = true ->
  exists s, select k (columns t) = [s] /\ (k, s) ∈ columns t.
Proof. intros Hnd Hk%has_column_true. by apply select_present. Qed.

End FrameFacts.

(** ** The aggregator on a fact table *)
Module KpisFacts.
Import PyFloat Pandas Kpis Reading FrameFacts FloatFacts.

Section WithLibrary.
Context `{Library}.

Lemma bind_Ok {A B} (f : A -> Result B) (a : A) : mbind f (Ok a) = f a.
Proof. reflexivity. Qed.

Lemma index_len_setitem (t : DataFrame) (k : string) (s : Series) :
  index_len (setitem t k s) = if Nat.eqb (index_len t) 0 then slen s else index_len t.
Proof. reflexivity. Qed.

Lemma get_floats_select (t : DataFrame) (k : string) (s : Series) :
  select k (columns t) = [s] -> get_floats t k = Ok (to_numeric s).
Proof. intros E. unfold get_floats, get_series, getitem. rewrite E. reflexivity. Qed.

Lemma get_series_select (e : exn) (t : DataFrame) (k : string) (s : Series) :
  select k (columns t) = [s] -> get_series e t k = Ok s.
Proof. intros E. unfold get_series, getitem. rewrite E. reflexivity. Qed.

Lemma ensure_column_NoDup d c : NoDup (labels d) -> NoDup (labels (ensure_column d c)).
Proof. unfold ensure_column, setitem_NA. destruct (has_column d c); auto using NoDup_setitem. Qed.

Lemma ensure_column_has d c k : has_column (ensure_column d c) k = bool_decide (k = c) || has_column d k.
Proof.
  unfold ensure_column, setitem_NA. destruct (has_column d c) eqn:E.
  - case_bool_decide; subst; simpl; congruence.
  - apply has_column_setitem.
Qed.

Lemma ensure_column_select d c k : k <> c -> select k (columns (ensure_column d c)) = select k (columns d).
Proof.
  intros Hne. unfold ensure_column, setitem_NA. destruct (has_column d c); [done|].
  apply select_setitem_ne. congruence.
Qed.

Lemma add_month_fact (df : DataFrame) :
  fact_table df = true ->
  exists ms, _add_month df = Ok (setitem df "month" (SDatetime ms)) /\
             (aligned df = true -> length ms = index_len df).
Proof.
  unfold fact_table. intros [[Hnd%bool_decide_eq_true _]%andb_prop Hdate]%andb_prop.
  unfold _add_month. destruct (has_column df "date") eqn:E.
  - destruct (getitem_present _ _ Hnd E) as (s & Hs & Hin).
    rewrite (get_series_select _ _ _ _ Hs). simpl.
    unfold date_is_datetime in Hdate. rewrite forallb_forall in Hdate.
    apply list_elem_of_In in Hin. pose proof (Hdate _ Hin) as Hd. simpl in Hd.
    destruct s as [xs|ts|os]; try discriminate Hd.
    eexists. split; [reflexivity|].
    intros Hal. unfold aligned in Hal. rewrite forallb_forall in Hal.
    apply Hal in Hin. simpl in Hin. apply Nat.eqb_eq in Hin. by rewrite length_map.
  - eexists. split; [reflexivity|]. intros _. apply length_replicate.
Qed.

Lemma to_numeric_length (s : Series) : length (to_numeric s) = slen s.
Proof. destruct s; simpl; by rewrite ?length_map. Qed.

Lemma aligned_elem (t : DataFrame) (k : string) (s : Series) :
  aligned t = true -> (k, s) ∈ columns t -> slen s = index_len t.
Proof.
  unfold aligned. rewrite forallb_forall. intros Hal Hin%list_elem_of_In.
  apply Hal in Hin. by apply Nat.eqb_eq in Hin.
Qed.

Lemma aligned_select (t : DataFrame) (k : string) (s : Series) :
  aligned t = true -> select k (columns t) = [s] -> slen s = index_len t.
Proof.
  intros Hal E. apply (aligned_elem t k); [done|]. apply select_elem. rewrite E. apply list_elem_of_here.
Qed.

Lemma aligned_setitem (t : DataFrame) (k : string) (s : Series) :
  aligned t = true -> slen s = index_len t ->
  aligned (setitem t k s) = true /\ index_len (setitem t k s) = index_len t.
Proof.
  intros Hal Hs.
  assert (Hi : index_len (setitem t k s) = index_len t).
  { rewrite index_len_setitem. destruct (Nat.eqb_spec (index_len t) 0); congruence. }
  split; [|done]. unfold aligned. rewrite Hi.
  unfold aligned in Hal. rewrite forallb_forall in Hal. apply forallb_forall.
  intros [k' s'] Hin. simpl. unfold setitem in Hin. simpl in Hin.
  destruct (has_column t k).
  - apply in_map_iff in Hin as ([k0 s0] & E & Hin). simpl in E.
    case_bool_decide; injection E as <- <-; [by apply Nat.eqb_eq|]. by apply (Hal (k0, s0)).
  - apply in_app_iff in Hin as [Hin|[E|[]]]; [by apply (Hal (k', s'))|].
    injection E as <- <-. by apply Nat.eqb_eq.
Qed.

Lemma nonzero_setitem (t : DataFrame) (k : string) (s : Series) :
  index_len t <> 0%nat -> index_len (setitem t k s) = index_len t.
Proof. intros Hn. rewrite index_len_setitem. by destruct (Nat.eqb_spec (index_len t) 0). Qed.

Lemma ensure_column_aligned d c :
  aligned d = true -> aligned (ensure_column d c) = true /\ index_len (ensure_column d c) = index_len d.
Proof.
  intros Hal. unfold ensure_column, setitem_NA. destruct (has_column d c); [done|].
  apply aligned_setitem; [done|]. simpl. apply length_replicate.
Qed.

Lemma ensure_column_nonzero d c : index_len d <> 0%nat -> index_len (ensure_column d c) = index_len d.
Proof.
  intros Hn. unfold ensure_column, setitem_NA. destruct (has_column d c); [done|]. by apply nonzero_setitem.
Qed.

Lemma coerce_numeric_present (d : DataFrame) (c : string) :
  NoDup (labels d) -> has_column d c = true ->
  exists s, select c (columns d) = [s] /\
            coerce_numeric d c = Ok (setitem d c (SFloat (to_numeric s))).
Proof.
  intros Hnd Hc. destruct (getitem_present _ _ Hnd Hc) as (s & Hs & _).
  exists s. split; [done|]. unfold coerce_numeric. by rewrite (get_series_select _ _ _ _ Hs).
Qed.

Ltac keys :=
  repeat match goal with
    | |- context [bool_decide (?a = ?b)] =>
        let v := eval vm_compute in (bool_decide (a = b)) in
        change (bool_decide (a = b)) with v
    end.

Lemma same_index_refl (df : DataFrame) : same_index df df.
Proof. by split. Qed.

Lemma same_index_setitem (df d : DataFrame) (k : string) (s : Series) :
  same_index df d -> (aligned df = true -> slen s = index_len df) ->
  same_index df (setitem d k s).
Proof.
  intros [Hn Ha] Hs. split.
  - intros Hz. rewrite nonzero_setitem; auto. rewrite Hn; auto.
  - intros Hal. destruct (Ha Hal) as [Hi Hd].
    destruct (aligned_setitem d k s Hd) as [? ?]; [rewrite Hi; auto|]. split; congruence.
Qed.

Lemma same_index_ensure (df d : DataFrame) (c : string) :
  same_index df d -> same_index df (ensure_column d c).
Proof.
  intros Hs. unfold ensure_column, setitem_NA. destruct (has_column d c); [done|].
  split.
  - intros Hz. destruct Hs as [Hn _]. rewrite nonzero_setitem; rewrite Hn; auto.
  - intros Hal. destruct Hs as [_ Ha]. destruct (Ha Hal) as [Hi Hd].
    destruct (aligned_setitem d c (SObject (replicate (index_len d) PNA)) Hd) as [? ?].
    { simpl. apply length_replicate. }
    split; congruence.
Qed.

Lemma prepare_fact (df : DataFrame) :
  fact_table df = true ->
  exists d, prepare df = Ok d /\ prepared d /\ same_index df d.
Proof.
  intros Hf. destruct (add_month_fact df Hf) as (ms & Hm & Hlen).
  unfold fact_table in Hf.
  apply andb_prop in Hf as [[Hnd%bool_decide_eq_true Hrev]%andb_prop _].
  unfold prepare. rewrite Hm, bind_Ok. cbn [foldl].
  set (d1 := setitem df "month" (SDatetime ms)).
  set (d2 := ensure_column (ensure_column (ensure_column (ensure_column d1 "cost") "units") "region") "product").
  assert (Hnd2 : NoDup (labels d2)) by (repeat apply ensure_column_NoDup; by apply NoDup_setitem).
  assert (Hhas : forall k, k ∈ ["cost"; "units"; "region"; "product"; "revenue"; "month"] ->
                           has_column d2 k = true).
  { intros k Hk. unfold d2, d1.
    repeat (apply elem_of_cons in Hk as [->|Hk];
            [rewrite !ensure_column_has, has_column_setitem, ?Hrev; keys; by rewrite ?orb_true_r|]).
    by apply elem_of_nil in Hk. }
  assert (Hmonth2 : select "month" (columns d2) = [SDatetime ms]).
  { unfold d2. rewrite !ensure_column_select by discriminate. by apply select_setitem_eq. }
  destruct (coerce_numeric_present d2 "cost" Hnd2) as (sc & Hsc & ->);
    [apply Hhas; repeat constructor|].
  rewrite bind_Ok. set (d3 := setitem d2 "cost" _).
  assert (Hnd3 : NoDup (labels d3)) by by apply NoDup_setitem.
  destruct (coerce_numeric_present d3 "units" Hnd3) as (su & Hsu & ->).
  { unfold d3. rewrite has_column_setitem, Hhas by repeat constructor. apply orb_true_r. }
  rewrite bind_Ok. set (d4 := setitem d3 "units" _).
  assert (Hnd4 : NoDup (labels d4)) by by apply NoDup_setitem.
  destruct (coerce_numeric_present d4 "revenue" Hnd4) as (sr & Hsr & ->).
  { unfold d4, d3. rewrite !has_column_setitem, Hhas by repeat constructor. by rewrite !orb_true_r. }
  rewrite bind_Ok. set (d5 := setitem d4 "revenue" _).
  assert (Hnd5 : NoDup (labels d5)) by by apply NoDup_setitem.
  assert (Hrev5 : select "revenue" (columns d5) = [SFloat (to_numeric sr)])
    by by apply select_setitem_eq.
  assert (Hunits5 : select "units" (columns d5) = [SFloat (to_numeric su)]).
  { unfold d5. rewrite select_setitem_ne by discriminate. by apply select_setitem_eq. }
  assert (Hcost5 : select "cost" (columns d5) = [SFloat (to_numeric sc)]).
  { unfold d5, d4. rewrite !select_setitem_ne by discriminate. by apply select_setitem_eq. }
  rewrite (get_floats_select _ _ _ Hrev5), bind_Ok.
  rewrite (get_floats_select _ _ _ Hcost5), bind_Ok.
  set (d6 := setitem d5 "gross_profit" _).
  assert (Hnd6 : NoDup (labels d6)) by by apply NoDup_setitem.
  rewrite (get_floats_select d6 "gross_profit" _ (select_setitem_eq _ _ _ Hnd5)), bind_Ok.
  assert (Hrev6 : select "revenue" (columns d6) = [SFloat (to_numeric sr)]).
  { unfold d6. by rewrite select_setitem_ne by discriminate. }
  rewrite (get_floats_select _ _ _ Hrev6), bind_Ok.
  set (g := zip_with PrimFloat.sub (to_numeric sr) (to_numeric sc)) in *.
  set (d7 := setitem d6 "margin" _).
  exists d7. split; [reflexivity|]. split.
  - split; [by apply NoDup_setitem|]. split; [|split].
    + exists ms. unfold d7, d6, d5, d4, d3. by rewrite !select_setitem_ne by discriminate.
    + intros k Hk. unfold d7.
      repeat (apply elem_of_cons in Hk as [->|Hk];
              [rewrite select_setitem_ne by discriminate; unfold d6;
               rewrite ?select_setitem_ne by discriminate; eauto using select_setitem_eq|]).
      by apply elem_of_nil in Hk.
    + intros k Hk.
      assert (Hk2 : has_column d2 k = true).
      { apply Hhas. clear -Hk. repeat (apply elem_of_cons in Hk as [->|Hk]; [repeat constructor|]).
        by apply elem_of_nil in Hk. }
      destruct (getitem_present d2 k Hnd2 Hk2) as (s & Hs & _).
      exists s. rewrite <- Hs. unfold d7, d6, d5, d4, d3.
      repeat (apply elem_of_cons in Hk as [->|Hk];
              [by rewrite !select_setitem_ne by discriminate|]).
      by apply elem_of_nil in Hk.
  - assert (S2 : same_index df d2).
    { repeat apply same_index_ensure. apply same_index_setitem; [apply same_index_refl|done]. }
    assert (Lc : aligned df = true -> length (to_numeric sc) = index_len df).
    { intros Hal. destruct S2 as [_ S2]. destruct (S2 Hal) as [<- Hd].
      rewrite to_numeric_length. by apply (aligned_select d2 "cost"). }
    assert (S3 : same_index df d3) by by apply same_index_setitem.
    assert (S4 : same_index df d4).
    { apply same_index_setitem; [done|]. intros Hal. destruct S3 as [_ S3].
      destruct (S3 Hal) as [<- Hd]. simpl. rewrite to_numeric_length.
      by apply (aligned_select d3 "units"). }
    assert (Lr : aligned df = true -> length (to_numeric sr) = index_len df).
    { intros Hal. destruct S4 as [_ S4]. destruct (S4 Hal) as [<- Hd].
      rewrite to_numeric_length. by apply (aligned_select d4 "revenue"). }
    assert (Lg : aligned df = true -> length g = index_len df).
    { intros Hal. unfold g. rewrite length_zip_with, Lc, Lr by done. lia. }
    assert (S5 : same_index df d5) by by apply same_index_setitem.
    assert (S6 : same_index df d6) by by apply same_index_setitem.
    apply same_index_setitem; [done|].
    intros Hal. change (length (zip_with PrimFloat.div g (to_numeric sr)) = index_len df).
    rewrite length_zip_with, Lg, Lr by done. lia.
Qed.


(** The tables are computed from seven columns of the prepared table. *)
Lemma tables_core (d : DataFrame) (month region product : Series) (r c u g : list float) :
  select "month" (columns d) = [month] ->
  select "region" (columns d) = [region] ->
  select "product" (columns d) = [product] ->
  select "revenue" (columns d) = [SFloat r] ->
  select "cost" (columns d) = [SFloat c] ->
  select "units" (columns d) = [SFloat u] ->
  select "gross_profit" (columns d) = [SFloat g] ->
  let K := core (index_len d) month region product r c u g in
  summary_table d = summary_table K /\
  trends_table d = trends_table K /\
  drilldown d "region" = drilldown K "region" /\
  drilldown d "product" = drilldown K "product".
Proof.
  intros Hm Hreg Hprod Hr Hc Hu Hg K.
  unfold summary_table, trends_table, drilldown.
  rewrite (get_series_select _ _ _ _ Hm), (get_series_select _ _ _ _ Hreg),
    (get_series_select _ _ _ _ Hprod), (get_floats_select _ _ _ Hr),
    (get_floats_select _ _ _ Hc), (get_floats_select _ _ _ Hu),
    (get_floats_select _ _ _ Hg).
  repeat split; reflexivity.
Qed.

Lemma prepared_core (d : DataFrame) :
  prepared d ->
  exists ms region product r c u g,
    select "month" (columns d) = [SDatetime ms] /\
    select "region" (columns d) = [region] /\
    select "product" (columns d) = [product] /\
    select "revenue" (columns d) = [SFloat r] /\
    select "cost" (columns d) = [SFloat c] /\
    select "units" (columns d) = [SFloat u] /\
    select "gross_profit" (columns d) = [SFloat g].
Proof.
  intros (_ & [ms Hm] & Hf & Hd).
  destruct (Hd "region") as [reg Hreg]; [repeat constructor|].
  destruct (Hd "product") as [prod Hprod]; [repeat constructor|].
  destruct (Hf "revenue") as [r Hr]; [repeat constructor|].
  destruct (Hf "cost") as [c Hc]; [repeat constructor|].
  destruct (Hf "units") as [u Hu]; [repeat constructor|].
  destruct (Hf "gross_profit") as [g Hg]; [repeat constructor|].
  by exists ms, reg, prod, r, c, u, g.
Qed.

(** [build_tables] on a fact table: the preparation succeeds and the five
    tables are those of the core columns. *)
Lemma build_tables_fact (df : DataFrame) :
  fact_table df = true ->
  exists d ms region product r c u g,
    same_index df d /\
    (aligned d = true -> length ms = index_len d /\ slen region = index_len d /\
       slen product = index_len d /\ length r = index_len d /\ length c = index_len d /\
       length u = index_len d /\ length g = index_len d) /\
    let K := core (index_len d) (SDatetime ms) region product r c u g in
    build_tables df =
      (summary ← summary_table K;
       trends ← trends_table K;
       variance ← variance_table trends;
       by_region ← drilldown K "region";
       by_product ← drilldown K "product";
       mret (mkTables summary trends variance by_region by_product)).
Proof.
  intros Hf. destruct (prepare_fact df Hf) as (d & Hp & Hd & Hi).
  destruct (prepared_core d Hd) as (ms & reg & prod & r & c & u & g & Hm & Hreg & Hprod & Hr & Hc & Hu & Hg).
  exists d, ms, reg, prod, r, c, u, g. split; [done|]. split.
  - intros Hal. repeat split.
    + apply (aligned_select d "month" (SDatetime ms) Hal Hm).
    + apply (aligned_select d "region" _ Hal Hreg).
    + apply (aligned_select d "product" _ Hal Hprod).
    + apply (aligned_select d "revenue" (SFloat r) Hal Hr).
    + apply (aligned_select d "cost" (SFloat c) Hal Hc).
    + apply (aligned_select d "units" (SFloat u) Hal Hu).
    + apply (aligned_select d "gross_profit" (SFloat g) Hal Hg).
  - intros K. unfold build_tables. rewrite Hp, bind_Ok.
    destruct (tables_core d _ _ _ _ _ _ _ Hm Hreg Hprod Hr Hc Hu Hg) as (-> & -> & -> & ->).
    reflexivity.
Qed.


Lemma group_keys_nonempty (n : nat) (cols : list (list pyobj)) :
  n <> 0%nat -> group_keys n cols <> [].
Proof.
  destruct n as [|n]; [done|]. intros _. unfold group_keys. simpl.
  set (rest := distinct_rows _ _). clearbody rest. simpl.
  by destruct (sort_rows rest) as [|x l]; simpl; [|destruct (row_leb _ x)].
Qed.

Lemma trends_core (n : nat) (ms : list (option Z)) (region product : Series)
    (r c u g : list float) :
  let keys := [objects (SDatetime ms)] in
  let groups := group_keys n keys in
  let agg := group_sum n keys groups in
  exists t, trends_table (core n (SDatetime ms) region product r c u g) = Ok t /\
    columns t =
      [ ("month", key_column (SDatetime ms) 0 groups);
        ("revenue", SFloat (agg r)); ("cost", SFloat (agg c));
        ("gross_profit", SFloat (agg g)); ("units", SFloat (agg u));
        ("margin", SFloat (zip_with PrimFloat.div (agg g) (agg r))) ].
Proof. intros keys groups agg. eexists. split; reflexivity. Qed.

Lemma variance_of_trends (t : DataFrame) (month : Series) (R C G U M : list float) :
  columns t =
    [("month", month); ("revenue", SFloat R); ("cost", SFloat C);
     ("gross_profit", SFloat G); ("units", SFloat U); ("margin", SFloat M)] ->
  exists v, variance_table t = Ok v /\
    columns v =
      [("month", month); ("revenue", SFloat R); ("cost", SFloat C);
       ("gross_profit", SFloat G); ("units", SFloat U); ("margin", SFloat M);
       ("revenue_mom_abs", SFloat (diff R)); ("revenue_mom_pct", SFloat (pct_change R));
       ("cost_mom_abs", SFloat (diff C)); ("cost_mom_pct", SFloat (pct_change C));
       ("gross_profit_mom_abs", SFloat (diff G)); ("gross_profit_mom_pct", SFloat (pct_change G));
       ("units_mom_abs", SFloat (diff U)); ("units_mom_pct", SFloat (pct_change U));
       ("margin_mom_abs", SFloat (diff M)); ("margin_mom_pct", SFloat (pct_change M))].
Proof.
  destruct t as [n cols]. simpl. intros ->. eexists. split; reflexivity.
Qed.

Lemma drilldown_core (n : nat) (month region product : Series) (r c u g : list float)
    (dim : string) (s : Series) :
  select dim (columns (core n month region product r c u g)) = [s] ->
  let keys := [objects month; objects s] in
  let groups := group_keys n keys in
  drilldown (core n month region product r c u g) dim =
    Ok (mkDataFrame (length groups)
          [ ("month", key_column month 0 groups); (dim, key_column s 1 groups);
            ("revenue", SFloat (group_sum n keys groups r));
            ("gross_profit", SFloat (group_sum n keys groups g)) ]).
Proof.
  intros Hs keys groups. unfold drilldown.
  rewrite (get_series_select _ _ dim _ Hs). reflexivity.
Qed.

Lemma summary_core (n : nat) (month region product : Series) (r c u g : list float) :
  summary_table (core n month region product r c u g) =
    Ok (mkDataFrame 6
      [ ("metric", SObject (map PStr
           ["revenue"; "cost"; "gross_profit"; "margin"; "units"; "rows_loaded"]));
        ("value", SObject
           [ PFloat (nansum r); PFloat (nansum c); PFloat (nansum g);
             (if truthy (nansum r) then PFloat (PrimFloat.div (nansum g) (nansum r)) else PNA);
             PFloat (nansum u); PInt (Z.of_nat n) ]) ]).
Proof. reflexivity. Qed.

(** The first row of a difference and of a percentage change is missing. *)
Lemma diff_first (xs : list float) : xs <> [] -> diff xs !! 0%nat = Some NaN.
Proof. by destruct xs. Qed.

Lemma pct_change_first (xs : list float) : xs <> [] -> pct_change xs !! 0%nat = Some NaN.
Proof.
  destruct xs as [|x xs]; [done|]. intros _. unfold pct_change.
  destruct pct_fill_pad; simpl; f_equal; apply pct_of_missing_base.
Qed.

Lemma ffill_from_length (l : float) (xs : list float) : length (ffill_from l xs) = length xs.
Proof. revert l. induction xs as [|x xs IH]; intros l; simpl; [done|]. by rewrite IH. Qed.

Lemma ffill_from_keep (l : float) (xs : list float) (i : nat) (p : float) :
  xs !! i = Some p -> isna p = false -> ffill_from l xs !! i = Some p.
Proof.
  revert l i. induction xs as [|x xs IH]; intros l i; [done|].
  destruct i as [|i]; simpl.
  - intros [= ->] Hp. by rewrite Hp.
  - apply IH.
Qed.


Lemma shifted_lookup (f : float -> float -> float) (data : list float) (i : nat) (p c : float) :
  data !! i = Some p -> data !! S i = Some c ->
  zip_with f data (shift data) !! S i = Some (f c p).
Proof.
  intros Hp Hc. unfold shift. rewrite lookup_zip_with, Hc. simpl.
  rewrite lookup_take_lt by (apply lookup_lt_Some in Hc; lia). simpl. by rewrite Hp.
Qed.




Lemma diff_length (xs : list float) : length (diff xs) = length xs.
Proof.
  destruct xs as [|x xs]; [done|]. simpl. rewrite length_zip_with. simpl. lia.
Qed.

Lemma shift_length (xs : list float) : length (shift xs) = length xs.
Proof. unfold shift. rewrite length_take. simpl. lia. Qed.

Lemma pct_change_length (xs : list float) : length (pct_change xs) = length xs.
Proof.
  unfold pct_change. rewrite length_zip_with, shift_length.
  destruct pct_fill_pad; rewrite ?ffill_from_length; unfold ffill; rewrite ?ffill_from_length; lia.
Qed.

Lemma variance_index (t : DataFrame) (month : Series) (R C G U M : list float) :
  columns t =
    [("month", month); ("revenue", SFloat R); ("cost", SFloat C);
     ("gross_profit", SFloat G); ("units", SFloat U); ("margin", SFloat M)] ->
  length R = index_len t -> length C = index_len t -> length G = index_len t ->
  length U = index_len t -> length M = index_len t ->
  forall v, variance_table t = Ok v -> index_len v = index_len t.
Proof.
  destruct t as [n cols]. simpl. intros -> HR HC HG HU HM v [= <-].
  simpl. rewrite !diff_length, !pct_change_length, HR, HC, HG, HU, HM.
  clear. by destruct n.
Qed.

Lemma trends_index (n : nat) (ms : list (option Z)) (region product : Series)
    (r c u g : list float) (t : DataFrame) :
  trends_table (core n (SDatetime ms) region product r c u g) = Ok t ->
  index_len t = length (group_keys n [objects (SDatetime ms)]).
Proof.
  intros [= <-]. cbn [index_len setitem slen]. rewrite length_zip_with.
  unfold group_sum. rewrite !length_map. cbn [index_len].
  set (L := length _). destruct (Nat.eqb L 0); lia.
Qed.
Lemma build_tables_shape (df : DataFrame) :
  fact_table df = true ->
  exists d ms region product r c u g t,
    same_index df d /\
    (aligned d = true -> length ms = index_len d /\ slen region = index_len d /\
       slen product = index_len d /\ length r = index_len d /\ length c = index_len d /\
       length u = index_len d /\ length g = index_len d) /\
    build_tables df = Ok t /\
    let n := index_len d in
    let keys := [objects (SDatetime ms)] in
    let groups := group_keys n keys in
    let agg := group_sum n keys groups in
    let M := zip_with PrimFloat.div (agg g) (agg r) in
    Summary t =
      mkDataFrame 6
        [ ("metric", SObject (map PStr
             ["revenue"; "cost"; "gross_profit"; "margin"; "units"; "rows_loaded"]));
          ("value", SObject
             [ PFloat (nansum r); PFloat (nansum c); PFloat (nansum g);
               (if truthy (nansum r) then PFloat (PrimFloat.div (nansum g) (nansum r)) else PNA);
               PFloat (nansum u); PInt (Z.of_nat n) ]) ] /\
    index_len (Trends t) = length groups /\
    index_len (Variance t) = length groups /\
    columns (Trends t) =
      [ ("month", key_column (SDatetime ms) 0 groups);
        ("revenue", SFloat (agg r)); ("cost", SFloat (agg c));
        ("gross_profit", SFloat (agg g)); ("units", SFloat (agg u));
        ("margin", SFloat M) ] /\
    columns (Variance t) =
      columns (Trends t) ++
      [ ("revenue_mom_abs", SFloat (diff (agg r))); ("revenue_mom_pct", SFloat (pct_change (agg r)));
        ("cost_mom_abs", SFloat (diff (agg c))); ("cost_mom_pct", SFloat (pct_change (agg c)));
        ("gross_profit_mom_abs", SFloat (diff (agg g))); ("gross_profit_mom_pct", SFloat (pct_change (agg g)));
        ("units_mom_abs", SFloat (diff (agg u))); ("units_mom_pct", SFloat (pct_change (agg u)));
        ("margin_mom_abs", SFloat (diff M)); ("margin_mom_pct", SFloat (pct_change M)) ] /\
    Drilldown_Region t =
      (let keys := [objects (SDatetime ms); objects region] in
       let groups := group_keys n keys in
       mkDataFrame (length groups)
         [ ("month", key_column (SDatetime ms) 0 groups); ("region", key_column region 1 groups);
           ("revenue", SFloat (group_sum n keys groups r));
           ("gross_profit", SFloat (group_sum n keys groups g)) ]) /\
    Drilldown_Product t =
      (let keys := [objects (SDatetime ms); objects product] in
       let groups := group_keys n keys in
       mkDataFrame (length groups)
         [ ("month", key_column (SDatetime ms) 0 groups); ("product", key_column product 1 groups);
           ("revenue", SFloat (group_sum n keys groups r));
           ("gross_profit", SFloat (group_sum n keys groups g)) ]).
Proof.
  intros Hf.
  destruct (build_tables_fact df Hf) as (d & ms & reg & prod & r & c & u & g & Hi & Hl & Hb).
  destruct (trends_core (index_len d) ms reg prod r c u g) as (t & Ht & Htc).
  destruct (variance_of_trends t _ _ _ _ _ _ Htc) as (v & Hv & Hvc).
  cbv zeta in Hb. rewrite summary_core, bind_Ok, Ht, bind_Ok, Hv, bind_Ok in Hb.
  rewrite (drilldown_core _ _ _ _ _ _ _ _ "region" reg eq_refl), bind_Ok in Hb.
  rewrite (drilldown_core _ _ _ _ _ _ _ _ "product" prod eq_refl), bind_Ok in Hb.
  eexists d, ms, reg, prod, r, c, u, g, _. split; [done|]. split; [done|].
  split; [exact Hb|]. cbn [Summary Trends Variance Drilldown_Region Drilldown_Product].
  pose proof (trends_index _ _ _ _ _ _ _ _ _ Ht) as Hti.
  assert (Hvi : index_len v = index_len t).
  { apply (variance_index t _ _ _ _ _ _ Htc); [..|exact Hv];
      rewrite Hti, ?length_zip_with; unfold group_sum; rewrite !length_map; lia. }
  rewrite Htc, Hvc, Hvi, Hti. repeat split; reflexivity.
Qed.


Lemma nil_of_length {A} (l : list A) : length l = 0%nat -> l = [].
Proof. by destruct l. Qed.

Lemma series_of_length_0 (s : Series) :
  slen s = 0%nat -> s = SFloat [] \/ s = SDatetime [] \/ s = SObject [].
Proof. destruct s as [[|]|[|]|[|]]; simpl; intros; try discriminate; auto. Qed.

Lemma mom_lookup (T0 T1 T2 T3 T4 T5 A1 P1 A2 P2 A3 P3 A4 P4 A5 P5 : Series) (col : string) :
  col ∈ mom_columns ->
  let tr := [("month", T0); ("revenue", T1); ("cost", T2); ("gross_profit", T3);
             ("units", T4); ("margin", T5)] in
  let va := tr ++
            [("revenue_mom_abs", A1); ("revenue_mom_pct", P1);
             ("cost_mom_abs", A2); ("cost_mom_pct", P2);
             ("gross_profit_mom_abs", A3); ("gross_profit_mom_pct", P3);
             ("units_mom_abs", A4); ("units_mom_pct", P4);
             ("margin_mom_abs", A5); ("margin_mom_pct", P5)] in
  exists T A P,
    (col, T, A, P) ∈ [("revenue", T1, A1, P1); ("cost", T2, A2, P2);
                      ("gross_profit", T3, A3, P3); ("units", T4, A4, P4);
                      ("margin", T5, A5, P5)] /\
    select col tr = [T] /\
    select (col +:+ "_mom_abs") va = [A] /\
    select (col +:+ "_mom_pct") va = [P].
Proof.
  intros Hcol tr va. unfold mom_columns in Hcol.
  repeat (apply elem_of_cons in Hcol as [->|Hcol];
          [do 3 eexists; split; [|repeat split; vm_compute; reflexivity]; repeat constructor|]).
  by apply elem_of_nil in Hcol.
Qed.



End WithLibrary.

End KpisFacts.

(** ** The cleaning stages on the store *)
Module CleanFacts.
Import PyFloat PyStr Pandas Store Clean Reading FrameFacts.

Lemma bind_run {A B} (m : M A) (f : A -> M B) (h : heap) :
  (m ≫= f) h = match m h with
               | (Ok a, h') => f a h'
               | (Raise e, h') => (Raise e, h')
               end.
Proof. reflexivity. Qed.

Lemma bind_run_Ok {A B} (m : M A) (f : A -> M B) (h h' : heap) (a : A) :
  m h = (Ok a, h') -> (m ≫= f) h = f a h'.
Proof. intros E. by rewrite bind_run, E. Qed.

Lemma bind_run_Raise {A B} (m : M A) (f : A -> M B) (h h' : heap) (e : exn) :
  m h = (Raise e, h') -> (m ≫= f) h = (Raise e, h').
Proof. intros E. by rewrite bind_run, E. Qed.

Lemma lookup_snoc (h : heap) (o : object) : (h ++ [o]) !! length h = Some o.
Proof. by apply list_lookup_middle. Qed.

Lemma insert_snoc (h : heap) (o o' : object) : <[length h := o']> (h ++ [o]) = h ++ [o'].
Proof.
  rewrite insert_app_r_alt by lia. by rewrite Nat.sub_diag.
Qed.

Lemma read_frame_run (h : heap) (l : loc) (t : DataFrame) :
  h !! l = Some (ODataFrame t) -> read_frame l h = (Ok t, h).
Proof. unfold read_frame. by intros ->. Qed.

Lemma read_frame_snoc (h : heap) (t : DataFrame) :
  read_frame (length h) (h ++ [ODataFrame t]) = (Ok t, h ++ [ODataFrame t]).
Proof. apply read_frame_run, lookup_snoc. Qed.

Lemma write_frame_snoc (h : heap) (t t' : DataFrame) :
  write_frame (length h) t' (h ++ [ODataFrame t]) = (Ok tt, h ++ [ODataFrame t']).
Proof. unfold write_frame. by rewrite insert_snoc. Qed.

Lemma copy_run (h : heap) (l : loc) (t : DataFrame) :
  h !! l = Some (ODataFrame t) -> copy l h = (Ok (length h), h ++ [ODataFrame t]).
Proof. intros E. unfold copy. by rewrite (bind_run_Ok _ _ _ _ _ (read_frame_run _ _ _ E)). Qed.

Lemma lift_run {A} (r : Result A) (h : heap) : lift r h = (r, h).
Proof. reflexivity. Qed.

Lemma count_label_select (u : string) (cs : list (string * Series)) :
  length (select u cs) = count_label u (map fst cs).
Proof.
  unfold count_label. induction cs as [|[k s] cs IH]; simpl; [done|].
  case_bool_decide; simpl; by rewrite IH.
Qed.

Lemma count_label_pos (u : string) (ls : list string) :
  u ∈ ls -> (1 <= count_label u ls)%nat.
Proof.
  unfold count_label. induction ls as [|x ls IH]; intros Hu.
  - by apply elem_of_nil in Hu.
  - simpl. apply elem_of_cons in Hu as [->|Hu].
    + rewrite bool_decide_eq_true_2 by done. simpl. lia.
    + specialize (IH Hu). case_bool_decide; simpl; lia.
Qed.

Lemma not_NoDup_count (ls : list string) :
  ~ NoDup ls -> exists u, u ∈ ls /\ (2 <= count_label u ls)%nat.
Proof.
  induction ls as [|x ls IH]; intros Hnd.
  - destruct Hnd. constructor.
  - destruct (decide (x ∈ ls)) as [Hx|Hx].
    + exists x. split; [apply list_elem_of_here|].
      pose proof (count_label_pos x ls Hx). unfold count_label in *. simpl.
      rewrite bool_decide_eq_true_2 by done. simpl. lia.
    + destruct IH as (u & Hu & Hc).
      { intros Hnd'. apply Hnd. by constructor. }
      exists u. split; [by apply list_elem_of_further|].
      unfold count_label in *. simpl. case_bool_decide; simpl; lia.
Qed.

Lemma NoDup_count (ls : list string) (u : string) :
  NoDup ls -> (count_label u ls <= 1)%nat.
Proof.
  unfold count_label. induction 1 as [|x ls Hx Hnd IH]; simpl; [lia|].
  case_bool_decide as E; simpl; [|lia]. subst x.
  assert (List.filter (fun c => bool_decide (c = u)) ls = []) as ->; [|simpl; lia].
  clear -Hx. induction ls as [|y ls IH]; simpl; [done|].
  apply not_elem_of_cons in Hx as [Hne Hx]. rewrite bool_decide_eq_false_2 by congruence. auto.
Qed.

Lemma elem_of_unique_from (seen l : list string) (x : string) :
  x ∈ unique_from seen l <-> x ∈ l /\ x ∉ seen.
Proof.
  revert seen. induction l as [|y l IH]; intros seen; simpl.
  - split; [by intros ?%elem_of_nil|by intros [?%elem_of_nil _]].
  - case_bool_decide as E.
    + rewrite IH, elem_of_cons. split; [tauto|]. intros [[->|?] ?]; tauto.
    + rewrite !elem_of_cons, IH, elem_of_cons. split.
      * intros [->|[? ?]]; [tauto|]. split; [tauto|]. tauto.
      * intros [[->|?] ?]; [tauto|]. destruct (decide (x = y)); [tauto|]. right. tauto.
Qed.

Lemma elem_of_unique (l : list string) (x : string) : x ∈ unique l <-> x ∈ l.
Proof.
  unfold unique. rewrite elem_of_unique_from. split; [tauto|].
  intros ?. split; [done|]. apply not_elem_of_nil.
Qed.

Lemma getitem_many (d : DataFrame) (u : string) :
  (2 <= count_label u (labels d))%nat -> exists cs, getitem d u = Ok (ManyColumns cs).
Proof.
  unfold labels. rewrite <- count_label_select. unfold getitem.
  destruct (select u (columns d)) as [|s [|s' cs]]; simpl; intros Hc; try lia. eauto.
Qed.

Lemma getitem_one (d : DataFrame) (u : string) :
  count_label u (labels d) = 1%nat -> exists s, getitem d u = Ok (OneColumn s).
Proof.
  unfold labels. rewrite <- count_label_select. unfold getitem.
  destruct (select u (columns d)) as [|s [|s' cs]]; simpl; intros Hc; try lia. eauto.
Qed.

Section WithLibrary.
Context `{Library}.

Lemma filter_all_eq (u : string) (ls : list string) (c : string) :
  c ∈ List.filter (fun c => bool_decide (c = u)) ls -> c = u.
Proof.
  intros Hc%list_elem_of_In. apply filter_In in Hc as [_ Hc]. by apply bool_decide_eq_true in Hc.
Qed.

Lemma merge_body_many (d : DataFrame) (h : heap) (o : DataFrame) (u : string) :
  (2 <= count_label u (labels d))%nat ->
  merge_duplicates d (length h) u (h ++ [ODataFrame o]) = (Raise no_dtype, h ++ [ODataFrame o]).
Proof.
  intros Hc. unfold merge_duplicates. fold (count_label u (labels d)).
  destruct (Nat.eqb_spec (count_label u (labels d)) 1) as [E|_]; [lia|].
  unfold count_label in Hc.
  destruct (List.filter _ (labels d)) as [|c0 [|k rest]] eqn:Ef; simpl in Hc; try lia.
  assert (c0 = u) as -> by (apply (filter_all_eq u (labels d)); rewrite Ef; apply list_elem_of_here).
  assert (k = u) as ->.
  { apply (filter_all_eq u (labels d)). rewrite Ef. apply list_elem_of_further, list_elem_of_here. }
  assert (Hc' : (2 <= count_label u (labels d))%nat) by (unfold count_label; rewrite Ef; simpl; lia).
  destruct (getitem_many d u Hc') as [cs Hg].
  rewrite bind_run, lift_run, Hg. cbn [fold_each].
  rewrite !bind_run, lift_run, Hg. reflexivity.
Qed.

Lemma merge_body_one (d : DataFrame) (h : heap) (o : DataFrame) (u : string) :
  count_label u (labels d) = 1%nat ->
  exists o', merge_duplicates d (length h) u (h ++ [ODataFrame o]) = (Ok tt, h ++ [ODataFrame o']).
Proof.
  intros Hc. unfold merge_duplicates. fold (count_label u (labels d)). rewrite Hc. simpl.
  destruct (getitem_one d u Hc) as [s Hg].
  rewrite bind_run, lift_run, Hg.
  rewrite (bind_run_Ok _ _ _ _ _ (read_frame_snoc _ _)).
  rewrite bind_run, lift_run. simpl. rewrite write_frame_snoc. eauto.
Qed.

Lemma merge_loop_raises (d : DataFrame) (h : heap) (us : list string) (o : DataFrame) :
  (forall u, u ∈ us -> u ∈ labels d) ->
  (exists u, u ∈ us /\ (2 <= count_label u (labels d))%nat) ->
  exists o', for_each us (merge_duplicates d (length h)) (h ++ [ODataFrame o])
             = (Raise no_dtype, h ++ [ODataFrame o']).
Proof.
  revert o. induction us as [|u us IH]; intros o Hin (w & Hw & Hc).
  - by apply elem_of_nil in Hw.
  - cbn [for_each]. rewrite bind_run.
    destruct (decide (2 <= count_label u (labels d))%nat) as [Hu|Hu].
    + rewrite merge_body_many by done. eauto.
    + assert (Hu1 : count_label u (labels d) = 1%nat).
      { pose proof (count_label_pos u (labels d) (Hin u (list_elem_of_here _ _))). lia. }
      destruct (merge_body_one d h o u Hu1) as [o' ->].
      apply IH.
      * intros x Hx. apply Hin. by apply list_elem_of_further.
      * exists w. split; [|done]. apply elem_of_cons in Hw as [->|Hw]; [lia|done].
Qed.


Lemma standardise_columns_run (h : heap) (l : loc) (t : DataFrame) :
  h !! l = Some (ODataFrame t) ->
  standardise_columns l h =
    (Ok (length h),
     h ++ [ODataFrame (mkDataFrame (index_len t)
                         (zip (map _snake (labels t)) (map snd (columns t))))]).
Proof.
  intros E. unfold standardise_columns.
  rewrite (bind_run_Ok _ _ _ _ _ (copy_run _ _ _ E)).
  rewrite (bind_run_Ok _ _ _ _ _ (read_frame_snoc _ _)).
  unfold set_columns, labels. rewrite !length_map, Nat.eqb_refl.
  rewrite (bind_run_Ok _ _ _ _ _ (lift_run _ _)).
  rewrite (bind_run_Ok _ _ _ _ _ (write_frame_snoc _ _ _)).
  reflexivity.
Qed.


Lemma renaming_lookup (A : gmap string string) (ls : list string) (c : string) :
  c ∈ ls -> renaming A ls !! c = A !! c.
Proof.
  unfold renaming.
  assert (G : forall ren0 : gmap string string,
    foldl (fun ren c => match A !! c with Some v => <[c := v]> ren | None => ren end) ren0 ls !! c
    = if bool_decide (c ∈ ls)
      then match A !! c with Some v => Some v | None => ren0 !! c end
      else ren0 !! c).
  { induction ls as [|x ls IH]; intros ren0; cbn [foldl].
    - rewrite bool_decide_eq_false_2; [done|apply not_elem_of_nil].
    - rewrite IH. destruct (decide (c = x)) as [->|Hne].
      + rewrite (bool_decide_eq_true_2 (x ∈ x :: ls)) by apply list_elem_of_here.
        destruct (A !! x) eqn:E; [|by destruct (bool_decide _)].
        rewrite lookup_insert_eq. by destruct (bool_decide _).
      + assert (bool_decide (c ∈ x :: ls) = bool_decide (c ∈ ls)) as ->.
        { apply bool_decide_ext. rewrite elem_of_cons. tauto. }
        destruct (A !! x) eqn:E; [|done]. by rewrite lookup_insert_ne. }
  intros Hc. rewrite G, bool_decide_eq_true_2 by done.
  destruct (A !! c); [done|apply lookup_empty].
Qed.

Lemma rename_renaming (A : gmap string string) (t : DataFrame) :
  rename t (renaming A (labels t)) = renamed A t.
Proof.
  unfold rename, renamed. f_equal. apply map_ext_in. intros [k s] Hin. simpl.
  rewrite renaming_lookup; [done|]. unfold labels. apply list_elem_of_fmap.
  exists (k, s). split; [done|]. by apply list_elem_of_In.
Qed.

Lemma apply_aliases_run (h : heap) (l : loc) (al : option loc) (A : gmap string string)
    (t : DataFrame) :
  h !! l = Some (ODataFrame t) ->
  (forall h', aliases_or_default al (h ++ h') = (Ok A, h ++ h')) ->
  if has_duplicates (labels (renamed A t))
  then exists o, apply_aliases l al h =
         (Raise no_dtype, h ++ [ODataFrame t; ODataFrame (renamed A t); ODataFrame o])
  else apply_aliases l al h =
         (Ok (S (length h)), h ++ [ODataFrame t; ODataFrame (renamed A t)]).
Proof.
  intros E HA. unfold apply_aliases.
  rewrite (bind_run_Ok _ _ _ _ _ (copy_run _ _ _ E)).
  rewrite (bind_run_Ok _ _ _ _ _ (HA _)).
  rewrite (bind_run_Ok _ _ _ _ _ (read_frame_snoc _ _)).
  rewrite rename_renaming.
  assert (Hal : alloc (ODataFrame (renamed A t)) (h ++ [ODataFrame t])
                = (Ok (length (h ++ [ODataFrame t])),
                   (h ++ [ODataFrame t]) ++ [ODataFrame (renamed A t)])) by reflexivity.
  rewrite (bind_run_Ok _ _ _ _ _ Hal).
  rewrite (bind_run_Ok _ _ _ _ _ (read_frame_snoc _ _)).
  destruct (has_duplicates (labels (renamed A t))) eqn:Hd.
  - set (h2 := (h ++ [ODataFrame t]) ++ [ODataFrame (renamed A t)]).
    assert (Hout : alloc (ODataFrame empty_frame) h2
                   = (Ok (length h2), h2 ++ [ODataFrame empty_frame])) by reflexivity.
    rewrite (bind_run_Ok _ _ _ _ _ Hout).
    unfold has_duplicates in Hd. apply negb_true_iff, bool_decide_eq_false in Hd.
    destruct (not_NoDup_count _ Hd) as (u & Hu & Hc).
    destruct (merge_loop_raises (renamed A t) h2 (unique (labels (renamed A t))) empty_frame)
      as [o Ho].
    { intros x. apply elem_of_unique. }
    { exists u. split; [by apply elem_of_unique|done]. }
    exists o. rewrite (bind_run_Raise _ _ _ _ _ Ho). unfold h2.
    by rewrite <- !app_assoc.
  - rewrite length_app. simpl. rewrite Nat.add_1_r. by rewrite <- app_assoc.
Qed.


Lemma canonical_snake (k : string) : k ∈ canonical_names -> _snake k = k.
Proof.
  intros Hk. unfold canonical_names in Hk.
  repeat (apply elem_of_cons in Hk as [->|Hk]; [by vm_compute|]).
  by apply elem_of_nil in Hk.
Qed.

Lemma canonical_alias (k : string) : k ∈ canonical_names -> DEFAULT_ALIASES !! k = Some k.
Proof.
  intros Hk. unfold canonical_names in Hk.
  repeat (apply elem_of_cons in Hk as [->|Hk]; [by vm_compute|]).
  by apply elem_of_nil in Hk.
Qed.

Lemma zip_fst_snd_cols (cs : list (string * Series)) : zip (map fst cs) (map snd cs) = cs.
Proof. induction cs as [|[k s] cs IH]; simpl; [done|]. by rewrite IH. Qed.

Lemma canonical_standardised (t : DataFrame) :
  Forall (fun k => k ∈ canonical_names) (labels t) ->
  mkDataFrame (index_len t) (zip (map _snake (labels t)) (map snd (columns t))) = t.
Proof.
  intros Hc. assert (map _snake (labels t) = labels t) as ->.
  { induction Hc as [|k ls Hk _ IH]; simpl; [done|]. by rewrite canonical_snake, IH. }
  unfold labels. rewrite zip_fst_snd_cols. by destruct t.
Qed.

Lemma canonical_renamed (t : DataFrame) :
  Forall (fun k => k ∈ canonical_names) (labels t) -> renamed DEFAULT_ALIASES t = t.
Proof.
  intros Hc. unfold renamed. destruct t as [n cs]. cbn [index_len columns]. f_equal.
  unfold labels in Hc. cbn [columns] in Hc.
  induction cs as [|[k s] cs IH]; cbn [map fst snd]; [done|].
  cbn [map fst] in Hc. apply Forall_cons in Hc as [Hk Hc].
  rewrite canonical_alias, IH by done. reflexivity.
Qed.

Lemma normalise_run (h : heap) (l : loc) (t : DataFrame) :
  h !! l = Some (ODataFrame t) ->
  Forall (fun k => k ∈ canonical_names) (labels t) ->
  if has_duplicates (labels t)
  then exists o, normalise l h =
         (Raise no_dtype, h ++ [ODataFrame t; ODataFrame t; ODataFrame t; ODataFrame o])
  else normalise l h =
         (Ok (S (S (length h))), h ++ [ODataFrame t; ODataFrame t; ODataFrame t]).
Proof.
  intros E Hc. unfold normalise.
  rewrite (bind_run_Ok _ _ _ _ _ (standardise_columns_run _ _ _ E)).
  rewrite (canonical_standardised t Hc).
  pose proof (apply_aliases_run (h ++ [ODataFrame t]) (length h) None DEFAULT_ALIASES t
                (lookup_snoc _ _) (fun h' => eq_refl)) as Hrun.
  rewrite (canonical_renamed t Hc) in Hrun.
  destruct (has_duplicates (labels t)).
  - destruct Hrun as [o ->]. exists o. by rewrite <- app_assoc.
  - rewrite Hrun. rewrite length_app, <- app_assoc. simpl. by rewrite Nat.add_1_r.
Qed.

Lemma labels_update_columns P f cs : map fst (update_columns P f cs) = map fst cs.
Proof.
  unfold update_columns. rewrite map_map. apply map_ext. intros c. by destruct (P (fst c)).
Qed.

Lemma where_na_clean (os : list pyobj) :
  where_na PNA
    (map (fun o => match o with PStr t => bool_decide (t ∈ null_markers) | _ => false end)
         (map (fun o => PStr (strip (py_str o))) os))
    (map (fun o => PStr (strip (py_str o))) os)
  = map clean_text os.
Proof.
  induction os as [|o os IH]; [done|]. cbn [map where_na]. rewrite IH.
  reflexivity.
Qed.

Lemma clean_series_eq (s : Series) :
  series_set_na (isin (astype_str_strip s) [""; "nan"; "None"; "NULL"; "null"])
    (astype_str_strip s) = clean_series s.
Proof.
  unfold astype_str_strip, isin, clean_series. cbn [objects series_set_na].
  f_equal. apply where_na_clean.
Qed.

(** Replacing the one column labelled [c]. *)
Lemma replace_unique (c : string) (s s' : Series) (f : Series -> Series)
    (cs : list (string * Series)) :
  NoDup (map fst cs) -> (c, s) ∈ cs -> s' = f s ->
  map (fun col => if bool_decide (fst col = c) then (c, s') else col) cs
  = update_columns (fun k => bool_decide (k = c)) f cs.
Proof.
  intros Hnd Hin ->. unfold update_columns. apply map_ext_in. intros [k s0] Hk%list_elem_of_In.
  cbn [fst snd]. case_bool_decide as E; [|done]. subst k.
  pose proof (select_member c s cs Hnd Hin) as E1.
  pose proof (select_member c s0 cs Hnd Hk) as E2. congruence.
Qed.

Lemma columns_setitem_present (d : DataFrame) (c : string) (s' : Series) :
  has_column d c = true ->
  columns (setitem d c s') = map (fun col => if bool_decide (fst col = c) then (c, s') else col) (columns d).
Proof. intros Hc. unfold setitem. cbn [columns]. by rewrite Hc. Qed.

Lemma has_column_elem (d : DataFrame) (c : string) (s : Series) :
  (c, s) ∈ columns d -> has_column d c = true.
Proof.
  intros Hin. apply has_column_true. unfold labels. apply list_elem_of_fmap. by exists (c, s).
Qed.

Lemma update_absent (c : string) (f : Series -> Series) (cs : list (string * Series)) :
  c ∉ map fst cs -> update_columns (fun k => bool_decide (k = c)) f cs = cs.
Proof.
  intros Hc. unfold update_columns. rewrite <- (map_id cs) at 2. apply map_ext_in.
  intros [k s] Hk%list_elem_of_In. cbn [fst]. case_bool_decide as E; [|done]. subst k.
  destruct Hc. apply list_elem_of_fmap. by exists (c, s).
Qed.

(** One round of the string loop. *)
Lemma clean_strings_run (h : heap) (d : DataFrame) (c : string) (s : Series) :
  NoDup (labels d) -> (c, s) ∈ columns d ->
  exists d', clean_strings (length h) c (h ++ [ODataFrame d]) = (Ok tt, h ++ [ODataFrame d']) /\
    columns d' = update_columns (fun k => bool_decide (k = c)) clean_series (columns d).
Proof.
  intros Hnd Hin. unfold clean_strings.
  rewrite (bind_run_Ok _ _ _ _ _ (read_frame_snoc _ _)).
  rewrite bind_run, lift_run, (getitem_select d c s (select_member _ _ _ Hnd Hin)).
  rewrite bind_run, lift_run. cbn [as_series].
  rewrite (bind_run_Ok _ _ _ _ _ (write_frame_snoc _ _ _)).
  rewrite (bind_run_Ok _ _ _ _ _ (read_frame_snoc _ _)).
  rewrite bind_run, lift_run, (getitem_select _ c _ (select_setitem_eq d c _ Hnd)).
  rewrite bind_run, lift_run. cbn [as_series].
  rewrite write_frame_snoc. eexists. split; [reflexivity|].
  unfold loc_set_na. cbn [columns].
  rewrite (columns_setitem_present d c _ (has_column_elem _ _ _ Hin)).
  rewrite map_map. rewrite <- (replace_unique c s (clean_series s) clean_series (columns d) Hnd Hin eq_refl).
  apply map_ext. intros [k s0]. cbn [fst snd].
  destruct (decide (k = c)) as [->|Hne].
  - rewrite !(bool_decide_eq_true_2 (c = c)) by done. cbn [fst snd].
    by rewrite ?(bool_decide_eq_true_2 (c = c)), clean_series_eq by done.
  - rewrite !(bool_decide_eq_false_2 (k = c)) by done. cbn [fst snd].
    by rewrite ?(bool_decide_eq_false_2 (k = c)) by done.
Qed.


Lemma update_columns_cons (c : string) (cs : list string) (f : Series -> Series)
    (cols : list (string * Series)) :
  c ∉ cs ->
  update_columns (fun k => bool_decide (k ∈ cs)) f
    (update_columns (fun k => bool_decide (k = c)) f cols)
  = update_columns (fun k => bool_decide (k ∈ c :: cs)) f cols.
Proof.
  intros Hc. unfold update_columns. rewrite map_map. apply map_ext. intros [k s]. cbn [fst snd].
  destruct (decide (k = c)) as [->|Hne].
  - rewrite (bool_decide_eq_true_2 (c = c)) by done. cbn [fst snd].
    rewrite (bool_decide_eq_false_2 (c ∈ cs)) by done.
    by rewrite (bool_decide_eq_true_2 (c ∈ c :: cs)) by apply list_elem_of_here.
  - rewrite (bool_decide_eq_false_2 (k = c)) by done. cbn [fst snd].
    assert (bool_decide (k ∈ c :: cs) = bool_decide (k ∈ cs)) as ->; [|done].
    apply bool_decide_ext. rewrite elem_of_cons. tauto.
Qed.

Lemma update_columns_nil (f : Series -> Series) (cols : list (string * Series)) :
  update_columns (fun k => bool_decide (k ∈ [])) f cols = cols.
Proof.
  unfold update_columns. rewrite <- (map_id cols) at 2. apply map_ext. intros [k s].
  cbn [fst]. rewrite bool_decide_eq_false_2; [done|apply not_elem_of_nil].
Qed.

(** A loop whose rounds each rewrite one column rewrites the columns of
    its list. *)
Lemma update_loop (body : loc -> string -> M unit) (f : Series -> Series)
    (Q : list string -> string -> Prop) (h : heap) :
  (forall d c, NoDup (labels d) -> Q (labels d) c ->
     exists d', body (length h) c (h ++ [ODataFrame d]) = (Ok tt, h ++ [ODataFrame d']) /\
       columns d' = update_columns (fun k => bool_decide (k = c)) f (columns d)) ->
  forall cs d, NoDup cs -> NoDup (labels d) -> (forall c, c ∈ cs -> Q (labels d) c) ->
    exists d', for_each cs (body (length h)) (h ++ [ODataFrame d]) = (Ok tt, h ++ [ODataFrame d']) /\
      columns d' = update_columns (fun k => bool_decide (k ∈ cs)) f (columns d).
Proof.
  intros Hstep cs. induction cs as [|c cs IH]; intros d Hcs Hnd HQ.
  - exists d. split; [done|]. by rewrite update_columns_nil.
  - apply NoDup_cons in Hcs as [Hc Hcs].
    destruct (Hstep d c Hnd (HQ c (list_elem_of_here _ _))) as (d1 & Hrun & Hcols).
    assert (Hl1 : labels d1 = labels d) by (unfold labels; by rewrite Hcols, labels_update_columns).
    destruct (IH d1 Hcs) as (d' & Hrun' & Hcols').
    { by rewrite Hl1. }
    { intros x Hx. rewrite Hl1. apply HQ. by apply list_elem_of_further. }
    exists d'. split.
    + cbn [for_each]. by rewrite (bind_run_Ok _ _ _ _ _ Hrun).
    + by rewrite Hcols', Hcols, update_columns_cons.
Qed.

Lemma coerce_number_run (h : heap) (d : DataFrame) (c : string) :
  NoDup (labels d) ->
  exists d', coerce_number (length h) c (h ++ [ODataFrame d]) = (Ok tt, h ++ [ODataFrame d']) /\
    columns d' = update_columns (fun k => bool_decide (k = c))
                   (fun s => SFloat (to_numeric s)) (columns d).
Proof.
  intros Hnd. unfold coerce_number.
  rewrite (bind_run_Ok _ _ _ _ _ (read_frame_snoc _ _)).
  destruct (has_column d c) eqn:Hc.
  - destruct (getitem_present d c Hnd Hc) as (s & Hs & Hin).
    rewrite bind_run, lift_run, (getitem_select d c s Hs).
    rewrite bind_run, lift_run. cbn [as_series].
    rewrite write_frame_snoc. eexists. split; [reflexivity|].
    rewrite (columns_setitem_present d c _ Hc).
    by apply (replace_unique c s).
  - exists d. split; [done|]. rewrite update_absent; [done|]. by apply has_column_false.
Qed.

Lemma date_phase_run (h : heap) (d : DataFrame) :
  NoDup (labels d) ->
  exists d',
    (if has_column d "date" then
       v ← lift (getitem d "date");
       s ← lift (as_series (ValueError "to assemble mappings requires at least that [year, month, day] be specified") v);
       write_frame (length h) (setitem d "date" (SDatetime (coerce_dates s)))
     else mret tt) (h ++ [ODataFrame d]) = (Ok tt, h ++ [ODataFrame d']) /\
    columns d' = update_columns (fun k => bool_decide (k = "date"))
                   (fun s => SDatetime (coerce_dates s)) (columns d).
Proof.
  intros Hnd. destruct (has_column d "date") eqn:Hc.
  - destruct (getitem_present d "date" Hnd Hc) as (s & Hs & Hin).
    rewrite bind_run, lift_run, (getitem_select d "date" s Hs).
    rewrite bind_run, lift_run. cbn [as_series].
    rewrite write_frame_snoc. eexists. split; [reflexivity|].
    rewrite (columns_setitem_present d "date" _ Hc).
    by apply (replace_unique "date" s).
  - exists d. split; [done|]. rewrite update_absent; [done|]. by apply has_column_false.
Qed.

Lemma elem_of_object_columns (d : DataFrame) (k : string) :
  k ∈ object_columns d <-> exists os, (k, SObject os) ∈ columns d.
Proof.
  unfold object_columns. rewrite list_elem_of_omap. split.
  - intros ([k' s] & Hin & E). cbn [fst snd] in E. destruct s; try discriminate.
    injection E as ->. eauto.
  - intros [os Hin]. by exists (k, SObject os).
Qed.

Lemma NoDup_object_columns (d : DataFrame) : NoDup (labels d) -> NoDup (object_columns d).
Proof.
  unfold labels, object_columns. induction (columns d) as [|[k s] cs IH]; cbn [map omap fst snd].
  - constructor.
  - intros [Hk Hnd]%NoDup_cons. specialize (IH Hnd).
    destruct s; cbn; try done. apply NoDup_cons. split; [|done].
    intros Hin. apply Hk. apply list_elem_of_omap in Hin as ([k' s'] & Hin & E).
    cbn [fst snd] in E. destruct s'; try discriminate. injection E as ->.
    apply list_elem_of_fmap. by exists (k, SObject os0).
Qed.


Lemma NoDup_List_filter (p : string -> bool) (l : list string) :
  NoDup l -> NoDup (List.filter p l).
Proof.
  induction 1 as [|x l Hx Hnd IH]; cbn [List.filter]; [constructor|].
  destruct (p x); [|done]. constructor; [|done].
  intros Hin%list_elem_of_In. apply filter_In in Hin as [Hin _]. by apply list_elem_of_In in Hin.
Qed.

Lemma unique_column (cs : list (string * Series)) (k : string) (s s' : Series) :
  NoDup (map fst cs) -> (k, s) ∈ cs -> (k, s') ∈ cs -> s = s'.
Proof.
  intros Hnd H1 H2. pose proof (select_member k s cs Hnd H1).
  pose proof (select_member k s' cs Hnd H2). congruence.
Qed.

(** [coerce_types] on a table with distinct labels: the copy is the one new
    object, and each of its columns is the coerced column of the table. *)
Lemma coerce_types_run (h : heap) (l : loc) (t : DataFrame) :
  h !! l = Some (ODataFrame t) -> NoDup (labels t) ->
  exists t', coerce_types l h = (Ok (length h), h ++ [ODataFrame t']) /\
    columns t' = map coerce_column (columns t).
Proof.
  intros E Hnd. unfold coerce_types.
  rewrite (bind_run_Ok _ _ _ _ _ (copy_run _ _ _ E)).
  rewrite (bind_run_Ok _ _ _ _ _ (read_frame_snoc _ _)).
  destruct (date_phase_run h t Hnd) as (d1 & Hrun1 & Hc1).
  rewrite (bind_run_Ok _ _ _ _ _ Hrun1).
  rewrite (bind_run_Ok _ _ _ _ _ (read_frame_snoc _ _)).
  assert (Hl1 : labels d1 = labels t) by (unfold labels; by rewrite Hc1, labels_update_columns).
  assert (Hnd1 : NoDup (labels d1)) by by rewrite Hl1.
  set (obj_cols := List.filter (fun c => negb (bool_decide (c = "date"))) (object_columns d1)).
  destruct (update_loop clean_strings clean_series (fun ls c => c ∈ ls) h) with (cs := obj_cols) (d := d1)
    as (d2 & Hrun2 & Hc2).
  { intros d c Hd Hc. unfold labels in Hc. apply list_elem_of_fmap in Hc as ([k s] & -> & Hin).
    by apply (clean_strings_run h d k s). }
  { by apply NoDup_List_filter, NoDup_object_columns. }
  { done. }
  { intros c Hc. unfold obj_cols in Hc. apply list_elem_of_In, filter_In in Hc as [Hc _].
    apply list_elem_of_In, elem_of_object_columns in Hc as [os Hin].
    unfold labels. apply list_elem_of_fmap. by exists (c, SObject os). }
  rewrite (bind_run_Ok _ _ _ _ _ Hrun2).
  assert (Hl2 : labels d2 = labels t) by (unfold labels; by rewrite Hc2, labels_update_columns).
  assert (Hnd2 : NoDup (labels d2)) by by rewrite Hl2.
  destruct (update_loop coerce_number (fun s => SFloat (to_numeric s)) (fun _ _ => True) h)
    with (cs := ["revenue"; "cost"; "units"]) (d := d2) as (d3 & Hrun3 & Hc3).
  { intros d c Hd _. by apply coerce_number_run. }
  { apply (bool_decide_unpack (NoDup _)). by vm_compute. }
  { done. }
  { done. }
  rewrite (bind_run_Ok _ _ _ _ _ Hrun3).
  exists d3. split; [reflexivity|].
  rewrite Hc3, Hc2. unfold update_columns. rewrite !map_map.
  assert (Hobj : forall k s, (k, s) ∈ columns d1 ->
            bool_decide (k ∈ obj_cols) = match s with SObject _ => true | _ => false end).
  { intros k s Hin. unfold obj_cols. destruct s as [xs|ts|os].
    - apply bool_decide_eq_false_2. intros Hk%list_elem_of_In. apply filter_In in Hk as [Hk _].
      apply list_elem_of_In, elem_of_object_columns in Hk as [os Hos].
      by pose proof (unique_column _ _ _ _ Hnd1 Hin Hos).
    - apply bool_decide_eq_false_2. intros Hk%list_elem_of_In. apply filter_In in Hk as [Hk _].
      apply list_elem_of_In, elem_of_object_columns in Hk as [os Hos].
      by pose proof (unique_column _ _ _ _ Hnd1 Hin Hos).
    - apply bool_decide_eq_true_2. apply list_elem_of_In, filter_In. split.
      + apply list_elem_of_In, elem_of_object_columns. eauto.
      + apply negb_true_iff, bool_decide_eq_false_2. intros Ek. subst k.
        rewrite Hc1 in Hin. unfold update_columns in Hin.
        apply list_elem_of_fmap in Hin as ([k0 s0] & E0 & _). cbn [fst snd] in E0.
        case_bool_decide; [discriminate|]. injection E0 as E1 E2. congruence. }
  rewrite Hc1 in Hobj. rewrite Hc1. unfold update_columns in *. rewrite map_map.
  apply map_ext_in. intros [k s] Hin%list_elem_of_In. cbn [fst snd].
  unfold coerce_column. cbn [fst snd].
  set (c1 := if bool_decide (k = "date") then (k, SDatetime (coerce_dates s)) else (k, s)).
  assert (Hin1 : c1 ∈ map (fun c => if bool_decide (fst c = "date")
                      then (fst c, SDatetime (coerce_dates (snd c))) else c) (columns t)).
  { apply list_elem_of_fmap. by exists (k, s). }
  assert (Ek : fst c1 = k) by (unfold c1; by destruct (bool_decide _)).
  assert (Es : snd c1 = if bool_decide (k = "date") then SDatetime (coerce_dates s) else s)
    by (unfold c1; by destruct (bool_decide _)).
  destruct c1 as [k1 s1]. cbn [fst snd] in Ek, Es. subst k1.
  cbn [fst snd]. rewrite (Hobj k s1 Hin1), <- Es.
  destruct s1; cbn [fst snd]; by destruct (bool_decide (k ∈ _)).
Qed.




Lemma to_datetime_length (s : Series) : length (to_datetime s) = slen s.
Proof. destruct s; cbn; by rewrite ?length_map, ?length_seq. Qed.


Lemma coerce_dates_length (s : Series) : length (coerce_dates s) = slen s.
Proof.
  unfold coerce_dates. destruct (existsb _ _); [|apply to_datetime_length].
  rewrite <- to_datetime_length. generalize (to_datetime s).
  generalize (map (to_datetime_days (1899, 12, 30))
                (boolean_mask (map (between 20000 60000) (to_numeric s)) (to_numeric s))).
  generalize (map (between 20000 60000) (to_numeric s)).
  intros mask vals xs. revert mask vals.
  induction xs as [|x xs IH]; intros mask vals; [done|].
  destruct mask as [|b mask]; [done|]. cbn [loc_assign].
  destruct b; [destruct vals|]; cbn; by rewrite IH.
Qed.

Lemma run_on_coerce_types (t : DataFrame) :
  NoDup (labels t) ->
  exists t', run_on coerce_types t = Ok t' /\ columns t' = map coerce_column (columns t).
Proof.
  intros Hnd. destruct (coerce_types_run [ODataFrame t] 0%nat t eq_refl Hnd) as (t' & Hrun & Hc).
  exists t'. split; [|done]. unfold run_on. rewrite bind_run, Hrun. reflexivity.
Qed.

Lemma labels_coerced (cs : list (string * Series)) : map fst (map coerce_column cs) = map fst cs.
Proof. rewrite map_map. by apply map_ext. Qed.

Lemma check_required_run (d : DataFrame) (ws : list string) (r : string) (h : heap) :
  NoDup (labels d) ->
  check_required d ws r h = (Ok (ws ++ required_warning d r), h).
Proof.
  intros Hnd. unfold check_required, required_warning, mostly_missing.
  destruct (has_column d r) eqn:E; cbn [negb]; [|done].
  destruct (getitem_present d r Hnd E) as (s & Hs & _).
  rewrite bind_run, lift_run, (getitem_select _ _ _ Hs). cbv beta iota.
  rewrite bind_run, lift_run. cbn [as_series]. cbv beta iota. rewrite Hs.
  destruct (mean_gt_half (series_isna s)); [done|]. by rewrite app_nil_r.
Qed.

Lemma validate_run (h : heap) (l : loc) (t : DataFrame) :
  h !! l = Some (ODataFrame t) -> NoDup (labels t) ->
  validate l h = (Ok (expected_warnings t), h).
Proof.
  intros Hl Hnd. unfold validate, expected_warnings.
  rewrite (bind_run_Ok _ _ _ _ _ (read_frame_run _ _ _ Hl)).
  unfold REQUIRED. cbn [fold_each].
  rewrite bind_run, bind_run, check_required_run by done. cbv beta iota.
  rewrite bind_run, check_required_run by done. cbv beta iota.
  change ((mret (([] ++ required_warning t "date") ++ required_warning t "revenue") : M _) h)
    with (Ok (([] ++ required_warning t "date") ++ required_warning t "revenue"), h).
  cbv beta iota. cbn [app]. unfold date_warning, missing_count.
  destruct (has_column t "date") eqn:E; cbn [andb].
  - destruct (getitem_present t "date" Hnd E) as (s & Hs & _).
    rewrite bind_run, lift_run, (getitem_select _ _ _ Hs). cbv beta iota.
    rewrite bind_run, lift_run. cbn [as_series]. cbv beta iota zeta. rewrite Hs.
    destruct (Nat.ltb 0 (count_true (series_isna s))).
    + by rewrite <- app_assoc.
    + by rewrite app_nil_r.
  - by rewrite app_nil_r.
Qed.

(** *** What a stage leaves of the store *)

Lemma keeps_bind {A B} (h0 : heap) (Q : A -> Prop) (R : B -> Prop) (m : M A) (f : A -> M B) :
  keeps h0 Q m -> (forall a, Q a -> keeps h0 R (f a)) -> keeps h0 R (m ≫= f).
Proof.
  intros Hm Hf x. destruct (Hm x) as [[y Hs] Hq]. rewrite bind_run.
  destruct (m (h0 ++ x)) as [[a|e] h']; cbn [fst snd] in *; subst h'.
  - by apply Hf.
  - split; [by exists y|done].
Qed.

Lemma keeps_ret {A} (h0 : heap) (Q : A -> Prop) (a : A) : Q a -> keeps h0 Q (mret a).
Proof. intros Ha x. split; [by exists x|by cbn]. Qed.

Lemma keeps_raise {A} (h0 : heap) (Q : A -> Prop) (e : exn) : keeps h0 Q (raise e).
Proof. intros x. split; [by exists x|by cbn]. Qed.

Lemma keeps_lift {A} (h0 : heap) (r : Result A) : keeps h0 (fun _ => True) (lift r).
Proof. intros x. split; [by exists x|by destruct r; cbn]. Qed.

Lemma keeps_read_frame (h0 : heap) (l : loc) : keeps h0 (fun _ => True) (read_frame l).
Proof.
  intros x. unfold read_frame. repeat case_match; (split; [by exists x|by cbn]).
Qed.

Lemma keeps_read_dict (h0 : heap) (l : loc) : keeps h0 (fun _ => True) (read_dict l).
Proof.
  intros x. unfold read_dict. repeat case_match; (split; [by exists x|by cbn]).
Qed.

Lemma keeps_alloc (h0 : heap) (o : object) : keeps h0 (fresh h0) (alloc o).
Proof.
  intros x. split; cbn [alloc fst snd].
  - exists (x ++ [o]). by rewrite app_assoc.
  - unfold fresh. rewrite length_app. lia.
Qed.

Lemma keeps_write_frame (h0 : heap) (l : loc) (d : DataFrame) :
  fresh h0 l -> keeps h0 (fun _ => True) (write_frame l d).
Proof.
  intros Hl x. split; [|done]. unfold write_frame. cbn [snd].
  exists (<[(l - length h0)%nat := ODataFrame d]> x). by apply insert_app_r_alt.
Qed.

Lemma keeps_copy (h0 : heap) (l : loc) : keeps h0 (fresh h0) (copy l).
Proof.
  unfold copy. eapply keeps_bind; [apply keeps_read_frame|]. intros d _. apply keeps_alloc.
Qed.

Lemma keeps_for_each {A} (h0 : heap) (xs : list A) (body : A -> M unit) :
  (forall a, keeps h0 (fun _ => True) (body a)) ->
  keeps h0 (fun _ => True) (for_each xs body).
Proof.
  intros Hb. induction xs as [|a xs IH]; cbn [for_each].
  - by apply keeps_ret.
  - eapply keeps_bind; [apply Hb|]. by intros _ _.
Qed.

Lemma keeps_fold_each {A S} (h0 : heap) (xs : list A) (s : S) (body : S -> A -> M S) :
  (forall s a, keeps h0 (fun _ => True) (body s a)) ->
  keeps h0 (fun _ => True) (fold_each xs s body).
Proof.
  intros Hb. revert s. induction xs as [|a xs IH]; intros s; cbn [fold_each].
  - by apply keeps_ret.
  - eapply keeps_bind; [apply Hb|]. intros s' _. apply IH.
Qed.

Ltac keep :=
  repeat first
    [ apply keeps_lift | apply keeps_read_frame | apply keeps_read_dict
    | apply keeps_alloc | apply keeps_copy | apply keeps_raise
    | apply keeps_write_frame; assumption
    | apply keeps_ret; first [assumption | exact I]
    | eapply keeps_bind; [|intros ? ?]
    | apply keeps_for_each; intros ?
    | apply keeps_fold_each; intros ? ?
    | match goal with
      | |- keeps _ _ (if ?b then _ else _) => destruct b
      | |- keeps _ _ (match ?b with _ => _ end) => destruct b
      end ].

Lemma keeps_standardise_columns (h0 : heap) (l : loc) :
  keeps h0 (fresh h0) (standardise_columns l).
Proof. unfold standardise_columns. keep. Qed.

Lemma keeps_aliases_or_default (h0 : heap) (al : option loc) :
  keeps h0 (fun _ => True) (aliases_or_default al).
Proof. unfold aliases_or_default. keep. Qed.

Lemma keeps_merge_duplicates (h0 : heap) (d : DataFrame) (out : loc) (col : string) :
  fresh h0 out -> keeps h0 (fun _ => True) (merge_duplicates d out col).
Proof. intros Ho. unfold merge_duplicates. cbv zeta. keep. Qed.

Lemma keeps_apply_aliases (h0 : heap) (l : loc) (al : option loc) :
  keeps h0 (fresh h0) (apply_aliases l al).
Proof.
  unfold apply_aliases.
  eapply keeps_bind; [apply keeps_copy|]; intros l1 H1.
  eapply keeps_bind; [apply keeps_aliases_or_default|]; intros A _.
  eapply keeps_bind; [apply keeps_read_frame|]; intros d _.
  eapply keeps_bind; [apply keeps_alloc|]; intros l2 H2.
  eapply keeps_bind; [apply keeps_read_frame|]; intros d2 _.
  destruct (has_duplicates (labels d2)); [|by apply keeps_ret].
  eapply keeps_bind; [apply keeps_alloc|]; intros out Ho.
  eapply keeps_bind; [|intros _ _; by apply keeps_ret].
  apply keeps_for_each. intros col. by apply keeps_merge_duplicates.
Qed.

Lemma keeps_clean_strings (h0 : heap) (l : loc) (c : string) :
  fresh h0 l -> keeps h0 (fun _ => True) (clean_strings l c).
Proof. intros Hl. unfold clean_strings. keep. Qed.

Lemma keeps_coerce_number (h0 : heap) (l : loc) (c : string) :
  fresh h0 l -> keeps h0 (fun _ => True) (coerce_number l c).
Proof. intros Hl. unfold coerce_number. keep. Qed.

Lemma keeps_coerce_types (h0 : heap) (l : loc) :
  keeps h0 (fresh h0) (coerce_types l).
Proof.
  unfold coerce_types.
  eapply keeps_bind; [apply keeps_copy|]; intros l1 H1.
  eapply keeps_bind; [apply keeps_read_frame|]; intros d _.
  eapply keeps_bind; [|intros _ _].
  { destruct (has_column d "date"); keep. }
  eapply keeps_bind; [apply keeps_read_frame|]; intros d2 _. cbv zeta.
  eapply keeps_bind; [|intros _ _].
  { apply keeps_for_each. intros c. by apply keeps_clean_strings. }
  eapply keeps_bind; [|intros _ _].
  { apply keeps_for_each. intros c. by apply keeps_coerce_number. }
  by apply keeps_ret.
Qed.

Lemma keeps_check_required (h0 : heap) (d : DataFrame) (ws : list string) (r : string) :
  keeps h0 (fun _ => True) (check_required d ws r).
Proof. unfold check_required. keep. Qed.

Lemma keeps_validate (h0 : heap) (l : loc) : keeps h0 (fun _ => True) (validate l).
Proof.
  unfold validate.
  eapply keeps_bind; [apply keeps_read_frame|]; intros d _.
  eapply keeps_bind; [|intros ws _].
  { apply keeps_fold_each. intros s a. apply keeps_check_required. }
  cbv zeta. keep.
Qed.

Lemma keeps_clean (h0 : heap) (l : loc) (al : option loc) :
  keeps h0 (fun r => fresh h0 (df r)) (clean l al).
Proof.
  unfold clean.
  eapply keeps_bind; [apply keeps_standardise_columns|]; intros l1 _.
  eapply keeps_bind; [apply keeps_apply_aliases|]; intros l2 _.
  eapply keeps_bind; [apply keeps_coerce_types|]; intros l3 H3.
  eapply keeps_bind; [apply keeps_validate|]; intros ws _.
  by apply keeps_ret.
Qed.

Lemma keeps_here {A} (h : heap) (Q : A -> Prop) (m : M A) :
  keeps h Q m -> extends_from h Q (m h).
Proof. intros Hk. specialize (Hk []). by rewrite app_nil_r in Hk. Qed.

(** *** Computations that only read *)

Lemma reads_bind {A B} (m : M A) (f : A -> M B) (h : heap) :
  snd (m h) = h -> (forall a, snd (f a h) = h) -> snd ((m ≫= f) h) = h.
Proof.
  intros Hm Hf. rewrite bind_run. destruct (m h) as [[a|e] h']; cbn [snd] in *; subst h'; [apply Hf|done].
Qed.

Lemma reads_read_frame (l : loc) (h : heap) : snd (read_frame l h) = h.
Proof. unfold read_frame. by destruct (h !! l) as [[d|d]|]. Qed.

Lemma reads_check_required (d : DataFrame) (ws : list string) (r : string) (h : heap) :
  snd (check_required d ws r h) = h.
Proof.
  unfold check_required. destruct (negb (has_column d r)); [done|].
  apply reads_bind; [done|]. intros v. apply reads_bind; [done|]. intros s.
  by destruct (mean_gt_half (series_isna s)).
Qed.

Lemma reads_validate (l : loc) (h : heap) : snd (validate l h) = h.
Proof.
  unfold validate. apply reads_bind; [apply reads_read_frame|]. intros d.
  apply reads_bind.
  - unfold REQUIRED. cbn [fold_each].
    apply reads_bind; [apply reads_check_required|]. intros ws.
    apply reads_bind; [apply reads_check_required|]. by intros ws'.
  - intros ws. destruct (has_column d "date"); [|done].
    apply reads_bind; [done|]. intros v. apply reads_bind; [done|]. intros s.
    cbv zeta. by destruct (Nat.ltb 0 (count_true (series_isna s))).
Qed.

End WithLibrary.

End CleanFacts.

(** ** The KPI aggregator: margins, empty input, month-over-month changes *)
Module KpisClaims.
Import PyFloat Pandas Kpis Reading FrameFacts FloatFacts KpisFacts.

(** C1. The margin of a Trends row is not guarded as the margin of Summary
    is: for one January sale with revenue 0 and cost 5, Summary gives the
    margin as [pd.NA], and the January row of Trends has revenue 0, gross
    profit -5 and margin minus infinity. *)
Theorem trends_margin_unguarded `{Library} :
  exists t, build_tables zero_revenue_month = Ok t /\
    summary_value (Summary t) "margin" = Some PNA /\
    float_at (Trends t) "revenue" 0 = Some 0%float /\
    float_at (Trends t) "gross_profit" 0 = Some (-5)%float /\
    float_at (Trends t) "margin" 0 = Some neg_infinity.
Proof. eexists. split; [vm_compute; reflexivity|]. repeat split. Qed.

(** C2, as stated, fails: on the table without rows and without columns
    [build_tables] raises [KeyError: 'revenue'], whatever the library reads. *)
Lemma empty_frame_raises :
  exists df, index_len df = 0%nat /\ columns df = [] /\
    forall L : Library, @build_tables L df = Raise (KeyError "revenue").
Proof. exists empty_frame. repeat split. Qed.

Section WithLibrary.
Context `{Library}.

(** C2, amended. On a fact table without rows (distinct labels, a revenue
    column, a date column of timestamps if any, every column as long as the
    index) [build_tables] returns: Summary lists the six metrics with
    revenue, cost, gross profit and units 0, margin [pd.NA] and
    rows_loaded 0; Trends, Variance and the two drilldowns have their
    headers and no row. *)
Theorem empty_fact_table (df : DataFrame) :
  fact_table df = true -> aligned df = true -> index_len df = 0%nat ->
  exists t, build_tables df = Ok t /\
    Summary t =
      mkDataFrame 6
        [ ("metric", SObject (map PStr
             ["revenue"; "cost"; "gross_profit"; "margin"; "units"; "rows_loaded"]));
          ("value", SObject
             [PFloat 0; PFloat 0; PFloat 0; PNA; PFloat 0; PInt 0]) ] /\
    empty_with_headers (Trends t)
      ["month"; "revenue"; "cost"; "gross_profit"; "units"; "margin"] /\
    empty_with_headers (Variance t)
      ["month"; "revenue"; "cost"; "gross_profit"; "units"; "margin";
       "revenue_mom_abs"; "revenue_mom_pct"; "cost_mom_abs"; "cost_mom_pct";
       "gross_profit_mom_abs"; "gross_profit_mom_pct"; "units_mom_abs"; "units_mom_pct";
       "margin_mom_abs"; "margin_mom_pct"] /\
    empty_with_headers (Drilldown_Region t) ["month"; "region"; "revenue"; "gross_profit"] /\
    empty_with_headers (Drilldown_Product t) ["month"; "product"; "revenue"; "gross_profit"].
Proof.
  intros Hf Hal Hz.
  destruct (build_tables_shape df Hf)
    as (d & ms & reg & prod & r & c & u & g & t & Hi & Hl & Hb & Hshape).
  destruct Hi as [_ Hi]. destruct (Hi Hal) as [Hn Hd]. rewrite Hz in Hn.
  destruct (Hl Hd) as (Hms & Hreg & Hprod & Hr & Hc & Hu & Hg).
  rewrite Hn in *.
  apply nil_of_length in Hms, Hr, Hc, Hu, Hg. subst ms r c u g.
  cbv zeta in Hshape. destruct Hshape as (HS & HTi & HVi & HT & HV & HR & HP).
  exists t. split; [exact Hb|]. split; [exact HS|].
  unfold empty_with_headers, labels. rewrite HTi, HVi, HV, HT, HR, HP.
  repeat split; try reflexivity.
  - repeat constructor.
  - repeat constructor; simpl; rewrite ?pct_change_length, ?diff_length; reflexivity.
  - destruct (series_of_length_0 _ Hreg) as [->|[->| ->]]; repeat constructor.
  - destruct (series_of_length_0 _ Hprod) as [->|[->| ->]]; repeat constructor.
Qed.


(** C8. For a fact table with at least one row, [build_tables] returns
    and the first row of Variance is NaN in each of the ten [_mom_abs] and
    [_mom_pct] columns. *)
Theorem variance_first_row (df : DataFrame) :
  fact_table df = true -> index_len df <> 0%nat ->
  exists t, build_tables df = Ok t /\
    forall col, col ∈ mom_columns ->
      float_at (Variance t) (col +:+ "_mom_abs") 0 = Some NaN /\
      float_at (Variance t) (col +:+ "_mom_pct") 0 = Some NaN.
Proof.
  intros Hf Hz.
  destruct (build_tables_shape df Hf)
    as (d & ms & reg & prod & r & c & u & g & t & Hi & _ & Hb & Hshape).
  destruct Hi as [Hi _]. specialize (Hi Hz).
  cbv zeta in Hshape. destruct Hshape as (_ & _ & _ & HT & HV & _).
  exists t. split; [exact Hb|].
  pose proof (group_keys_nonempty (index_len d) [objects (SDatetime ms)]) as Hg.
  rewrite Hi in Hg. specialize (Hg Hz). rewrite <- Hi in Hg.
  set (groups := group_keys _ _) in *.
  assert (Hne : forall xs, group_sum (index_len d) [objects (SDatetime ms)] groups xs <> []).
  { intros xs. unfold group_sum. by destruct groups. }
  assert (HM : zip_with PrimFloat.div
                 (group_sum (index_len d) [objects (SDatetime ms)] groups g)
                 (group_sum (index_len d) [objects (SDatetime ms)] groups r) <> []).
  { unfold group_sum. by destruct groups. }
  intros col Hcol. unfold float_at, floats_of. rewrite HV, HT.
  epose proof (mom_lookup _ _ _ _ _ _ _ _ _ _ _ _ _ _ _ _ col Hcol) as Hl.
  cbv zeta in Hl. destruct Hl as (T & A & P & Hin & _ & HA & HP).
  rewrite HA, HP. clear HA HP.
  repeat (apply elem_of_cons in Hin as [[= -> -> -> ->]|Hin];
          [split; simpl; auto using diff_first, pct_change_first|]).
  by apply elem_of_nil in Hin.
Qed.



End WithLibrary.




Lemma empty_fact_table_witness :
  exists t, build_tables (H := text_free true) no_rows = Ok t /\
    Summary t =
      mkDataFrame 6
        [ ("metric", SObject (map PStr
             ["revenue"; "cost"; "gross_profit"; "margin"; "units"; "rows_loaded"]));
          ("value", SObject
             [PFloat 0; PFloat 0; PFloat 0; PNA; PFloat 0; PInt 0]) ] /\
    empty_with_headers (Trends t)
      ["month"; "revenue"; "cost"; "gross_profit"; "units"; "margin"] /\
    empty_with_headers (Variance t)
      ["month"; "revenue"; "cost"; "gross_profit"; "units"; "margin";
       "revenue_mom_abs"; "revenue_mom_pct"; "cost_mom_abs"; "cost_mom_pct";
       "gross_profit_mom_abs"; "gross_profit_mom_pct"; "units_mom_abs"; "units_mom_pct";
       "margin_mom_abs"; "margin_mom_pct"] /\
    empty_with_headers (Drilldown_Region t) ["month"; "region"; "revenue"; "gross_profit"] /\
    empty_with_headers (Drilldown_Product t) ["month"; "product"; "revenue"; "gross_profit"].
Proof.
  apply (empty_fact_table (H := text_free true) no_rows); reflexivity.
Defined.

Lemma variance_first_row_witness :
  exists t, build_tables (H := text_free true) two_months = Ok t /\
    forall col, col ∈ mom_columns ->
      float_at (Variance t) (col +:+ "_mom_abs") 0 = Some NaN /\
      float_at (Variance t) (col +:+ "_mom_pct") 0 = Some NaN.
Proof.
  apply (variance_first_row (H := text_free true) two_months); [reflexivity|discriminate].
Defined.

End KpisClaims.

Module CleanClaims.
Import PyFloat PyStr Pandas Store Clean Reading FrameFacts CleanFacts.

(** C5. The merge of columns aliased to one name is not reached: for the
    columns Sales = [10, null, 30] and Revenue = [null, 20, null], both
    renamed to [revenue], [df[cols[0]]] selects the two columns as a table
    and [combine_first] on it raises [AttributeError]; no merged column
    [10, 20, 30] is returned. *)
Theorem aliased_pair_raises `{Library} :
  labels (renamed DEFAULT_ALIASES (mkDataFrame 3
            [ ("sales", SFloat [10%float; NaN; 30%float]);
              ("revenue", SFloat [NaN; 20%float; NaN]) ]))
  = ["revenue"; "revenue"] /\
  run_on normalise sales_and_revenue
  = Raise (AttributeError "'DataFrame' object has no attribute 'dtype'").
Proof. split; vm_compute; reflexivity. Qed.

(** C6, as stated, fails: with revenue present and date absent the list
    has two entries when more than half of revenue is missing. *)
Lemma two_warnings_without_date :
  has_column revenue_missing "revenue" = true /\
  has_column revenue_missing "date" = false /\
  validate 0%nat [ODataFrame revenue_missing]
  = (Ok ["Missing required column: 'date'"; "Column 'revenue' has >50% missing values"],
     [ODataFrame revenue_missing]).
Proof. by vm_compute. Qed.

(** C7, as stated, fails: the markers are compared as they are written;
    [NONE] and [Null] stay text, [" null "] becomes null once trimmed. *)
Lemma exact_markers_only :
  run_on (@coerce_types (text_free true)) region_markers
  = Ok (mkDataFrame 3 [("region", SObject [PNA; PStr "NONE"; PStr "Null"])]).
Proof. by vm_compute. Qed.

Section WithLibrary.
Context `{Library}.


(** C6, amended. On a table of distinct labels [validate] returns, and
    leaves the store as it was; its list is the warning of [date], then
    the warning of [revenue], then the warning of the date-quality check,
    each present or not. With date absent and revenue present and missing
    in at most half of the rows, the list is the one entry
    [Missing required column: 'date']. *)
Theorem validate_warnings (h : heap) (l : loc) (t : DataFrame) :
  h !! l = Some (ODataFrame t) -> NoDup (labels t) ->
  validate l h = (Ok (expected_warnings t), h) /\
  (has_column t "date" = false -> has_column t "revenue" = true ->
   mostly_missing t "revenue" = false ->
   expected_warnings t = ["Missing required column: 'date'"]).
Proof.
  intros Hl Hnd. split; [by apply validate_run|].
  intros Hd Hr Hm. unfold expected_warnings, required_warning, date_warning.
  by rewrite Hd, Hr, Hm.
Qed.

(** C7, amended. On a table of distinct labels [coerce_types] keeps the
    labels, and a text column other than date holds, row by row, the text
    without its surrounding whitespace, or null when that text is one of
    the markers as written; the text columns revenue, cost and units are
    then read as numbers. *)
Theorem text_columns_cleaned (t : DataFrame) :
  NoDup (labels t) ->
  exists t', run_on coerce_types t = Ok t' /\ labels t' = labels t /\
    forall k os, (k, SObject os) ∈ columns t -> k <> "date" ->
      select k (columns t')
      = [ if bool_decide (k ∈ ["revenue"; "cost"; "units"])
          then SFloat (map (fun o => obj_to_numeric (clean_text o)) os)
          else SObject (map clean_text os) ].
Proof.
  intros Hnd. destruct (run_on_coerce_types t Hnd) as (t' & Hrun & Hc).
  exists t'. split; [done|].
  assert (Hl : labels t' = labels t) by (unfold labels; by rewrite Hc, labels_coerced).
  split; [done|]. intros k os Hin Hk.
  apply select_member; [by rewrite Hc, labels_coerced|].
  rewrite Hc. apply list_elem_of_fmap. exists (k, SObject os). split; [|done].
  unfold coerce_column. cbn [fst snd]. rewrite (bool_decide_eq_false_2 (k = "date")) by done.
  f_equal. unfold clean_series. cbn [objects].
  destruct (bool_decide _); [|done]. cbn [to_numeric]. by rewrite map_map.
Qed.

(** C9. On a table whose labels are canonical names, the Schema
    Normalizer ([standardise_columns], then [apply_aliases] with the
    default alias table) run twice gives what it gives run once; when the
    labels are distinct, that is the table itself. *)
Theorem normaliser_idempotent (t : DataFrame) :
  Forall (fun k => k ∈ canonical_names) (labels t) ->
  run_on (fun l => l ← normalise l; normalise l) t = run_on normalise t /\
  (NoDup (labels t) -> run_on normalise t = Ok t).
Proof.
  intros Hc. unfold run_on.
  pose proof (normalise_run [ODataFrame t] 0%nat t eq_refl Hc) as H1.
  destruct (has_duplicates (labels t)) eqn:Hd.
  - destruct H1 as [o H1]. split.
    + rewrite !bind_run, H1. reflexivity.
    + intros Hnd. unfold has_duplicates in Hd.
      by rewrite bool_decide_eq_true_2 in Hd.
  - pose proof (normalise_run [ODataFrame t; ODataFrame t; ODataFrame t; ODataFrame t]
                  3%nat t eq_refl Hc) as H2.
    rewrite Hd in H2. cbn [length app] in H1, H2. split.
    + rewrite !bind_run, H1. cbv beta iota. rewrite H2. reflexivity.
    + intros _. rewrite bind_run, H1. reflexivity.
Qed.

(** C10. From any store, [standardise_columns], [apply_aliases],
    [coerce_types] and [clean] leave every object of the store as it was
    (the caller's table and the alias mapping among them) and return a
    table that is a new object; [validate] leaves the store as it was. *)
Theorem stages_keep_store (h : heap) (df_raw : loc) (aliases : option loc) :
  extends_from h (fresh h) (standardise_columns df_raw h) /\
  extends_from h (fresh h) (apply_aliases df_raw aliases h) /\
  extends_from h (fresh h) (coerce_types df_raw h) /\
  snd (validate df_raw h) = h /\
  extends_from h (fun r => fresh h (df r)) (clean df_raw aliases h).
Proof.
  split; [apply keeps_here, keeps_standardise_columns|].
  split; [apply keeps_here, keeps_apply_aliases|].
  split; [apply keeps_here, keeps_coerce_types|].
  split; [apply reads_validate|].
  apply keeps_here, keeps_clean.
Qed.

End WithLibrary.


Lemma validate_warnings_witness :
  validate 0%nat [ODataFrame revenue_only]
  = (Ok (expected_warnings revenue_only), [ODataFrame revenue_only]) /\
  (has_column revenue_only "date" = false -> has_column revenue_only "revenue" = true ->
   mostly_missing revenue_only "revenue" = false ->
   expected_warnings revenue_only = ["Missing required column: 'date'"]).
Proof.
  apply (validate_warnings [ODataFrame revenue_only] 0%nat revenue_only).
  - reflexivity.
  - apply (bool_decide_unpack _). vm_compute. exact I.
Defined.

Lemma text_columns_cleaned_witness :
  exists t', run_on (@coerce_types (text_free true)) region_markers = Ok t' /\
    labels t' = labels region_markers /\
    forall k os, (k, SObject os) ∈ columns region_markers -> k <> "date" ->
      select k (columns t')
      = [ if bool_decide (k ∈ ["revenue"; "cost"; "units"])
          then SFloat (map (fun o => @obj_to_numeric (text_free true) (@clean_text (text_free true) o)) os)
          else SObject (map (@clean_text (text_free true)) os) ].
Proof.
  apply (text_columns_cleaned (H := text_free true) region_markers).
  apply (bool_decide_unpack _). vm_compute. exact I.
Defined.

Lemma normaliser_idempotent_witness :
  run_on (fun l => l ← @normalise (text_free true) l; @normalise (text_free true) l) canonical_sample
  = run_on (@normalise (text_free true)) canonical_sample /\
  (NoDup (labels canonical_sample) ->
   run_on (@normalise (text_free true)) canonical_sample = Ok canonical_sample).
Proof.
  apply (normaliser_idempotent (H := text_free true) canonical_sample).
  repeat constructor.
Defined.

End CleanClaims.

Module SnakeFacts.
Import PyStr Clean Reading.

Ltac each_char c := destruct c as [[] [] [] [] [] [] [] []]; try reflexivity; try discriminate.

Lemma word_not_space (c : ascii) : isword c = true -> isspace c = false.
Proof. each_char c. Qed.



Lemma underscore_word (c : ascii) : is_underscore c = true -> isword c = true.
Proof. unfold is_underscore. by intros ->%bool_decide_eq_true. Qed.

Lemma snake_char_word (c : ascii) : snake_char c = true -> isword c = true.
Proof. unfold snake_char. by intros [? _]%andb_prop. Qed.

Lemma snake_char_lower (c : ascii) : snake_char c = true -> lower_char c = c.
Proof. unfold snake_char. intros [_ E]%andb_prop. by apply Ascii.eqb_eq. Qed.

(** *** Strings that the steps of [_snake] leave as they are *)

Lemma all_chars_impl (p q : ascii -> bool) (s : string) :
  (forall c, p c = true -> q c = true) -> all_chars p s = true -> all_chars q s = true.
Proof.
  intros Hpq. induction s as [|c r IH]; [done|]. cbn.
  intros [Hc Hr]%andb_prop. by rewrite (Hpq c Hc), IH.
Qed.

Lemma ends_with_cons (p : ascii -> bool) (c d : ascii) (r : string) :
  ends_with p (String c (String d r)) = ends_with p (String d r).
Proof. reflexivity. Qed.

Lemma ends_with_none (p q : ascii -> bool) (s : string) :
  (forall c, q c = true -> p c = false) -> all_chars q s = true -> ends_with p s = false.
Proof.
  intros Hqp. induction s as [|c r IH]; [done|]. cbn [all_chars].
  intros [Hc Hr]%andb_prop. destruct r as [|d r]; [cbn; auto|].
  rewrite ends_with_cons. auto.
Qed.

Lemma starts_with_none (p q : ascii -> bool) (s : string) :
  (forall c, q c = true -> p c = false) -> all_chars q s = true -> starts_with p s = false.
Proof.
  intros Hqp. destruct s as [|c r]; [done|]. cbn. intros [Hc _]%andb_prop. auto.
Qed.

Lemma lstrip_by_fixed (p : ascii -> bool) (s : string) :
  starts_with p s = false -> lstrip_by p s = s.
Proof. destruct s as [|c r]; [done|]. cbn. by intros ->. Qed.

Lemma rstrip_by_cons (p : ascii -> bool) (c : ascii) (r : string) :
  rstrip_by p (String c r)
  = match rstrip_by p r with
    | EmptyString => if p c then EmptyString else String c EmptyString
    | r' => String c r'
    end.
Proof. reflexivity. Qed.

Lemma rstrip_by_fixed (p : ascii -> bool) (s : string) :
  ends_with p s = false -> rstrip_by p s = s.
Proof.
  induction s as [|c r IH]; [done|]. destruct r as [|d r].
  - cbn. by intros ->.
  - rewrite ends_with_cons. intros E. by rewrite rstrip_by_cons, (IH E).
Qed.

Lemma strip_by_fixed (p : ascii -> bool) (s : string) :
  starts_with p s = false -> ends_with p s = false -> strip_by p s = s.
Proof.
  intros Hs He. unfold strip_by. rewrite (rstrip_by_fixed p s He). by apply lstrip_by_fixed.
Qed.

Lemma sub_runs_none (p : ascii -> bool) (b : bool) (s : string) :
  all_chars (fun c => negb (p c)) s = true -> sub_runs p b s = s.
Proof.
  revert b. induction s as [|c r IH]; intros b; [done|]. cbn.
  intros [Hc%negb_true_iff Hr]%andb_prop. by rewrite Hc, IH.
Qed.

Lemma sub_runs_after (p : ascii -> bool) (s : string) :
  starts_with p s = false -> sub_runs p true s = sub_runs p false s.
Proof. destruct s as [|c r]; [done|]. cbn. by intros ->. Qed.

Lemma sub_runs_single (s : string) :
  single_underscores s = true -> sub_runs is_underscore false s = s.
Proof.
  induction s as [|c r IH]; [done|]. cbn [single_underscores sub_runs].
  intros [Hc Hr]%andb_prop. destruct (is_underscore c) eqn:E.
  - cbn [andb] in Hc. apply negb_true_iff in Hc.
    rewrite (sub_runs_after _ _ Hc), (IH Hr).
    unfold is_underscore in E. by apply bool_decide_eq_true in E as ->.
  - by rewrite (IH Hr).
Qed.

Lemma lower_fixed (s : string) : all_chars snake_char s = true -> lower s = s.
Proof.
  induction s as [|c r IH]; [done|]. cbn.
  intros [Hc Hr]%andb_prop. by rewrite (snake_char_lower c Hc), IH.
Qed.

(** *** The shape of the result, step by step *)


















Lemma snake_fixed (s : string) : snake_case s = true -> _snake s = s.
Proof.
  unfold snake_case.
  intros [[[Ha Hb]%andb_prop Hc%negb_true_iff]%andb_prop Hd%negb_true_iff]%andb_prop.
  assert (Hw : all_chars isword s = true) by (revert Ha; apply all_chars_impl, snake_char_word).
  unfold _snake, strip, strip_char.
  rewrite (strip_by_fixed isspace s).
  - rewrite (sub_runs_none (fun c => negb (isword c))).
    + rewrite (sub_runs_single s Hb), (lower_fixed s Ha). by apply strip_by_fixed.
    + revert Hw. apply all_chars_impl. intros c ->. done.
  - revert Hw. apply starts_with_none, word_not_space.
  - revert Hw. apply ends_with_none, word_not_space.
Qed.


(** [_snake] leaves a name in snake case as it is. *)
Theorem snake_case_fixed (s : string) : snake_case s = true -> _snake s = s.
Proof. apply snake_fixed. Qed.


Lemma snake_case_fixed_witness : _snake "order_date" = "order_date".
Proof. apply (snake_case_fixed "order_date"). reflexivity. Defined.

End SnakeFacts.

Module CleanMore.
Import PyFloat PyStr Pandas Store Clean Reading FrameFacts CleanFacts.

Section WithLibrary.
Context `{Library}.

Lemma zip_map_fst (f : string -> string) (cs : list (string * Series)) :
  zip (map f (map fst cs)) (map snd cs) = map (fun c => (f (fst c), snd c)) cs.
Proof. induction cs as [|[k s] cs IH]; simpl; [done|]. by rewrite IH. Qed.

Lemma standardise_columns_snake (h : heap) (l : loc) (t : DataFrame) :
  h !! l = Some (ODataFrame t) ->
  standardise_columns l h = (Ok (length h), h ++ [ODataFrame (snake_labels t)]).
Proof.
  intros E. rewrite (standardise_columns_run h l t E). unfold labels.
  by rewrite zip_map_fst.
Qed.

(** [standardise_columns] returns for every table: the labels are put in
    snake case, and the columns, their order and the index are kept. *)
Theorem standardise_columns_relabels (t : DataFrame) :
  run_on standardise_columns t = Ok (snake_labels t) /\
  labels (snake_labels t) = map _snake (labels t) /\
  map snd (columns (snake_labels t)) = map snd (columns t).
Proof.
  split; [|split].
  - unfold run_on. rewrite bind_run, (standardise_columns_snake [ODataFrame t] 0%nat t eq_refl).
    reflexivity.
  - unfold labels, snake_labels. cbn [columns]. rewrite !map_map. by apply map_ext.
  - unfold snake_labels. cbn [columns]. rewrite map_map. by apply map_ext.
Qed.

Lemma aliases_of_dict (h : heap) (a : loc) (d : gmap string string) :
  h !! a = Some (ODict d) ->
  forall h', aliases_or_default (Some a) (h ++ h') = (Ok (aliases_in_use d), h ++ h').
Proof.
  intros E h'. unfold aliases_or_default, read_dict. rewrite bind_run.
  by rewrite (lookup_app_l_Some _ _ _ _ E).
Qed.

(** With the dict [d] of the caller, [apply_aliases] renames by [d], or by
    the default alias table when [d] is empty, and returns the renamed
    table as a new object when no label is repeated after renaming. *)
Theorem apply_aliases_renames (h : heap) (l a : loc) (t : DataFrame) (d : gmap string string) :
  h !! l = Some (ODataFrame t) -> h !! a = Some (ODict d) ->
  has_duplicates (labels (renamed (aliases_in_use d) t)) = false ->
  apply_aliases l (Some a) h
  = (Ok (S (length h)), h ++ [ODataFrame t; ODataFrame (renamed (aliases_in_use d) t)]).
Proof.
  intros El Ea Hd.
  pose proof (apply_aliases_run h l (Some a) (aliases_in_use d) t El (aliases_of_dict h a d Ea)) as R.
  by rewrite Hd in R.
Qed.


Lemma objects_length (s : Series) : length (objects s) = slen s.
Proof. destruct s; cbn; by rewrite ?length_map. Qed.

Lemma to_numeric_slen (s : Series) : length (to_numeric s) = slen s.
Proof. destruct s; cbn; by rewrite ?length_map. Qed.

Lemma coerce_column_kind (c : string * Series) :
  fst (coerce_column c) = fst c /\
  slen (snd (coerce_column c)) = slen (snd c) /\
  (fst c = "date" -> is_datetime (snd (coerce_column c)) = true) /\
  (fst c ∈ ["revenue"; "cost"; "units"] -> is_float (snd (coerce_column c)) = true) /\
  (fst c <> "date" -> fst c ∉ ["revenue"; "cost"; "units"] ->
   is_object (snd c) = false -> snd (coerce_column c) = snd c).
Proof.
  destruct c as [k s]. unfold coerce_column. cbn [fst snd].
  split; [done|]. split; [|split; [|split]].
  - destruct (bool_decide (k = "date")); destruct (bool_decide (k ∈ _)); destruct s;
      unfold clean_series; cbn [slen objects];
      rewrite ?to_numeric_slen; cbn [slen];
      by rewrite ?coerce_dates_length, ?length_map.
  - intros ->. rewrite (bool_decide_eq_true_2 ("date" = "date")) by done.
    rewrite (bool_decide_eq_false_2 ("date" ∈ ["revenue"; "cost"; "units"])); [done|].
    intros Hin. repeat (apply elem_of_cons in Hin as [Hin|Hin]; [discriminate|]).
    by apply elem_of_nil in Hin.
  - intros Hin. by rewrite (bool_decide_eq_true_2 _ Hin).
  - intros Hd Hn Ho. rewrite (bool_decide_eq_false_2 _ Hd), (bool_decide_eq_false_2 _ Hn).
    by destruct s.
Qed.

(** On a table of distinct labels [coerce_types] returns a table with the
    same labels in the same order; every column keeps its length, the
    date column holds timestamps, the columns revenue, cost and units
    hold numbers, and a column of another label that is not text is left
    as it is. *)
Theorem coerce_types_dtypes (t : DataFrame) :
  NoDup (labels t) ->
  exists t', run_on coerce_types t = Ok t' /\
    Forall2 (fun c c' =>
               fst c' = fst c /\
               slen (snd c') = slen (snd c) /\
               (fst c = "date" -> is_datetime (snd c') = true) /\
               (fst c ∈ ["revenue"; "cost"; "units"] -> is_float (snd c') = true) /\
               (fst c <> "date" -> fst c ∉ ["revenue"; "cost"; "units"] ->
                is_object (snd c) = false -> snd c' = snd c))
            (columns t) (columns t').
Proof.
  intros Hnd. destruct (run_on_coerce_types t Hnd) as (t' & Hrun & Hc).
  exists t'. split; [done|]. rewrite Hc.
  apply Forall2_fmap_r, Forall_Forall2_diag, Forall_forall.
  intros c _. apply coerce_column_kind.
Qed.

Lemma lookup_second (h : heap) (a b : object) :
  (h ++ [a; b]) !! S (length h) = Some b.
Proof.
  change [a; b] with ([a] ++ [b]). rewrite app_assoc.
  replace (S (length h)) with (length (h ++ [a])) by (rewrite length_app; simpl; lia).
  apply lookup_snoc.
Qed.

Lemma clean_run (h : heap) (l : loc) (t : DataFrame) :
  h !! l = Some (ODataFrame t) ->
  has_duplicates (labels (renamed DEFAULT_ALIASES (snake_labels t))) = false ->
  exists l' t' h',
    clean l None h = (Ok (mkCleanResult l' (expected_warnings t')), h') /\
    h' !! l' = Some (ODataFrame t') /\ fresh h l' /\
    columns t' = map coerce_column (columns (renamed DEFAULT_ALIASES (snake_labels t))).
Proof.
  intros El Hd. unfold clean.
  rewrite (bind_run_Ok _ _ _ _ _ (standardise_columns_snake h l t El)).
  set (T1 := snake_labels t) in *. set (R := renamed DEFAULT_ALIASES T1) in *.
  pose proof (apply_aliases_run (h ++ [ODataFrame T1]) (length h) None DEFAULT_ALIASES T1
                (lookup_snoc _ _) (fun h' => eq_refl)) as HA.
  fold R in HA. rewrite Hd in HA. rewrite (bind_run_Ok _ _ _ _ _ HA).
  set (h2 := (h ++ [ODataFrame T1]) ++ [ODataFrame T1; ODataFrame R]).
  assert (Hnd : NoDup (labels R)).
  { unfold has_duplicates in Hd. apply negb_false_iff in Hd. by apply bool_decide_eq_true in Hd. }
  destruct (coerce_types_run h2 (S (length (h ++ [ODataFrame T1]))) R (lookup_second _ _ _) Hnd)
    as (t' & Hct & Hcols).
  rewrite (bind_run_Ok _ _ _ _ _ Hct).
  assert (Hnd' : NoDup (labels t')) by (unfold labels; by rewrite Hcols, labels_coerced).
  rewrite (bind_run_Ok _ _ _ _ _ (validate_run _ _ t' (lookup_snoc _ _) Hnd')).
  exists (length h2), t', (h2 ++ [ODataFrame t']).
  split; [reflexivity|]. split; [apply lookup_snoc|]. split; [|done].
  unfold fresh, h2. rewrite !length_app. lia.
Qed.

(** [clean] with the default alias table returns whenever no label is
    repeated once the labels are in snake case and renamed: the table of
    the result is a new object, the renamed table coerced column by
    column, and the warnings are those of that table. [validate] does not
    raise there. *)
Theorem clean_returns (h : heap) (l : loc) (t : DataFrame) :
  h !! l = Some (ODataFrame t) ->
  has_duplicates (labels (renamed DEFAULT_ALIASES (snake_labels t))) = false ->
  exists l' t' h',
    clean l None h = (Ok (mkCleanResult l' (expected_warnings t')), h') /\
    h' !! l' = Some (ODataFrame t') /\ fresh h l' /\
    columns t' = map coerce_column (columns (renamed DEFAULT_ALIASES (snake_labels t))).
Proof. apply clean_run. Qed.


End WithLibrary.

Lemma apply_aliases_renames_witness :
  apply_aliases 0%nat (Some 1%nat) [ODataFrame turnover_sales; ODict turnover_alias]
  = (Ok 3%nat,
     [ODataFrame turnover_sales; ODict turnover_alias] ++
     [ODataFrame turnover_sales;
      ODataFrame (renamed (aliases_in_use turnover_alias) turnover_sales)]).
Proof.
  apply (apply_aliases_renames
           [ODataFrame turnover_sales; ODict turnover_alias] 0%nat 1%nat
           turnover_sales turnover_alias); by vm_compute.
Defined.


Lemma coerce_types_dtypes_witness :
  exists t', run_on (@coerce_types (text_free true)) serial_and_small = Ok t' /\
    Forall2 (fun c c' =>
               fst c' = fst c /\
               slen (snd c') = slen (snd c) /\
               (fst c = "date" -> is_datetime (snd c') = true) /\
               (fst c ∈ ["revenue"; "cost"; "units"] -> is_float (snd c') = true) /\
               (fst c <> "date" -> fst c ∉ ["revenue"; "cost"; "units"] ->
                is_object (snd c) = false -> snd c' = snd c))
            (columns serial_and_small) (columns t').
Proof.
  apply (coerce_types_dtypes (H := text_free true) serial_and_small).
  apply (bool_decide_unpack _). vm_compute. exact I.
Defined.

Lemma clean_returns_witness :
  exists l' t' h',
    @clean (text_free true) 0%nat None [ODataFrame raw_sample]
    = (Ok (mkCleanResult l' (expected_warnings t')), h') /\
    h' !! l' = Some (ODataFrame t') /\ fresh [ODataFrame raw_sample] l' /\
    columns t' = map (@coerce_column (text_free true))
                   (columns (renamed DEFAULT_ALIASES (snake_labels raw_sample))).
Proof.
  apply (clean_returns (H := text_free true) [ODataFrame raw_sample] 0%nat raw_sample);
    by vm_compute.
Defined.


(** An empty dict of aliases counts as no dict: [apply_aliases] does with
    it what it does with [None], from any store. *)
Theorem empty_aliases_are_default (h : heap) (l a : loc) :
  h !! a = Some (ODict ∅) -> apply_aliases l (Some a) h = apply_aliases l None h.
Proof.
  intros Ea. unfold apply_aliases. rewrite !(bind_run (copy l)).
  destruct (copy l h) as [[l1|e] h1] eqn:Ec; [|done].
  assert (Eh : h1 !! a = Some (ODict ∅)).
  { unfold copy in Ec. rewrite bind_run in Ec. unfold read_frame, alloc in Ec.
    repeat case_match; simplify_eq. by apply lookup_app_l_Some. }
  rewrite !(bind_run (aliases_or_default _)).
  unfold aliases_or_default, read_dict. rewrite bind_run, Eh. reflexivity.
Qed.

Lemma empty_aliases_are_default_witness :
  apply_aliases 0%nat (Some 1%nat) [ODataFrame sales_revenue; ODict ∅]
  = apply_aliases 0%nat None [ODataFrame sales_revenue; ODict ∅].
Proof.
  apply (empty_aliases_are_default [ODataFrame sales_revenue; ODict ∅] 0%nat 1%nat).
  reflexivity.
Defined.

End CleanMore.

Module KpisMore.
Import PyFloat Pandas Kpis Reading FrameFacts FloatFacts KpisFacts.

Ltac label_tests :=
  repeat match goal with
    | |- context [bool_decide (?a = ?b)] =>
        let v := eval vm_compute in (bool_decide (a = b)) in
        change (bool_decide (a = b)) with v
    end.

Section WithLibrary.
Context `{Library}.

Lemma index_len_ensure (d : DataFrame) (c : string) :
  index_len (ensure_column d c) = index_len d.
Proof.
  unfold ensure_column, setitem_NA. destruct (has_column d c); [done|].
  rewrite index_len_setitem. destruct (Nat.eqb_spec (index_len d) 0) as [E|E]; [|done].
  cbn [slen]. by rewrite length_replicate.
Qed.

Lemma ensure_column_own (d : DataFrame) (c : string) :
  NoDup (labels d) ->
  select c (columns (ensure_column d c))
  = if has_column d c then select c (columns d)
    else [SObject (replicate (index_len d) PNA)].
Proof.
  intros Hnd. unfold ensure_column, setitem_NA. destruct (has_column d c); [done|].
  by apply select_setitem_eq.
Qed.

Lemma select_or_NA (df : DataFrame) (k : string) :
  NoDup (labels df) ->
  (if has_column df k then select k (columns df)
   else [SObject (replicate (index_len df) PNA)]) = [column_or_NA df k].
Proof.
  intros Hnd. unfold column_or_NA. destruct (has_column df k) eqn:E.
  - destruct (getitem_present _ _ Hnd E) as (s & -> & _). done.
  - apply has_column_false in E. by rewrite select_absent.
Qed.

Lemma add_month_value (df : DataFrame) :
  NoDup (labels df) -> date_is_datetime df = true ->
  _add_month df = Ok (setitem df "month" (SDatetime (month_of_dates df))).
Proof.
  intros Hnd Hdate. unfold _add_month, month_of_dates.
  destruct (has_column df "date") eqn:E.
  - destruct (getitem_present _ _ Hnd E) as (s & Hs & Hin).
    rewrite (get_series_select _ _ _ _ Hs), Hs. cbn.
    unfold date_is_datetime in Hdate. rewrite forallb_forall in Hdate.
    apply list_elem_of_In in Hin. pose proof (Hdate _ Hin) as Hd. cbn in Hd.
    by destruct s as [xs|ts|os]; try discriminate Hd.
  - apply has_column_false in E. by rewrite select_absent.
Qed.

Lemma month_of_dates_length (df : DataFrame) :
  aligned df = true -> length (month_of_dates df) = index_len df.
Proof.
  intros Hal. unfold month_of_dates.
  destruct (select "date" (columns df)) as [|s [|s' r]] eqn:E;
    [apply length_replicate| |destruct s; apply length_replicate].
  destruct s as [xs|ts|os]; [apply length_replicate| |apply length_replicate].
  rewrite length_map. apply (aligned_select df "date" _ Hal E).
Qed.

Lemma with_columns_facts (df : DataFrame) :
  NoDup (labels df) -> aligned df = true ->
  NoDup (labels (with_columns df)) /\
  index_len (with_columns df) = index_len df /\
  select "month" (columns (with_columns df)) = [SDatetime (month_of_dates df)] /\
  select "revenue" (columns (with_columns df)) = select "revenue" (columns df) /\
  (forall k, k ∈ ["cost"; "units"; "region"; "product"] ->
     select k (columns (with_columns df)) = [column_or_NA df k]).
Proof.
  intros Hnd Hal. unfold with_columns. cbn [foldl].
  set (d1 := setitem df "month" (SDatetime (month_of_dates df))).
  assert (Hnd1 : NoDup (labels d1)) by by apply NoDup_setitem.
  assert (Hi1 : index_len d1 = index_len df).
  { apply aligned_setitem; [done|]. by apply month_of_dates_length. }
  assert (Hs1 : forall k, k <> "month" -> select k (columns d1) = select k (columns df)).
  { intros k Hk. unfold d1. apply select_setitem_ne. congruence. }
  assert (Hh1 : forall k, k <> "month" -> has_column d1 k = has_column df k).
  { intros k Hk. unfold d1. rewrite has_column_setitem. by rewrite bool_decide_eq_false_2. }
  split; [by repeat apply ensure_column_NoDup|].
  split; [by rewrite !index_len_ensure|].
  split; [rewrite !ensure_column_select by discriminate; by apply select_setitem_eq|].
  split; [rewrite !ensure_column_select by discriminate; by apply Hs1|].
  intros k Hk. rewrite <- (select_or_NA df k Hnd), <- Hi1.
  repeat (apply elem_of_cons in Hk as [->|Hk];
    [rewrite ?ensure_column_select by discriminate;
     rewrite ensure_column_own by (by repeat apply ensure_column_NoDup);
     rewrite ?ensure_column_has, ?index_len_ensure, ?ensure_column_select by discriminate;
     label_tests; cbn [orb]; rewrite Hh1, Hs1 by discriminate; reflexivity|]).
  by apply elem_of_nil in Hk.
Qed.

Lemma coerce_numeric_select (d : DataFrame) (c : string) (s : Series) :
  select c (columns d) = [s] -> coerce_numeric d c = Ok (setitem d c (SFloat (to_numeric s))).
Proof. intros E. unfold coerce_numeric. by rewrite (get_series_select _ _ _ _ E). Qed.

(** The prepared table of a well-formed fact table, column by column. *)
Lemma prepare_values (df : DataFrame) :
  well_formed df = true ->
  exists d, prepare df = Ok d /\
    index_len d = index_len df /\
    select "month" (columns d) = [SDatetime (month_of_dates df)] /\
    select "region" (columns d) = [column_or_NA df "region"] /\
    select "product" (columns d) = [column_or_NA df "product"] /\
    select "revenue" (columns d) = [SFloat (numbers_of df "revenue")] /\
    select "cost" (columns d) = [SFloat (numbers_of df "cost")] /\
    select "units" (columns d) = [SFloat (numbers_of df "units")] /\
    select "gross_profit" (columns d)
    = [SFloat (zip_with PrimFloat.sub (numbers_of df "revenue") (numbers_of df "cost"))].
Proof.
  intros [Hf Hal]%andb_prop.
  destruct (prepare_fact df Hf) as (d & Hp & _ & [_ Hsame]).
  destruct (Hsame Hal) as [Hidx _]. exists d. split; [done|]. split; [done|].
  unfold fact_table in Hf.
  apply andb_prop in Hf as [[Hnd%bool_decide_eq_true Hrev]%andb_prop Hdate].
  destruct (with_columns_facts df Hnd Hal) as (Hnd2 & Hi2 & Hm2 & Hr2 & Hk2).
  destruct (getitem_present df "revenue" Hnd Hrev) as (sr & Hsr & _).
  assert (Hrn : numbers_of df "revenue" = to_numeric sr).
  { unfold numbers_of, column_or_NA. by rewrite Hsr. }
  rewrite Hsr in Hr2.
  revert Hp. unfold prepare. rewrite (add_month_value df Hnd Hdate), bind_Ok.
  cbv zeta. fold (with_columns df). set (d2 := with_columns df) in *.
  assert (Hc2 := Hk2 "cost" ltac:(repeat constructor)).
  assert (Hu2 := Hk2 "units" ltac:(repeat constructor)).
  assert (Hg2 := Hk2 "region" ltac:(repeat constructor)).
  assert (Hp2 := Hk2 "product" ltac:(repeat constructor)).
  rewrite (coerce_numeric_select _ _ _ Hc2), bind_Ok.
  set (d3 := setitem d2 "cost" _).
  assert (Hnd3 : NoDup (labels d3)) by by apply NoDup_setitem.
  assert (Hu3 : select "units" (columns d3) = [column_or_NA df "units"]).
  { unfold d3. by rewrite select_setitem_ne by discriminate. }
  rewrite (coerce_numeric_select _ _ _ Hu3), bind_Ok.
  set (d4 := setitem d3 "units" _).
  assert (Hnd4 : NoDup (labels d4)) by by apply NoDup_setitem.
  assert (Hr4 : select "revenue" (columns d4) = [sr]).
  { unfold d4, d3. by rewrite !select_setitem_ne by discriminate. }
  rewrite (coerce_numeric_select _ _ _ Hr4), bind_Ok.
  set (d5 := setitem d4 "revenue" _).
  assert (Hnd5 : NoDup (labels d5)) by by apply NoDup_setitem.
  assert (Hrev5 : select "revenue" (columns d5) = [SFloat (to_numeric sr)])
    by by apply select_setitem_eq.
  assert (Hunits5 : select "units" (columns d5) = [SFloat (numbers_of df "units")]).
  { unfold d5. rewrite select_setitem_ne by discriminate. by apply select_setitem_eq. }
  assert (Hcost5 : select "cost" (columns d5) = [SFloat (numbers_of df "cost")]).
  { unfold d5, d4. rewrite !select_setitem_ne by discriminate. by apply select_setitem_eq. }
  rewrite (get_floats_select _ _ _ Hrev5), bind_Ok.
  rewrite (get_floats_select _ _ _ Hcost5), bind_Ok.
  cbn [to_numeric].
  set (d6 := setitem d5 "gross_profit" _).
  assert (Hnd6 : NoDup (labels d6)) by by apply NoDup_setitem.
  rewrite (get_floats_select d6 "gross_profit" _ (select_setitem_eq _ _ _ Hnd5)), bind_Ok.
  assert (Hrev6 : select "revenue" (columns d6) = [SFloat (to_numeric sr)]).
  { unfold d6. by rewrite select_setitem_ne by discriminate. }
  rewrite (get_floats_select _ _ _ Hrev6), bind_Ok.
  intros [= <-]. rewrite Hrn.
  repeat split;
    rewrite ?select_setitem_ne by discriminate; unfold d6;
    rewrite ?select_setitem_ne by discriminate;
    try (by apply select_setitem_eq); try done;
    unfold d5, d4, d3; by rewrite !select_setitem_ne by discriminate.
Qed.

Lemma frame_eq (a : DataFrame) (n : nat) (cs : list (string * Series)) :
  index_len a = n -> columns a = cs -> a = mkDataFrame n cs.
Proof. destruct a. cbn. by intros -> ->. Qed.

(** On a well-formed fact table [build_tables] returns the five tables
    computed from the columns of the source. *)
Lemma build_tables_expected (df : DataFrame) :
  well_formed df = true -> build_tables df = Ok (expected_tables df).
Proof.
  intros Hw. destruct (prepare_values df Hw)
    as (d & Hp & Hi & Hm & Hreg & Hprod & Hr & Hc & Hu & Hg).
  unfold build_tables. rewrite Hp, bind_Ok.
  destruct (tables_core d _ _ _ _ _ _ _ Hm Hreg Hprod Hr Hc Hu Hg) as (-> & -> & -> & ->).
  rewrite Hi.
  destruct (trends_core (index_len df) (month_of_dates df) (column_or_NA df "region")
              (column_or_NA df "product") (numbers_of df "revenue") (numbers_of df "cost")
              (numbers_of df "units")
              (zip_with PrimFloat.sub (numbers_of df "revenue") (numbers_of df "cost")))
    as (t & Ht & Htc).
  destruct (variance_of_trends t _ _ _ _ _ _ Htc) as (v & Hv & Hvc).
  rewrite summary_core, bind_Ok, Ht, bind_Ok, Hv, bind_Ok.
  rewrite (drilldown_core _ _ _ _ _ _ _ _ "region" _ eq_refl), bind_Ok.
  rewrite (drilldown_core _ _ _ _ _ _ _ _ "product" _ eq_refl), bind_Ok.
  pose proof (trends_index _ _ _ _ _ _ _ _ _ Ht) as Hti.
  assert (Hvi : index_len v = index_len t).
  { apply (variance_index t _ _ _ _ _ _ Htc); [..|exact Hv];
      rewrite Hti, ?length_zip_with; unfold group_sum; rewrite !length_map; lia. }
  rewrite Hti in Hvi.
  rewrite (frame_eq t _ _ Hti Htc), (frame_eq v _ _ Hvi Hvc).
  reflexivity.
Qed.

Lemma sub_NaN_r (x : float) : PrimFloat.sub x NaN = NaN.
Proof.
  apply Prim2SF_inj. rewrite sub_spec, Prim2SF_NaN.
  unfold SF64sub, SFsub. now destruct (Prim2SF x) as [[]|[]| |[]].
Qed.

Lemma nansum_from_missing (xs : list float) (acc : float) :
  Forall (fun x => isna x = true) xs ->
  fold_left (fun acc x => if isna x then acc else PrimFloat.add acc x) xs acc = acc.
Proof.
  intros Hx. revert acc. induction Hx as [|x xs Hx _ IH]; intros acc; [done|].
  cbn [fold_left]. by rewrite Hx, IH.
Qed.

Lemma nansum_missing (xs : list float) :
  Forall (fun x => isna x = true) xs -> nansum xs = 0%float.
Proof. apply nansum_from_missing. Qed.

Lemma boolean_mask_Forall {A} (P : A -> Prop) (mask : list bool) (xs : list A) :
  Forall P xs -> Forall P (boolean_mask mask xs).
Proof.
  intros Hx. revert mask. induction Hx as [|x xs Hx _ IH]; intros [|b mask]; cbn; try done.
  destruct b; [constructor|]; auto.
Qed.


Lemma group_sum_missing (n : nat) (cols groups : list (list pyobj)) (xs : list float) :
  Forall (fun x => isna x = true) xs ->
  Forall (fun x => x = 0%float) (group_sum n cols groups xs).
Proof.
  intros Hx. unfold group_sum. apply Forall_fmap, Forall_forall. intros g _.
  cbn. by apply nansum_missing, boolean_mask_Forall.
Qed.

Lemma numbers_of_absent (df : DataFrame) (k : string) :
  has_column df k = false -> numbers_of df k = replicate (index_len df) NaN.
Proof.
  intros E%has_column_false. unfold numbers_of, column_or_NA.
  rewrite select_absent by done. cbn [to_numeric]. by rewrite fmap_replicate.
Qed.


Lemma key_column_length (like : Series) (i : nat) (groups : list (list pyobj)) :
  slen (key_column like i groups) = length groups.
Proof. destruct like; cbn; by rewrite !length_map. Qed.

Lemma group_sum_length (n : nat) (cols groups : list (list pyobj)) (xs : list float) :
  length (group_sum n cols groups xs) = length groups.
Proof. unfold group_sum. by rewrite length_map. Qed.

Lemma diff_next (xs : list float) (i : nat) (p c : float) :
  xs !! i = Some p -> xs !! S i = Some c -> diff xs !! S i = Some (PrimFloat.sub c p).
Proof.
  intros Hp Hc. destruct xs as [|x0 r]; [done|]. cbn [diff].
  change (r !! i = Some c) in Hc.
  change (zip_with PrimFloat.sub r (x0 :: r) !! i = Some (PrimFloat.sub c p)).
  rewrite lookup_zip_with, Hc. cbn [mbind option_bind]. by rewrite Hp.
Qed.

Lemma pct_change_next (xs : list float) (i : nat) (p c : float) :
  xs !! i = Some p -> xs !! S i = Some c -> isna p = false -> isna c = false ->
  pct_change xs !! S i = Some (PrimFloat.sub (PrimFloat.div c p) 1%float).
Proof.
  intros Hp Hc Np Nc. unfold pct_change. destruct pct_fill_pad.
  - apply (shifted_lookup (fun c p => PrimFloat.sub (PrimFloat.div c p) 1%float));
      unfold ffill; by apply ffill_from_keep.
  - by apply (shifted_lookup (fun c p => PrimFloat.sub (PrimFloat.div c p) 1%float)).
Qed.

Lemma with_columns_present (df : DataFrame) :
  NoDup (labels df) ->
  NoDup (labels (with_columns df)) /\
  select "revenue" (columns (with_columns df)) = select "revenue" (columns df) /\
  (forall k, k ∈ ["cost"; "units"] -> exists s, select k (columns (with_columns df)) = [s]).
Proof.
  intros Hnd. unfold with_columns. cbn [foldl].
  set (d1 := setitem df "month" (SDatetime (month_of_dates df))).
  assert (Hnd1 : NoDup (labels d1)) by by apply NoDup_setitem.
  assert (Hnd2 : NoDup (labels (ensure_column (ensure_column (ensure_column
                   (ensure_column d1 "cost") "units") "region") "product")))
    by by repeat apply ensure_column_NoDup.
  split; [done|]. split.
  - rewrite !ensure_column_select by discriminate. unfold d1.
    by rewrite select_setitem_ne by discriminate.
  - intros k Hk.
    assert (Hh : has_column (ensure_column (ensure_column (ensure_column
                   (ensure_column d1 "cost") "units") "region") "product") k = true).
    { repeat (apply elem_of_cons in Hk as [->|Hk];
              [rewrite !ensure_column_has; label_tests; by rewrite ?orb_true_r|]).
      by apply elem_of_nil in Hk. }
    destruct (getitem_present _ k Hnd2 Hh) as (s & Hs & _). by exists s.
Qed.

Lemma build_tables_no_revenue (df : DataFrame) :
  NoDup (labels df) -> date_is_datetime df = true -> has_column df "revenue" = false ->
  build_tables df = Raise (KeyError "revenue").
Proof.
  intros Hnd Hdate Hrev.
  destruct (with_columns_present df Hnd) as (Hnd2 & Hr2 & Hk2).
  unfold build_tables, prepare. rewrite (add_month_value df Hnd Hdate), bind_Ok.
  cbv zeta. fold (with_columns df). set (d2 := with_columns df) in *.
  destruct (Hk2 "cost" ltac:(repeat constructor)) as [sc Hsc].
  destruct (Hk2 "units" ltac:(repeat constructor)) as [su Hsu].
  rewrite (coerce_numeric_select _ _ _ Hsc), bind_Ok.
  set (d3 := setitem d2 "cost" _).
  assert (Hu3 : select "units" (columns d3) = [su]).
  { unfold d3. by rewrite select_setitem_ne by discriminate. }
  rewrite (coerce_numeric_select _ _ _ Hu3), bind_Ok.
  set (d4 := setitem d3 "units" _).
  assert (Hr4 : select "revenue" (columns d4) = []).
  { unfold d4, d3. rewrite !select_setitem_ne by discriminate. rewrite Hr2.
    apply select_absent. by apply has_column_false. }
  unfold coerce_numeric at 1, get_series, getitem. rewrite Hr4. reflexivity.
Qed.

(** Without a revenue column [build_tables] raises [KeyError: 'revenue']:
    the month is added, the columns that may be missing are made, cost and
    units are read as numbers, and the revenue column is looked up. *)
Theorem missing_revenue_raises (df : DataFrame) :
  NoDup (labels df) -> date_is_datetime df = true -> has_column df "revenue" = false ->
  build_tables df = Raise (KeyError "revenue").
Proof. apply build_tables_no_revenue. Qed.

(** With a date column that does not hold timestamps [build_tables]
    raises [AttributeError] at the [.dt] accessor of [_add_month]. *)
Theorem undated_column_raises (df : DataFrame) (s : Series) :
  NoDup (labels df) -> ("date", s) ∈ columns df -> is_datetime s = false ->
  build_tables df
  = Raise (AttributeError "Can only use .dt accessor with datetimelike values").
Proof.
  intros Hnd Hin Hs. unfold build_tables, prepare, _add_month.
  assert (Hh : has_column df "date" = true).
  { apply has_column_true. unfold labels. apply list_elem_of_fmap. by exists ("date", s). }
  rewrite Hh.
  rewrite (get_series_select _ _ _ _ (select_member _ _ _ Hnd Hin)), bind_Ok.
  by destruct s.
Qed.


(** Variance of a well-formed fact table is Trends, column for column and
    row for row, followed by the ten month-on-month columns. *)
Theorem variance_extends_trends (df : DataFrame) :
  well_formed df = true ->
  exists t extra, build_tables df = Ok t /\
    labels (Trends t) = ["month"; "revenue"; "cost"; "gross_profit"; "units"; "margin"] /\
    columns (Variance t) = columns (Trends t) ++ extra /\
    map fst extra =
      ["revenue_mom_abs"; "revenue_mom_pct"; "cost_mom_abs"; "cost_mom_pct";
       "gross_profit_mom_abs"; "gross_profit_mom_pct"; "units_mom_abs"; "units_mom_pct";
       "margin_mom_abs"; "margin_mom_pct"] /\
    index_len (Variance t) = index_len (Trends t).
Proof.
  intros Hw. eexists (expected_tables df), _. split; [by apply build_tables_expected|].
  unfold expected_tables. cbn [Trends Variance columns index_len labels].
  split; [reflexivity|]. split; [reflexivity|]. split; reflexivity.
Qed.

(** The five tables of a well-formed fact table are rectangular: every
    column is as long as the index of its table. *)
Theorem tables_aligned (df : DataFrame) :
  well_formed df = true ->
  exists t, build_tables df = Ok t /\
    aligned (Summary t) = true /\ aligned (Trends t) = true /\
    aligned (Variance t) = true /\ aligned (Drilldown_Region t) = true /\
    aligned (Drilldown_Product t) = true.
Proof.
  intros Hw. exists (expected_tables df). split; [by apply build_tables_expected|].
  unfold expected_tables, aligned.
  cbn [Summary Trends Variance Drilldown_Region Drilldown_Product columns index_len
       forallb app snd slen].
  rewrite ?key_column_length, ?diff_length, ?pct_change_length, ?length_zip_with,
    ?group_sum_length, ?Nat.min_id, ?Nat.eqb_refl.
  repeat split; reflexivity.
Qed.

Lemma mom_columns_of (df : DataFrame) (col : string) :
  col ∈ mom_columns ->
  exists xs,
    floats_of (Trends (expected_tables df)) col = Some xs /\
    floats_of (Variance (expected_tables df)) (col +:+ "_mom_abs") = Some (diff xs) /\
    floats_of (Variance (expected_tables df)) (col +:+ "_mom_pct") = Some (pct_change xs).
Proof.
  intros Hcol. unfold floats_of, expected_tables. cbn [Trends Variance columns].
  epose proof (mom_lookup _ _ _ _ _ _ _ _ _ _ _ _ _ _ _ _ col Hcol) as Hl.
  cbv zeta in Hl. destruct Hl as (T & A & P & Hin & HT & HA & HP).
  rewrite HT, HA, HP. clear HT HA HP.
  repeat (apply elem_of_cons in Hin as [[= -> -> -> ->]|Hin]; [by eexists|]).
  by apply elem_of_nil in Hin.
Qed.

(** For each differenced column and each row of Variance after the
    first, the absolute change is the value of the row less the value of
    the row before. *)
Theorem mom_abs_is_difference (df : DataFrame) :
  well_formed df = true ->
  exists t, build_tables df = Ok t /\
    forall col i p c, col ∈ mom_columns ->
      float_at (Trends t) col i = Some p ->
      float_at (Trends t) col (S i) = Some c ->
      float_at (Variance t) (col +:+ "_mom_abs") (S i) = Some (PrimFloat.sub c p).
Proof.
  intros Hw. exists (expected_tables df). split; [by apply build_tables_expected|].
  intros col i p c Hcol. unfold float_at.
  destruct (mom_columns_of df col Hcol) as (xs & -> & -> & _). cbn [mbind option_bind].
  apply diff_next.
Qed.

(** For each differenced column and each row of Variance after the
    first, when neither the value of the row nor the value of the row
    before is missing, the percentage change is the quotient of the two
    less one, whether or not the library pads missing values. *)
Theorem mom_pct_is_quotient (df : DataFrame) :
  well_formed df = true ->
  exists t, build_tables df = Ok t /\
    forall col i p c, col ∈ mom_columns ->
      float_at (Trends t) col i = Some p ->
      float_at (Trends t) col (S i) = Some c ->
      isna p = false -> isna c = false ->
      float_at (Variance t) (col +:+ "_mom_pct") (S i)
      = Some (PrimFloat.sub (PrimFloat.div c p) 1%float).
Proof.
  intros Hw. exists (expected_tables df). split; [by apply build_tables_expected|].
  intros col i p c Hcol. unfold float_at.
  destruct (mom_columns_of df col Hcol) as (xs & -> & _ & ->). cbn [mbind option_bind].
  apply pct_change_next.
Qed.

Lemma zip_sub_missing (r : list float) (n : nat) :
  Forall (fun x => isna x = true) (zip_with PrimFloat.sub r (replicate n NaN)).
Proof.
  revert n. induction r as [|x r IH]; intros [|n]; cbn; try constructor.
  - by rewrite sub_NaN_r.
  - apply IH.
Qed.

(** Without a cost column the cost of every row is missing, and so is
    its gross profit: Summary gives cost 0 and gross profit 0, and every
    row of Trends has cost 0 and gross profit 0. *)
Theorem missing_cost_zero_profit (df : DataFrame) :
  well_formed df = true -> has_column df "cost" = false ->
  exists t, build_tables df = Ok t /\
    summary_value (Summary t) "cost" = Some (PFloat 0) /\
    summary_value (Summary t) "gross_profit" = Some (PFloat 0) /\
    forall col i x, col ∈ ["cost"; "gross_profit"] ->
      float_at (Trends t) col i = Some x -> x = 0%float.
Proof.
  intros Hw Hc. exists (expected_tables df). split; [by apply build_tables_expected|].
  pose proof (numbers_of_absent df "cost" Hc) as Ec.
  assert (Hcm : Forall (fun x => isna x = true) (numbers_of df "cost")).
  { rewrite Ec. by apply Forall_replicate. }
  assert (Hgm : Forall (fun x => isna x = true)
                  (zip_with PrimFloat.sub (numbers_of df "revenue") (numbers_of df "cost"))).
  { rewrite Ec. apply zip_sub_missing. }
  unfold expected_tables. cbn [Summary Trends]. unfold summary_value, float_at, floats_of.
  cbn [columns select fst snd]. label_tests. cbn [map value_of]. label_tests.
  rewrite (nansum_missing _ Hcm), (nansum_missing _ Hgm).
  split; [done|]. split; [done|].
  intros col i x Hcol.
  repeat (apply elem_of_cons in Hcol as [->|Hcol];
    [label_tests; cbn [select fst snd app mbind option_bind]; intros Hx;
     apply list_elem_of_lookup_2 in Hx; revert x Hx; apply Forall_forall;
     by apply group_sum_missing|]).
  by apply elem_of_nil in Hcol.
Qed.


















(** The two drilldowns of a well-formed fact table have their four
    headers whether or not the source has a region or a product column,
    and hold the sums as numbers. *)
Theorem drilldown_headers (df : DataFrame) :
  well_formed df = true ->
  exists t, build_tables df = Ok t /\
    labels (Drilldown_Region t) = ["month"; "region"; "revenue"; "gross_profit"] /\
    labels (Drilldown_Product t) = ["month"; "product"; "revenue"; "gross_profit"] /\
    (forall col, col ∈ ["revenue"; "gross_profit"] ->
       (exists xs, floats_of (Drilldown_Region t) col = Some xs /\
                   length xs = index_len (Drilldown_Region t)) /\
       (exists xs, floats_of (Drilldown_Product t) col = Some xs /\
                   length xs = index_len (Drilldown_Product t))).
Proof.
  intros Hw. exists (expected_tables df). split; [by apply build_tables_expected|].
  unfold expected_tables. cbn [Drilldown_Region Drilldown_Product]. unfold floats_of.
  cbn [labels columns map fst index_len]. split; [done|]. split; [done|].
  intros col Hcol.
  repeat (apply elem_of_cons in Hcol as [->|Hcol];
    [cbn [select fst snd]; label_tests; cbn [app];
     split; eexists; (split; [reflexivity|apply group_sum_length])|]).
  by apply elem_of_nil in Hcol.
Qed.

End WithLibrary.

Lemma missing_revenue_raises_witness :
  build_tables (H := text_free true) dates_only = Raise (KeyError "revenue").
Proof.
  apply (missing_revenue_raises (H := text_free true) dates_only); try reflexivity.
  apply (bool_decide_unpack _). vm_compute. exact I.
Defined.

Lemma undated_column_raises_witness :
  build_tables (H := text_free true) text_dates
  = Raise (AttributeError "Can only use .dt accessor with datetimelike values").
Proof.
  apply (undated_column_raises (H := text_free true) text_dates (SObject [PStr "2023-01-15"])).
  - apply (bool_decide_unpack _). vm_compute. exact I.
  - apply list_elem_of_here.
  - reflexivity.
Defined.


Lemma variance_extends_trends_witness :
  exists t extra, build_tables (H := text_free true) two_months = Ok t /\
    labels (Trends t) = ["month"; "revenue"; "cost"; "gross_profit"; "units"; "margin"] /\
    columns (Variance t) = columns (Trends t) ++ extra /\
    map fst extra =
      ["revenue_mom_abs"; "revenue_mom_pct"; "cost_mom_abs"; "cost_mom_pct";
       "gross_profit_mom_abs"; "gross_profit_mom_pct"; "units_mom_abs"; "units_mom_pct";
       "margin_mom_abs"; "margin_mom_pct"] /\
    index_len (Variance t) = index_len (Trends t).
Proof. apply (variance_extends_trends (H := text_free true) two_months). reflexivity. Defined.

Lemma tables_aligned_witness :
  exists t, build_tables (H := text_free true) two_months = Ok t /\
    aligned (Summary t) = true /\ aligned (Trends t) = true /\
    aligned (Variance t) = true /\ aligned (Drilldown_Region t) = true /\
    aligned (Drilldown_Product t) = true.
Proof. apply (tables_aligned (H := text_free true) two_months). reflexivity. Defined.

Lemma mom_abs_is_difference_witness :
  exists t, build_tables (H := text_free true) revenue_without_cost = Ok t /\
    forall col i p c, col ∈ mom_columns ->
      float_at (Trends t) col i = Some p ->
      float_at (Trends t) col (S i) = Some c ->
      float_at (Variance t) (col +:+ "_mom_abs") (S i) = Some (PrimFloat.sub c p).
Proof.
  apply (mom_abs_is_difference (H := text_free true) revenue_without_cost). reflexivity.
Defined.

Lemma mom_pct_is_quotient_witness :
  exists t, build_tables (H := text_free true) revenue_without_cost = Ok t /\
    forall col i p c, col ∈ mom_columns ->
      float_at (Trends t) col i = Some p ->
      float_at (Trends t) col (S i) = Some c ->
      isna p = false -> isna c = false ->
      float_at (Variance t) (col +:+ "_mom_pct") (S i)
      = Some (PrimFloat.sub (PrimFloat.div c p) 1%float).
Proof.
  apply (mom_pct_is_quotient (H := text_free true) revenue_without_cost). reflexivity.
Defined.

Lemma missing_cost_zero_profit_witness :
  exists t, build_tables (H := text_free true) revenue_without_cost = Ok t /\
    summary_value (Summary t) "cost" = Some (PFloat 0) /\
    summary_value (Summary t) "gross_profit" = Some (PFloat 0) /\
    forall col i x, col ∈ ["cost"; "gross_profit"] ->
      float_at (Trends t) col i = Some x -> x = 0%float.
Proof.
  apply (missing_cost_zero_profit (H := text_free true) revenue_without_cost); reflexivity.
Defined.



Lemma drilldown_headers_witness :
  exists t, build_tables (H := text_free true) two_months = Ok t /\
    labels (Drilldown_Region t) = ["month"; "region"; "revenue"; "gross_profit"] /\
    labels (Drilldown_Product t) = ["month"; "product"; "revenue"; "gross_profit"] /\
    (forall col, col ∈ ["revenue"; "gross_profit"] ->
       (exists xs, floats_of (Drilldown_Region t) col = Some xs /\
                   length xs = index_len (Drilldown_Region t)) /\
       (exists xs, floats_of (Drilldown_Product t) col = Some xs /\
                   length xs = index_len (Drilldown_Product t))).
Proof. apply (drilldown_headers (H := text_free true) two_months). reflexivity. Defined.

End KpisMore.

Module Pipeline.
Import PyFloat PyStr Pandas Store Clean Kpis Reading FrameFacts CleanFacts KpisFacts CleanMore KpisMore.

Section WithLibrary.
Context `{Library}.



End WithLibrary.


End Pipeline.
